(** * Token activity bot: quote selection, slippage floor, retry policy

    A shallow embedding of the trading core of the bot
    ([src/services/trading.js], [src/services/blockchain.js],
    [src/config/constants.js], and [validateSufficientBalance] of
    [src/utils/validation.js]).

    - [bigint] amounts are [Z]; BigInt division truncates towards zero
      ([Z.quot]).
    - JavaScript [number]s are IEEE-754 binary64 values, here the
      [spec_float] of the standard library at precision 53 and maximal
      exponent 1024, with its correctly rounded [SFmul] and [SFdiv].
    - Asynchronous functions are computations over an explicit state: the
      world of the collaborators (RPC provider, contracts, wallet) and a
      journal of the effects that matter to the specification (retry
      attempts, back-off sleeps, submitted transactions).  A computation
      returns, throws, or stays pending for ever.
    - The logger is a sink: its calls do not influence control flow and are
      not modelled, apart from the attempt line of [executeWithRetry], which
      is kept in the journal. *)

From Stdlib Require Import ZArith Lia List String Ascii Bool DecimalString.
From Stdlib Require Import QArith Qabs Qpower Qround.
From Stdlib Require Import SpecFloat.
Import ListNotations.
Open Scope string_scope.
Open Scope list_scope.
Open Scope Z_scope.

(* ================================================================== *)
(** * JavaScript values used by the code *)
(* ================================================================== *)

Module Js.

(** ** Numbers: IEEE-754 binary64 *)

Definition number := spec_float.
Definition prec : Z := 53.
Definition emax : Z := 1024.

Definition mul : number -> number -> number := SFmul prec emax.
Definition div : number -> number -> number := SFdiv prec emax.
Definition leb : number -> number -> bool := SFleb.
Definition ltb : number -> number -> bool := SFltb.
Definition valid : number -> bool := valid_binary prec emax.

(** [Number(z)] for a bigint or integer literal [z]. *)
Definition of_int (z : Z) : number := binary_normalize prec emax z 0 false.

(** The decimal literal [n / 10^k], read as the nearest binary64 value
    (exact operands, correctly rounded quotient). *)
Definition decimal (n k : Z) : number := div (of_int n) (of_int (10 ^ k)).

(** The exact rational value of a finite number. *)
Definition exact (x : number) : option Q :=
  match x with
  | S754_zero _ => Some 0%Q
  | S754_finite s m e =>
      Some (inject_Z (if s then Zneg m else Zpos m) * Qpower 2 e)%Q
  | _ => None
  end.

(** ** Objects carried by errors *)

Inductive value :=
| VStr (s : string)
| VNum (z : Z)
| VUndefined.

(** An [Error] object: its class name, [message], and the [code] and
    [details] that the bot's own error classes add. *)
Record Error := mkError {
  name : string;
  message : option string;
  code : option Z;
  details : list (string * value)
}.

Definition opt_str (s : option string) : value :=
  match s with Some v => VStr v | None => VUndefined end.

(** Synchronous code either returns or throws; a collaborator's promise
    either resolves or rejects. *)
Inductive Result (A : Type) :=
| Ok (a : A)
| Raise (e : Error).
#[global] Arguments Ok {A} a.
#[global] Arguments Raise {A} e.

(** [BigInt(Math.floor(x))]: the integer floor of a finite number.  NaN and
    the infinities pass through [Math.floor] and make [BigInt] throw a
    RangeError. *)
Definition RangeError_BigInt : Error :=
  mkError "RangeError"
    (Some "The number cannot be converted to a BigInt because it is not an integer")
    None [].

Definition BigInt_floor (x : number) : Result Z :=
  match x with
  | S754_zero _ => Ok 0
  | S754_finite s m e =>
      let v := if s then Zneg m else Zpos m in
      Ok (if 0 <=? e then v * 2 ^ e else v / 2 ^ (- e))
  | _ => Raise RangeError_BigInt
  end.

(** [Math.round(x)] as an integer: the floor of [x + 1/2]. *)
Definition round_int (x : number) : Result Z :=
  match x with
  | S754_zero _ => Ok 0
  | S754_finite s m e =>
      let v := if s then Zneg m else Zpos m in
      Ok (if 0 <=? e then v * 2 ^ e
          else (2 * v + 2 ^ (- e)) / (2 * 2 ^ (- e)))
  | _ => Raise RangeError_BigInt
  end.

(** [ethers.parseEther(x.toFixed(18))].  [toFixed(18)] prints the integer
    [n] for which [n / 10^18] is nearest to the magnitude of [x] (the
    larger one on a tie), with the sign of [x]; from [10^21] on, and for NaN
    and the infinities, it prints exponent notation or a word, which
    [parseEther] rejects. *)
Definition parseEther_error : Error :=
  mkError "TypeError" (Some "invalid FixedNumber string value") None [].

Definition toFixed18_parseEther (x : number) : Result Z :=
  match x with
  | S754_zero _ => Ok 0
  | S754_finite s m e =>
      let n := if 0 <=? e then Zpos m * 2 ^ e * 10 ^ 18
               else (2 * (Zpos m * 10 ^ 18) + 2 ^ (- e)) / (2 * 2 ^ (- e)) in
      let huge := if 0 <=? e then 10 ^ 21 <=? Zpos m * 2 ^ e
                  else 10 ^ 21 * 2 ^ (- e) <=? Zpos m in
      if huge then Raise parseEther_error
      else Ok (if s then - n else n)
  | _ => Raise parseEther_error
  end.

(** ** Strings *)

(** [toLowerCase] on the ASCII range. *)
Definition lower_ascii (c : ascii) : ascii :=
  let n := nat_of_ascii c in
  if (Nat.leb 65 n && Nat.leb n 90)%bool then ascii_of_nat (n + 32) else c.

Fixpoint toLowerCase (s : string) : string :=
  match s with
  | EmptyString => EmptyString
  | String c s' => String (lower_ascii c) (toLowerCase s')
  end.

(** [s.includes(sub)] *)
Fixpoint includes (s sub : string) : bool :=
  if String.prefix sub s then true
  else match s with
       | EmptyString => false
       | String _ s' => includes s' sub
       end.

(** Template-literal rendering of an integer. *)
Definition show (z : Z) : string := NilZero.string_of_int (Z.to_int z).

End Js.

Export Js (Result, Ok, Raise).

(* ================================================================== *)
(** * config/constants.js *)
(* ================================================================== *)

Definition Address := string.

Definition UNISWAP_V3_ROUTER : Address := "0x2626664c2603336E57B271c5C0b26F421741e481".
Definition UNISWAP_V3_QUOTER : Address := "0x3d4e44Eb1374240CE5F1B871ab261CD16335B76a".
Definition WETH_ADDRESS : Address := "0x4200000000000000000000000000000000000006".

Definition POOL_FEE_TIERS : list Z := [3000; 10000; 500].

Definition SLIPPAGE_TOLERANCE_PERCENT : Js.number := Js.of_int 5.
Definition GAS_LIMIT_MULTIPLIER : Js.number := Js.decimal 13 1.

Definition MAX_RETRY_ATTEMPTS : Z := 3.
Definition RETRY_BASE_DELAY_MS : Z := 2000.
Definition RETRY_BACKOFF_MULTIPLIER : Z := 2.

Module ERROR_CODES.
Definition RPC_CONNECTION_FAILED : Z := 2001.
Definition INSUFFICIENT_BALANCE : Z := 3001.
Definition TX_FAILED : Z := 3003.
Definition TX_REVERTED : Z := 3004.
Definition TOKEN_NOT_FOUND : Z := 4001.
Definition NO_LIQUIDITY : Z := 4003.
Definition INVALID_CONFIG : Z := 1001.
Definition MISSING_ENV_VAR : Z := 1002.
Definition INVALID_ADDRESS : Z := 1003.
Definition INVALID_PRIVATE_KEY : Z := 1004.
Definition NETWORK_MISMATCH : Z := 2002.
End ERROR_CODES.

(* ================================================================== *)
(** * The collaborators: ethers provider, contracts and wallet *)
(* ================================================================== *)

Record TokenInfo := mkTokenInfo {
  ti_name : string;
  ti_symbol : string;
  ti_decimals : Z;
  ti_address : Address
}.

(** Argument of [quoter.quoteExactInputSingle]. *)
Module QuoteParams.
Record t := mk {
  tokenIn : Address;
  tokenOut : Address;
  amountIn : Z;
  fee : Z;
  sqrtPriceLimitX96 : Z
}.
End QuoteParams.

(** Argument of [router.exactInputSingle]. *)
Module SwapParams.
Record t := mk {
  tokenIn : Address;
  tokenOut : Address;
  fee : Z;
  recipient : Address;
  amountIn : Z;
  amountOutMinimum : Z;
  sqrtPriceLimitX96 : Z
}.
End SwapParams.

(** An [ethers.TransactionResponse], identified by its hash. *)
Record Tx := mkTx { hash : string }.

(** An [ethers.TransactionReceipt]. *)
Record Receipt := mkReceipt {
  status : Z;
  blockNumber : Z;
  gasUsed : Z
}.

(** What [tx.wait()] does: it settles after some milliseconds, with a receipt
    or a rejection, or the transaction is never mined and the promise never
    settles.  ethers resolves with the receipt of a transaction that succeeded
    and rejects, with its CALL_EXCEPTION error, for one that is included with
    status 0. *)
Inductive Confirmation :=
| Settles (elapsedMs : Z) (r : Result Receipt)
| NeverSettles.

(** The collaborator interface.  Every call reads and may change the world
    [W]; read calls and submissions settle (resolve or reject), only
    [tx.wait()] may stay pending. *)
Class Ethers (W : Type) := {
  wallet_getAddress : W -> Result Address * W;
  erc20_name : Address -> W -> Result string * W;
  erc20_symbol : Address -> W -> Result string * W;
  erc20_decimals : Address -> W -> Result Z * W;
  erc20_balanceOf : Address -> Address -> W -> Result Z * W;
  erc20_allowance : Address -> Address -> Address -> W -> Result Z * W;
  erc20_approve_estimateGas : Address -> Address -> Z -> W -> Result Z * W;
  erc20_approve : Address -> Address -> Z -> Z -> W -> Result Tx * W;
  provider_getBalance : Address -> W -> Result Z * W;
  quoter_quoteExactInputSingle : QuoteParams.t -> W -> Result Z * W;
  router_exactInputSingle_estimateGas : SwapParams.t -> W -> Result Z * W;
  router_exactInputSingle : SwapParams.t -> Z -> W -> Result Tx * W;
  tx_wait : Tx -> W -> Confirmation * W;
  priceFeed_latestRoundData : W -> Result Z * W
}.

(* ================================================================== *)
(** * Asynchronous computations *)
(* ================================================================== *)

(** Effects recorded in the journal, in the order they happen. *)
Inductive Event :=
| Attempt (operationName : string) (attempt : Z)
| Sleep (ms : Z)
| ApproveSubmitted (token spender : Address) (amount gasLimit : Z)
| SwapSubmitted (params : SwapParams.t) (gasLimit : Z).

Record State (W : Type) := mkState {
  world : W;
  journal : list Event
}.
Arguments mkState {W} world journal.
Arguments world {W} s.
Arguments journal {W} s.

Inductive Completion (A : Type) :=
| Returned (a : A)
| Thrown (e : Js.Error)
| Pending.
Arguments Returned {A} a.
Arguments Thrown {A} e.
Arguments Pending {A}.

Definition Async (W A : Type) := State W -> Completion A * State W.

Definition ret {W A} (a : A) : Async W A := fun st => (Returned a, st).

Definition throw {W A} (e : Js.Error) : Async W A := fun st => (Thrown e, st).

Definition bind {W A B} (m : Async W A) (k : A -> Async W B) : Async W B :=
  fun st =>
    match m st with
    | (Returned a, st') => k a st'
    | (Thrown e, st') => (Thrown e, st')
    | (Pending, st') => (Pending, st')
    end.

Notation "x <- m ;; k" := (bind m (fun x => k))
  (at level 61, m at next level, right associativity).
Notation "m ;; k" := (bind m (fun _ => k))
  (at level 61, right associativity).

(** [try { m } catch (error) { handler error }] *)
Definition try_catch {W A} (m : Async W A) (handler : Js.Error -> Async W A)
  : Async W A :=
  fun st =>
    match m st with
    | (Thrown e, st') => handler e st'
    | other => other
    end.

(** The outcome of a [try] block as a value, for a [catch] that falls
    through to the code after it. *)
Definition settle {W A} (m : Async W A) : Async W (Result A) :=
  fun st =>
    match m st with
    | (Returned a, st') => (Returned (Ok a), st')
    | (Thrown e, st') => (Returned (Raise e), st')
    | (Pending, st') => (Pending, st')
    end.

(** Awaiting a collaborator call. *)
Definition call {W A} (op : W -> Result A * W) : Async W A :=
  fun st =>
    let (r, w) := op (world st) in
    (match r with Ok a => Returned a | Raise e => Thrown e end,
     mkState w (journal st)).

(** A synchronous step that may throw. *)
Definition lift {W A} (r : Result A) : Async W A :=
  match r with Ok a => ret a | Raise e => throw e end.

Definition emit {W} (ev : Event) : Async W unit :=
  fun st => (Returned tt, mkState (world st) (journal st ++ [ev])).

(* ================================================================== *)
(** * services/blockchain.js *)
(* ================================================================== *)

Definition BlockchainError (message : string) (code : Z)
  (details : list (string * Js.value)) : Js.Error :=
  Js.mkError "BlockchainError" (Some message) (Some code) details.

(** ** Retry logic *)

Definition nonRetryableMessages : list string :=
  [ "insufficient funds";
    "nonce too low";
    "replacement fee too low";
    "already known";
    "invalid private key";
    "execution reverted" ].

Definition isNonRetryableError (error : Js.Error) : bool :=
  let errorMessage :=
    match Js.message error with
    | Some m => Js.toLowerCase m
    | None => ""
    end in
  existsb (fun msg => Js.includes errorMessage msg) nonRetryableMessages.

Definition sleep {W} (ms : Z) : Async W unit := emit (Sleep ms).

(** The error thrown once the loop is over. *)
Definition retriesExhausted (operationName : string)
  (lastError : option Js.Error) : Js.Error :=
  BlockchainError
    (operationName ++ " failed after " ++ Js.show MAX_RETRY_ATTEMPTS ++ " attempts")
    ERROR_CODES.TX_FAILED
    [("lastError",
      match lastError with
      | Some e => Js.opt_str (Js.message e)
      | None => Js.VUndefined
      end)].

(** The body of [for (attempt = 1; attempt <= MAX_RETRY_ATTEMPTS; attempt++)],
    over the attempt numbers still to run. *)
Fixpoint retryLoop {W T} (fn : Async W T) (operationName : string)
  (attempts : list Z) (lastError : option Js.Error) : Async W T :=
  match attempts with
  | [] => throw (retriesExhausted operationName lastError)
  | attempt :: rest =>
      emit (Attempt operationName attempt) ;;
      r <- settle fn ;;
      match r with
      | Ok v => ret v
      | Raise error =>
          if isNonRetryableError error then throw error
          else
            (if attempt <? MAX_RETRY_ATTEMPTS
             then sleep (RETRY_BASE_DELAY_MS
                         * RETRY_BACKOFF_MULTIPLIER ^ (attempt - 1))
             else ret tt) ;;
            retryLoop fn operationName rest (Some error)
      end
  end.

Definition attemptNumbers : list Z :=
  map Z.of_nat (seq 1 (Z.to_nat MAX_RETRY_ATTEMPTS)).

Definition executeWithRetry {W T} (fn : Async W T) (operationName : string)
  : Async W T :=
  retryLoop fn operationName attemptNumbers None.

(** ** Token operations *)

Section Blockchain.
Context {W : Type} `{Ethers W}.

(** [p.catch(() => d)] *)
Definition catch_default {A} (m : Async W A) (d : A) : Async W A :=
  try_catch m (fun _ => ret d).

Definition getTokenInfo (tokenAddress : Address) : Async W TokenInfo :=
  try_catch
    (name <- catch_default (call (erc20_name tokenAddress)) "Unknown" ;;
     symbol <- catch_default (call (erc20_symbol tokenAddress)) "UNKNOWN" ;;
     decimals <- catch_default (call (erc20_decimals tokenAddress)) 18 ;;
     ret (mkTokenInfo name symbol decimals tokenAddress))
    (fun error =>
       throw (BlockchainError
                ("Failed to get token info for " ++ tokenAddress)
                ERROR_CODES.TOKEN_NOT_FOUND
                [("tokenAddress", Js.VStr tokenAddress);
                 ("error", Js.opt_str (Js.message error))])).

Definition getTokenBalance (tokenAddress walletAddress : Address)
  : Async W Z :=
  try_catch
    (call (erc20_balanceOf tokenAddress walletAddress))
    (fun error =>
       throw (BlockchainError "Failed to get token balance"
                ERROR_CODES.TOKEN_NOT_FOUND
                [("tokenAddress", Js.VStr tokenAddress);
                 ("error", Js.opt_str (Js.message error))])).

Definition getEthBalance (walletAddress : Address) : Async W Z :=
  try_catch
    (call (provider_getBalance walletAddress))
    (fun error =>
       throw (BlockchainError "Failed to get ETH balance"
                ERROR_CODES.RPC_CONNECTION_FAILED
                [("error", Js.opt_str (Js.message error))])).

(** [await tx.wait()] on its own: pending for as long as the promise is. *)
Definition await_wait (tx : Tx) : Async W Receipt :=
  fun st =>
    let (c, w) := tx_wait tx (world st) in
    (match c with
     | Settles _ (Ok receipt) => Returned receipt
     | Settles _ (Raise e) => Thrown e
     | NeverSettles => Pending
     end,
     mkState w (journal st)).

(** [await Promise.race([tx.wait(), timer])] where the timer rejects with
    [timeoutError] after [timeoutMs]: the promise that settles first decides,
    and [tx.wait()], the first of the two in the array, also decides when both
    settle at the same time. *)
Definition await_race (tx : Tx) (timeoutMs : Z) (timeoutError : Js.Error)
  : Async W Receipt :=
  fun st =>
    let (c, w) := tx_wait tx (world st) in
    (match c with
     | Settles elapsedMs r =>
         if elapsedMs <=? timeoutMs
         then match r with Ok receipt => Returned receipt | Raise e => Thrown e end
         else Thrown timeoutError
     | NeverSettles => Thrown timeoutError
     end,
     mkState w (journal st)).

Definition approveToken (tokenAddress spenderAddress : Address) (amount : Z)
  : Async W (option Receipt) :=
  owner <- call wallet_getAddress ;;
  currentAllowance <- call (erc20_allowance tokenAddress owner spenderAddress) ;;
  if amount <=? currentAllowance then ret None
  else
    tx <- executeWithRetry
            (gasEstimate <- call (erc20_approve_estimateGas
                                    tokenAddress spenderAddress amount) ;;
             let gasLimit := Z.quot (gasEstimate * 130) 100 in
             emit (ApproveSubmitted tokenAddress spenderAddress amount gasLimit) ;;
             call (erc20_approve tokenAddress spenderAddress amount gasLimit))
            "Token approval" ;;
    receipt <- await_wait tx ;;
    if negb (status receipt =? 1)
    then throw (BlockchainError "Token approval transaction failed"
                  ERROR_CODES.TX_REVERTED
                  [("txHash", Js.VStr (hash tx))])
    else ret (Some receipt).

(** ** Transaction helpers *)

Definition timeoutError : Js.Error :=
  Js.mkError "Error" (Some "Transaction confirmation timeout") None [].

(** [timeoutMs] is the optional third parameter, 120000 when omitted. *)
Definition waitForTransaction (tx : Tx) (timeoutMs : option Z)
  : Async W Receipt :=
  let timeoutMs := match timeoutMs with Some t => t | None => 120000 end in
  receipt <- await_race tx timeoutMs timeoutError ;;
  if negb (status receipt =? 1)
  then throw (BlockchainError "Transaction reverted"
                ERROR_CODES.TX_REVERTED
                [("txHash", Js.VStr (hash tx));
                 ("status", Js.VNum (status receipt))])
  else ret receipt.

End Blockchain.

Definition getExplorerUrl (txHash : string) : string :=
  "https://basescan.org/tx/" ++ txHash.

(* ================================================================== *)
(** * utils/validation.js *)
(* ================================================================== *)

Definition ValidationError (message : string) (code : Z)
  (details : list (string * Js.value)) : Js.Error :=
  Js.mkError "ValidationError" (Some message) (Some code) details.

Definition validateSufficientBalance (balance required : Z)
  (tokenSymbol : string) : Result unit :=
  if balance <? required
  then Raise (ValidationError
                ("Insufficient " ++ tokenSymbol ++ " balance")
                ERROR_CODES.INSUFFICIENT_BALANCE
                [("balance", Js.VStr (Js.show balance));
                 ("required", Js.VStr (Js.show required));
                 ("token", Js.VStr tokenSymbol)])
  else Ok tt.

(* ================================================================== *)
(** * services/trading.js *)
(* ================================================================== *)

(** The object [{ fee, amountOut }] that [findBestPoolFee] maintains. *)
Module Quote.
Record t := mk {
  fee : Z;
  amountOut : Z
}.
End Quote.

(** The result objects of [executeSell] and [executeBuy].  All have
    [success: true]; amounts are kept as the bigints that the source renders
    with [formatUnits], [formatEther] and [toString]; the timestamp and the
    estimated USD value, which are for display only, are left out. *)
Record SellReport := mkSellReport {
  sell_txHash : string;
  sell_explorerUrl : string;
  sell_blockNumber : Z;
  sell_gasUsed : Z;
  sell_token : TokenInfo;
  sell_tokenAmountWei : Z;
  sell_expectedEth : Z;
  sell_minEth : Z;
  sell_newTokenBalance : Z;
  sell_newEthBalance : Z;
  sell_poolFee : Z
}.

Inductive SellResult :=
| SellSkipped (reason : string) (tokenAddress : Address) (symbol : string)
| SellDone (report : SellReport).

Record BuyReport := mkBuyReport {
  buy_txHash : string;
  buy_explorerUrl : string;
  buy_blockNumber : Z;
  buy_gasUsed : Z;
  buy_token : TokenInfo;
  buy_usdAmount : Js.number;
  buy_wethAmountWei : Z;
  buy_expectedTokens : Z;
  buy_minTokens : Z;
  buy_newTokenBalance : Z;
  buy_newWethBalance : Z;
  buy_poolFee : Z
}.

(** ** Pure steps *)

(** [calculateMinOutput(expectedOutput, slippagePercent)] *)
Definition calculateMinOutput (expectedOutput : Z)
  (slippagePercent : Js.number) : Result Z :=
  match Js.BigInt_floor (Js.mul slippagePercent (Js.of_int 100)) with
  | Ok slippageBps =>
      Ok (expectedOutput - Z.quot (expectedOutput * slippageBps) 10000)
  | Raise e => Raise e
  end.

(** [(gasEstimate * BigInt(Math.floor(GAS_LIMIT_MULTIPLIER * 100))) / 100n] *)
Definition gasLimitFor (gasEstimate : Z) : Result Z :=
  match Js.BigInt_floor (Js.mul GAS_LIMIT_MULTIPLIER (Js.of_int 100)) with
  | Ok k => Ok (Z.quot (gasEstimate * k) 100)
  | Raise e => Raise e
  end.

(** Step 2 of [executeBuy]:
    [wethAmount = amountUsd / ethPriceUsd] and
    [wethAmountWei = ethers.parseEther(wethAmount.toFixed(18))]. *)
Definition wethAmount (amountUsd ethPriceUsd : Js.number) : Js.number :=
  Js.div amountUsd ethPriceUsd.

Definition wethAmountWei (amountUsd ethPriceUsd : Js.number) : Result Z :=
  Js.toFixed18_parseEther (wethAmount amountUsd ethPriceUsd).

Section Trading.
Context {W : Type} `{Ethers W}.

(** ** Price discovery *)

Definition getEthPriceUsd : Async W Js.number :=
  try_catch
    (price <- call priceFeed_latestRoundData ;;
     ret (Js.div (Js.of_int price) (Js.of_int 100000000)))
    (fun _ => ret (Js.of_int 3000)).

(** The loop of [findBestPoolFee] over the fee tiers still to probe. *)
Fixpoint probeTiers (tokenIn tokenOut : Address) (amountIn : Z)
  (fees : list Z) (bestQuote : Quote.t) : Async W Quote.t :=
  match fees with
  | [] => ret bestQuote
  | fee :: rest =>
      r <- settle (call (quoter_quoteExactInputSingle
                           (QuoteParams.mk tokenIn tokenOut amountIn fee 0))) ;;
      match r with
      | Ok amountOut =>
          probeTiers tokenIn tokenOut amountIn rest
            (if Quote.amountOut bestQuote <? amountOut
             then Quote.mk fee amountOut
             else bestQuote)
      | Raise _ => probeTiers tokenIn tokenOut amountIn rest bestQuote
      end
  end.

Definition findBestPoolFee (tokenIn tokenOut : Address) (amountIn : Z)
  : Async W Quote.t :=
  bestQuote <- probeTiers tokenIn tokenOut amountIn POOL_FEE_TIERS
                 (Quote.mk 0 0) ;;
  if Quote.amountOut bestQuote =? 0
  then throw (BlockchainError "No liquidity found for token pair"
                ERROR_CODES.NO_LIQUIDITY
                [("tokenIn", Js.VStr tokenIn);
                 ("tokenOut", Js.VStr tokenOut)])
  else ret bestQuote.

(** The callback that both operations hand to [executeWithRetry]. *)
Definition submitSwap (swapParams : SwapParams.t) : Async W Tx :=
  gasEstimate <- call (router_exactInputSingle_estimateGas swapParams) ;;
  gasLimit <- lift (gasLimitFor gasEstimate) ;;
  emit (SwapSubmitted swapParams gasLimit) ;;
  call (router_exactInputSingle swapParams gasLimit).

(** ** Buy operation *)

Definition executeBuy (tokenAddress : Address)
  (amountUsd slippageTolerance : Js.number) : Async W BuyReport :=
  walletAddress <- call wallet_getAddress ;;
  tokenInfo <- getTokenInfo tokenAddress ;;
  ethPriceUsd <- getEthPriceUsd ;;
  wethAmountWei <- lift (wethAmountWei amountUsd ethPriceUsd) ;;
  wethBalance <- getTokenBalance WETH_ADDRESS walletAddress ;;
  ethBalance <- getEthBalance walletAddress ;;
  let gasBuffer := 10 ^ 15 in
  lift (validateSufficientBalance ethBalance gasBuffer "ETH (for gas)") ;;
  lift (validateSufficientBalance wethBalance wethAmountWei "WETH") ;;
  quote <- findBestPoolFee WETH_ADDRESS tokenAddress wethAmountWei ;;
  let fee := Quote.fee quote in
  let amountOut := Quote.amountOut quote in
  minAmountOut <- lift (calculateMinOutput amountOut slippageTolerance) ;;
  approveToken WETH_ADDRESS UNISWAP_V3_ROUTER wethAmountWei ;;
  let swapParams :=
    SwapParams.mk WETH_ADDRESS tokenAddress fee walletAddress
      wethAmountWei minAmountOut 0 in
  tx <- executeWithRetry (submitSwap swapParams) "Buy swap" ;;
  receipt <- waitForTransaction tx None ;;
  newTokenBalance <- getTokenBalance tokenAddress walletAddress ;;
  newWethBalance <- getTokenBalance WETH_ADDRESS walletAddress ;;
  ret (mkBuyReport (hash tx) (getExplorerUrl (hash tx))
         (blockNumber receipt) (gasUsed receipt) tokenInfo
         amountUsd wethAmountWei amountOut minAmountOut
         newTokenBalance newWethBalance fee).

(** ** Sell operation *)

Definition executeSell (tokenAddress : Address)
  (slippageTolerance : Js.number) : Async W SellResult :=
  walletAddress <- call wallet_getAddress ;;
  tokenInfo <- getTokenInfo tokenAddress ;;
  tokenBalance <- getTokenBalance tokenAddress walletAddress ;;
  if tokenBalance =? 0
  then ret (SellSkipped "No tokens to sell" tokenAddress (ti_symbol tokenInfo))
  else
    quote <- findBestPoolFee tokenAddress WETH_ADDRESS tokenBalance ;;
    let fee := Quote.fee quote in
    let amountOut := Quote.amountOut quote in
    minAmountOut <- lift (calculateMinOutput amountOut slippageTolerance) ;;
    approveToken tokenAddress UNISWAP_V3_ROUTER tokenBalance ;;
    let swapParams :=
      SwapParams.mk tokenAddress WETH_ADDRESS fee walletAddress
        tokenBalance minAmountOut 0 in
    tx <- executeWithRetry (submitSwap swapParams) "Sell swap" ;;
    receipt <- waitForTransaction tx None ;;
    newTokenBalance <- getTokenBalance tokenAddress walletAddress ;;
    newEthBalance <- getEthBalance walletAddress ;;
    getEthPriceUsd ;;
    ret (SellDone
           (mkSellReport (hash tx) (getExplorerUrl (hash tx))
              (blockNumber receipt) (gasUsed receipt) tokenInfo
              tokenBalance amountOut minAmountOut
              newTokenBalance newEthBalance fee)).

End Trading.

(* ================================================================== *)
(** * Definitions used to state the properties *)
(* ================================================================== *)

(** The quoter's answers, tier by tier, during one probe that starts in
    world [w]. *)
Fixpoint quoteOutcomes {W} `{Ethers W} (tokenIn tokenOut : Address)
  (amountIn : Z) (fees : list Z) (w : W) : list (Z * Result Z) :=
  match fees with
  | [] => []
  | fee :: rest =>
      let (r, w') := quoter_quoteExactInputSingle
                       (QuoteParams.mk tokenIn tokenOut amountIn fee 0) w in
      (fee, r) :: quoteOutcomes tokenIn tokenOut amountIn rest w'
  end.

(** The running maximum of [findBestPoolFee] over a list of answers. *)
Fixpoint selectQuote (outcomes : list (Z * Result Z)) (bestQuote : Quote.t)
  : Quote.t :=
  match outcomes with
  | [] => bestQuote
  | (fee, Ok amountOut) :: rest =>
      selectQuote rest
        (if Quote.amountOut bestQuote <? amountOut
         then Quote.mk fee amountOut
         else bestQuote)
  | (_, Raise _) :: rest => selectQuote rest bestQuote
  end.

(** The error of [findBestPoolFee]. *)
Definition noLiquidity (tokenIn tokenOut : Address) : Js.Error :=
  BlockchainError "No liquidity found for token pair"
    ERROR_CODES.NO_LIQUIDITY
    [("tokenIn", Js.VStr tokenIn); ("tokenOut", Js.VStr tokenOut)].

(** The error of [waitForTransaction] on a non-success receipt. *)
Definition reverted (tx : Tx) (receipt : Receipt) : Js.Error :=
  BlockchainError "Transaction reverted" ERROR_CODES.TX_REVERTED
    [("txHash", Js.VStr (hash tx)); ("status", Js.VNum (status receipt))].

(** The minimum output as the specification words it:
    [E - floor(E * round(S*100) / 10000)]. *)
Definition minOut_as_specified (E : Z) (S : Js.number) : Result Z :=
  match Js.round_int (Js.mul S (Js.of_int 100)) with
  | Ok r => Ok (E - (E * r) / 10000)
  | Raise e => Raise e
  end.

(** A slippage percentage in the closed interval from 0 to 100. *)
Definition percent_in_range (S : Js.number) : bool :=
  Js.valid S && Js.leb (Js.of_int 0) S && Js.leb S (Js.of_int 100).

(** [wei] is within one smallest unit of the exact quotient
    [amountUsd / ethPriceUsd], expressed in wei. *)
Definition withinOneWei (amountUsd ethPriceUsd : Js.number) (wei : Z) : Prop :=
  match Js.exact amountUsd, Js.exact ethPriceUsd with
  | Some u, Some p =>
      (Qabs (inject_Z wei - u / p * inject_Z (10 ^ 18)) <= 1)%Q
  | _, _ => False
  end.

(** [wei] is a nearest integer to the value of [x] expressed in wei. *)
Definition nearestWei (x : Js.number) (wei : Z) : Prop :=
  match Js.exact x with
  | Some q => (Qabs (inject_Z wei - q * inject_Z (10 ^ 18)) <= 1 # 2)%Q
  | None => False
  end.

(** The events that a computation adds to the journal all satisfy [P]. *)
Definition emits {W A} (P : Event -> Prop) (m : Async W A) : Prop :=
  forall st r st', m st = (r, st') ->
    exists evs, journal st' = journal st ++ evs /\ Forall P evs.


(** Every value that a computation returns satisfies [Q]. *)
Definition returnsOnly {W A} (Q : A -> Prop) (m : Async W A) : Prop :=
  forall st a st', m st = (Returned a, st') -> Q a.

(** A computation that leaves the journal alone. *)
Definition quiet {W A} (m : Async W A) : Prop :=
  forall st, journal (snd (m st)) = journal st.

(** The number 100 as a binary64 value: [25 * 2^48 * 2^-46]. *)
Definition hundred : Js.number := S754_finite false 7036874417766400 (-46).

(** The value that [binary_round_aux] builds from a rounded mantissa and its
    exponent. *)
Definition round_result (m2 e2 : Z) : Js.number :=
  match m2 with
  | Z0 => S754_zero false
  | Zpos m =>
      if e2 <=? Js.emax - Js.prec then S754_finite false m e2
      else S754_infinity false
  | Zneg _ => S754_nan
  end.

(* ================================================================== *)
(** * A scripted world, for concrete runs *)
(* ================================================================== *)

Module Demo.

Record World := mk {
  quotes : Z -> Result Z;
  tokenBalance : Z;
  allowance : Z;
  swapErrors : list Js.Error;
  confirmation : Confirmation
}.

Definition rpcError (m : string) : Js.Error := Js.mkError "Error" (Some m) None [].

#[global] Instance ethers : Ethers World := {
  wallet_getAddress w := (Ok "0xWallet", w);
  erc20_name _ w := (Ok "Demo Token", w);
  erc20_symbol _ w := (Ok "DEMO", w);
  erc20_decimals _ w := (Ok 18, w);
  erc20_balanceOf _ _ w := (Ok (tokenBalance w), w);
  erc20_allowance _ _ _ w := (Ok (allowance w), w);
  erc20_approve_estimateGas _ _ _ w := (Ok 50000, w);
  erc20_approve _ _ _ _ w := (Ok (mkTx "0xapprove"), w);
  provider_getBalance _ w := (Ok (10 ^ 18), w);
  quoter_quoteExactInputSingle params w := (quotes w (QuoteParams.fee params), w);
  router_exactInputSingle_estimateGas _ w := (Ok 100000, w);
  router_exactInputSingle _ _ w :=
    match swapErrors w with
    | e :: rest =>
        (Raise e, mk (quotes w) (tokenBalance w) (allowance w) rest (confirmation w))
    | [] => (Ok (mkTx "0xswap"), w)
    end;
  tx_wait _ w := (confirmation w, w);
  priceFeed_latestRoundData w := (Ok 250000000000, w)
}.

Definition noPool : Result Z := Raise (rpcError "call revert exception").

Definition mined : Confirmation := Settles 4000 (Ok (mkReceipt 1 100 90000)).

(** Only the 0.3% tier answers, with the given output. *)
Definition onlyTier3000 (out : Z) (fee : Z) : Result Z :=
  if fee =? 3000 then Ok out else noPool.

(** An operation that replays a list of outcomes, one per invocation. *)
Definition replay : Async (list (Result Z)) Z :=
  fun st =>
    match world st with
    | Ok v :: rest => (Returned v, mkState rest (journal st))
    | Raise e :: rest => (Thrown e, mkState rest (journal st))
    | [] => (Thrown (rpcError "script exhausted"), st)
    end.

(** The 0.3% tier quotes 50, the two tiers probed after it quote 70. *)
Definition tiedQuotes (fee : Z) : Result Z :=
  if fee =? 3000 then Ok 50 else Ok 70.

Definition noQuotes (fee : Z) : Result Z := noPool.

(** A wallet holding [balance] token units, with no allowance given yet. *)
Definition wallet (quotes : Z -> Result Z) (balance : Z)
  (confirmation : Confirmation) : World :=
  mk quotes balance 0 [] confirmation.

(** A fatal and a transient submission error. *)
Definition insufficientFunds : Js.Error :=
  rpcError "Insufficient funds for gas * price + value".

Definition networkTimeout : Js.Error := rpcError "request timeout".

(** A transaction included with status 0: [tx.wait()] rejects with the
    CALL_EXCEPTION error of ethers, which has none of the codes of
    [ERROR_CODES]. *)
Definition callException : Js.Error :=
  rpcError "transaction execution reverted".

Definition revertedOnChain : Confirmation := Settles 4000 (Raise callException).

End Demo.

(* ================================================================== *)
(** * More of config/constants.js *)
(* ================================================================== *)

Definition BASE_CHAIN_ID : Z := 8453.

Definition BASE_RPC_URLS : list string :=
  [ "https://mainnet.base.org";
    "https://base.llamarpc.com";
    "https://base.publicnode.com";
    "https://1rpc.io/base" ].

(* ================================================================== *)
(** * Strings and loose values of the validation layer *)
(* ================================================================== *)

(** Strings are sequences of ASCII code units, as for [Js.toLowerCase]. *)
Module Str.

(** The white space that [trim] removes, on the ASCII range: tab, line feed,
    vertical tab, form feed, carriage return and space. *)
Definition isWhiteSpace (c : ascii) : bool :=
  let n := nat_of_ascii c in
  ((Nat.leb 9 n && Nat.leb n 13) || Nat.eqb n 32)%bool.

Fixpoint trimStart (s : string) : string :=
  match s with
  | EmptyString => EmptyString
  | String c s' => if isWhiteSpace c then trimStart s' else s
  end.

Fixpoint trimEnd (s : string) : string :=
  match s with
  | EmptyString => EmptyString
  | String c s' =>
      match trimEnd s' with
      | EmptyString => if isWhiteSpace c then EmptyString else String c EmptyString
      | t => String c t
      end
  end.

Definition trim (s : string) : string := trimEnd (trimStart s).

(** The character class [[a-fA-F0-9]]. *)
Definition isHexDigit (c : ascii) : bool :=
  let n := nat_of_ascii c in
  ((Nat.leb 48 n && Nat.leb n 57)
   || (Nat.leb 97 n && Nat.leb n 102)
   || (Nat.leb 65 n && Nat.leb n 70))%bool.

Fixpoint allHex (s : string) : bool :=
  match s with
  | EmptyString => true
  | String c s' => isHexDigit c && allHex s'
  end.

(** The character class [[\x00-\x1F\x7F]]. *)
Definition isControl (c : ascii) : bool :=
  let n := nat_of_ascii c in (Nat.leb n 31 || Nat.eqb n 127)%bool.

(** [s.replace(/[\x00-\x1F\x7F]/g, '')] *)
Fixpoint removeControl (s : string) : string :=
  match s with
  | EmptyString => EmptyString
  | String c s' =>
      if isControl c then removeControl s' else String c (removeControl s')
  end.

(** [s.substring(0, n)] for an integer [n]: a negative [n] counts as 0, one
    beyond the length as the length. *)
Definition substring0 (n : Z) (s : string) : string :=
  String.substring 0 (Z.to_nat n) s.

(** [parts.join(', ')] *)
Fixpoint join (sep : string) (parts : list string) : string :=
  match parts with
  | [] => ""
  | [p] => p
  | p :: rest => p ++ sep ++ join sep rest
  end.

(** [x] occurs as a character of [s]. *)
Fixpoint occurs (x : ascii) (s : string) : bool :=
  match s with
  | EmptyString => false
  | String c s' => Ascii.eqb x c || occurs x s'
  end.

End Str.

(** [ETH_ADDRESS_PATTERN.test(s)], the pattern being [/^0x[a-fA-F0-9]{40}$/]. *)
Definition ETH_ADDRESS_PATTERN_test (s : string) : bool :=
  match s with
  | String c1 (String c2 rest) =>
      Ascii.eqb c1 "0" && Ascii.eqb c2 "x"
      && Str.allHex rest && Nat.eqb (String.length rest) 40
  | _ => false
  end.

(** [PRIVATE_KEY_PATTERN.test(s)], the pattern being
    [/^(0x)?[a-fA-F0-9]{64}$/]. *)
Definition PRIVATE_KEY_PATTERN_test (s : string) : bool :=
  (Str.allHex s && Nat.eqb (String.length s) 64)
  || match s with
     | String c1 (String c2 rest) =>
         Ascii.eqb c1 "0" && Ascii.eqb c2 "x"
         && Str.allHex rest && Nat.eqb (String.length rest) 64
     | _ => false
     end.

(** [!v] for the values that reach the validators: the empty string, 0 and
    [undefined] are falsy. *)
Definition falsy (v : Js.value) : bool :=
  match v with
  | Js.VStr s => String.eqb s ""
  | Js.VNum z => z =? 0
  | Js.VUndefined => true
  end.

Definition typeof (v : Js.value) : string :=
  match v with
  | Js.VStr _ => "string"
  | Js.VNum _ => "number"
  | Js.VUndefined => "undefined"
  end.

(** [String(v)] *)
Definition toString (v : Js.value) : string :=
  match v with
  | Js.VStr s => s
  | Js.VNum z => Js.show z
  | Js.VUndefined => "undefined"
  end.

(* ================================================================== *)
(** * More of utils/validation.js *)
(* ================================================================== *)

(** [fieldName] is optional, ['address'] when omitted. *)
Definition validateAddress (address : Js.value) (fieldName : option string)
  : Result string :=
  let fieldName := match fieldName with Some f => f | None => "address" end in
  if falsy address
  then Raise (ValidationError (fieldName ++ " is required")
                ERROR_CODES.INVALID_ADDRESS
                [("field", Js.VStr fieldName)])
  else
    match address with
    | Js.VStr s =>
        let trimmed := Str.trim s in
        if negb (ETH_ADDRESS_PATTERN_test trimmed)
        then Raise (ValidationError
                      (fieldName ++ " is not a valid Ethereum address")
                      ERROR_CODES.INVALID_ADDRESS
                      [("field", Js.VStr fieldName);
                       ("value", Js.VStr (Str.substring0 10 trimmed ++ "..."))])
        else Ok trimmed
    | _ =>
        Raise (ValidationError (fieldName ++ " must be a string")
                 ERROR_CODES.INVALID_ADDRESS
                 [("field", Js.VStr fieldName);
                  ("received", Js.VStr (typeof address))])
    end.

Definition validatePrivateKey (privateKey : Js.value) : Result string :=
  if falsy privateKey
  then Raise (ValidationError "Private key is required"
                ERROR_CODES.INVALID_PRIVATE_KEY
                [("field", Js.VStr "privateKey")])
  else
    match privateKey with
    | Js.VStr s =>
        let trimmed := Str.trim s in
        if negb (PRIVATE_KEY_PATTERN_test trimmed)
        then Raise (ValidationError "Invalid private key format"
                      ERROR_CODES.INVALID_PRIVATE_KEY
                      [("field", Js.VStr "privateKey")])
        else Ok (if String.prefix "0x" trimmed then trimmed
                 else ("0x" ++ trimmed)%string)
    | _ =>
        Raise (ValidationError "Private key must be a string"
                 ERROR_CODES.INVALID_PRIVATE_KEY
                 [("field", Js.VStr "privateKey")])
    end.

(** [values[varName] = v] and [values[varName]] on an object kept as the
    list of its own properties. *)
Fixpoint setProperty (key value : string) (obj : list (string * string))
  : list (string * string) :=
  match obj with
  | [] => [(key, value)]
  | (k, v) :: rest =>
      if String.eqb k key then (k, value) :: rest
      else (k, v) :: setProperty key value rest
  end.

Fixpoint getProperty (key : string) (obj : list (string * string))
  : option string :=
  match obj with
  | [] => None
  | (k, v) :: rest => if String.eqb k key then Some v else getProperty key rest
  end.

(** The loop of [validateEnvironment]: [env] is [process.env], and the pair
    is [(missing, values)]. *)
Fixpoint collectEnvironment (env : string -> option string)
  (requiredVars : list string) (missing : list string)
  (values : list (string * string)) : list string * list (string * string) :=
  match requiredVars with
  | [] => (missing, values)
  | varName :: rest =>
      match env varName with
      | Some value =>
          if (String.eqb value "" || String.eqb (Str.trim value) "")%bool
          then collectEnvironment env rest (missing ++ [varName]) values
          else collectEnvironment env rest missing
                 (setProperty varName (Str.trim value) values)
      | None => collectEnvironment env rest (missing ++ [varName]) values
      end
  end.

(** The outcome of [validateEnvironment]: the [values] object, or the
    ValidationError with code MISSING_ENV_VAR, given by its message and the
    [missing] array of its details. *)
Inductive Environment :=
| EnvValues (values : list (string * string))
| EnvMissing (message : string) (missing : list string).

Definition validateEnvironment (env : string -> option string)
  (requiredVars : list string) : Environment :=
  let (missing, values) := collectEnvironment env requiredVars [] [] in
  if (0 <? List.length missing)%nat
  then EnvMissing
         ("Missing required environment variables: " ++ Str.join ", " missing)
         missing
  else EnvValues values.

Definition validateChainId (chainId : Z) : Result unit :=
  if negb (chainId =? BASE_CHAIN_ID)
  then Raise (ValidationError
                ("Invalid network. Expected Base (" ++ Js.show BASE_CHAIN_ID
                 ++ "), got " ++ Js.show chainId)
                ERROR_CODES.NETWORK_MISMATCH
                [("expected", Js.VNum BASE_CHAIN_ID);
                 ("received", Js.VNum chainId)])
  else Ok tt.

(** [maxLength] is optional, 100 when omitted. *)
Definition sanitizeForLogging (input : Js.value) (maxLength : option Z)
  : string :=
  let maxLength := match maxLength with Some n => n | None => 100 end in
  match input with
  | Js.VStr s => Str.substring0 maxLength (Str.removeControl s)
  | _ => Str.substring0 maxLength (toString input)
  end.

(** The argument and the result of [validateTradeConfig]. *)
Record TradeConfigInput := mkTradeConfigInput {
  in_privateKey : Js.value;
  in_tokenAddress : Js.value;
  in_rpcUrl : Js.value;
  in_slippageTolerance : option Js.number;
  in_maxGasPrice : option Js.number
}.

Record TradeConfig := mkTradeConfig {
  privateKey : string;
  tokenAddress : Address;
  rpcUrl : string;
  slippageTolerance : Js.number;
  maxGasPrice : Js.number
}.

Definition validateTradeConfig (config : TradeConfigInput)
  : Result TradeConfig :=
  match validatePrivateKey (in_privateKey config) with
  | Raise e => Raise e
  | Ok privateKey =>
      match validateAddress (in_tokenAddress config) (Some "TOKEN_ADDRESS") with
      | Raise e => Raise e
      | Ok tokenAddress =>
          match in_rpcUrl config with
          | Js.VStr url =>
              if falsy (in_rpcUrl config)
              then Raise (ValidationError "RPC URL is required"
                            ERROR_CODES.INVALID_CONFIG
                            [("field", Js.VStr "rpcUrl")])
              else
                Ok (mkTradeConfig privateKey tokenAddress (Str.trim url)
                      (match in_slippageTolerance config with
                       | Some s => s
                       | None => Js.of_int 5
                       end)
                      (match in_maxGasPrice config with
                       | Some g => g
                       | None => Js.of_int 50
                       end))
          | _ =>
              Raise (ValidationError "RPC URL is required"
                       ERROR_CODES.INVALID_CONFIG
                       [("field", Js.VStr "rpcUrl")])
          end
      end
  end.

(* ================================================================== *)
(** * Provider management of services/blockchain.js *)
(* ================================================================== *)

(** What a request does that is raced against a timer: it answers after
    some milliseconds, by resolving or rejecting, or it never answers. *)
Inductive Timed (A : Type) :=
| Answers (elapsedMs : Z) (r : Result A)
| Hangs.
Arguments Answers {A} elapsedMs r.
Arguments Hangs {A}.

(** [new ethers.JsonRpcProvider(rpcUrl, ...).getNetwork()], giving the chain
    id of the network. *)
Class Network (W : Type) := {
  provider_getNetwork : string -> W -> Timed Z * W
}.

(** A connected provider, identified by its endpoint. *)
Definition Provider := string.

Definition connectionTimeout : Js.Error :=
  Js.mkError "Error" (Some "Connection timeout") None [].

Definition noEndpoint (attemptedUrls : Z) (lastError : option Js.Error)
  : Js.Error :=
  BlockchainError "Failed to connect to any RPC endpoint"
    ERROR_CODES.RPC_CONNECTION_FAILED
    [("attemptedUrls", Js.VNum attemptedUrls);
     ("lastError",
      match lastError with
      | Some e => Js.opt_str (Js.message e)
      | None => Js.VUndefined
      end)].

Section Providers.
Context {W : Type} `{Network W}.

(** [await Promise.race([provider.getNetwork(), timer])], the timer
    rejecting with "Connection timeout" after 10000 ms. *)
Definition getNetwork_race (rpcUrl : string) : Async W Z :=
  fun st =>
    let (t, w) := provider_getNetwork rpcUrl (world st) in
    (match t with
     | Answers elapsedMs r =>
         if elapsedMs <? 10000
         then match r with Ok chainId => Returned chainId | Raise e => Thrown e end
         else Thrown connectionTimeout
     | Hangs => Thrown connectionTimeout
     end,
     mkState w (journal st)).

(** The [try] block of the loop of [createProvider]. *)
Definition connect (rpcUrl : string) : Async W Provider :=
  chainId <- getNetwork_race rpcUrl ;;
  lift (validateChainId chainId) ;;
  ret rpcUrl.

(** The loop of [createProvider] over the endpoints still to try;
    [attemptedUrls] is [rpcUrls.length]. *)
Fixpoint connectFirst (attemptedUrls : Z) (rpcUrls : list string)
  (lastError : option Js.Error) : Async W Provider :=
  match rpcUrls with
  | [] => throw (noEndpoint attemptedUrls lastError)
  | rpcUrl :: rest =>
      r <- settle (connect rpcUrl) ;;
      match r with
      | Ok provider => ret provider
      | Raise error => connectFirst attemptedUrls rest (Some error)
      end
  end.

Definition createProvider (primaryRpcUrl : string) : Async W Provider :=
  let rpcUrls := primaryRpcUrl :: BASE_RPC_URLS in
  connectFirst (Z.of_nat (List.length rpcUrls)) rpcUrls None.

End Providers.

(* ================================================================== *)
(** * The random buy amount of services/trading.js *)
(* ================================================================== *)

Definition MIN_BUY_AMOUNT_USD : Js.number := Js.of_int 1.
Definition MAX_BUY_AMOUNT_USD : Js.number := Js.of_int 10.

Definition number_add : Js.number -> Js.number -> Js.number :=
  SFadd Js.prec Js.emax.
Definition number_sub : Js.number -> Js.number -> Js.number :=
  SFsub Js.prec Js.emax.

(** [Math.round(x)]: the integral number nearest to [x], the one towards
    plus infinity on a tie; a result of zero keeps the sign of [x]. *)
Definition Math_round (x : Js.number) : Js.number :=
  match x with
  | S754_finite s m e =>
      let v := if s then Zneg m else Zpos m in
      let n := if 0 <=? e then v * 2 ^ e
               else (2 * v + 2 ^ (- e)) / (2 * 2 ^ (- e)) in
      if n =? 0 then S754_zero s else Js.of_int n
  | _ => x
  end.

(** [generateRandomBuyAmount()], as a function of the value that
    [Math.random()] returns. *)
Definition generateRandomBuyAmount (random01 : Js.number) : Js.number :=
  let range := number_sub MAX_BUY_AMOUNT_USD MIN_BUY_AMOUNT_USD in
  let random := number_add (Js.mul random01 range) MIN_BUY_AMOUNT_USD in
  Js.div (Math_round (Js.mul random (Js.of_int 100))) (Js.of_int 100).

(* ================================================================== *)
(** * Further definitions used to state properties *)
(* ================================================================== *)

(** The world after the quoter has been asked about each of [fees] in turn. *)
Definition worldAfterProbe {W} `{Ethers W} (tokenIn tokenOut : Address)
  (amountIn : Z) (fees : list Z) (w : W) : W :=
  fold_left
    (fun w fee =>
       snd (quoter_quoteExactInputSingle
              (QuoteParams.mk tokenIn tokenOut amountIn fee 0) w))
    fees w.

(** The journal of a retried operation that itself writes nothing, when all
    attempts are used. *)
Definition fullSchedule (operationName : string) : list Event :=
  [ Attempt operationName 1; Sleep 2000;
    Attempt operationName 2; Sleep 4000;
    Attempt operationName 3 ].

(** An event other than a swap submission. *)
Definition notSwap (ev : Event) : Prop :=
  match ev with
  | SwapSubmitted _ _ => False
  | _ => True
  end.

(** An event that is no submission, or the submission of exactly this
    approval. *)
Definition approvalOf (token spender : Address) (amount : Z) (ev : Event)
  : Prop :=
  match ev with
  | ApproveSubmitted t s a _ => t = token /\ s = spender /\ a = amount
  | SwapSubmitted _ _ => False
  | _ => True
  end.

(** An event that is not a swap, or the submission of exactly this swap. *)
Definition swapOf (expected : SwapParams.t) (ev : Event) : Prop :=
  match ev with
  | SwapSubmitted params _ => params = expected
  | _ => True
  end.

(** An event that is no submission, or the submission of exactly this
    approval, or the submission of exactly this swap. *)
Definition tradeOf (token spender : Address) (amount : Z)
  (expected : SwapParams.t) (ev : Event) : Prop :=
  match ev with
  | ApproveSubmitted t s a _ => t = token /\ s = spender /\ a = amount
  | SwapSubmitted params _ => params = expected
  | _ => True
  end.

(** A computation that never stays pending. *)
Definition settles {W A} (m : Async W A) : Prop :=
  forall st, fst (m st) <> Pending.

(** The answers of the endpoints when they are asked one after the other,
    starting in world [w]. *)
Fixpoint endpointAnswers {W} `{Network W} (rpcUrls : list string) (w : W)
  : list (string * Timed Z) :=
  match rpcUrls with
  | [] => []
  | rpcUrl :: rest =>
      let (t, w') := provider_getNetwork rpcUrl w in
      (rpcUrl, t) :: endpointAnswers rest w'
  end.

(** An endpoint's answer is accepted: it came within 10 seconds and names
    the Base chain. *)
Definition accepted (t : Timed Z) : bool :=
  match t with
  | Answers elapsedMs (Ok chainId) =>
      (elapsedMs <? 10000) && (chainId =? BASE_CHAIN_ID)
  | _ => false
  end.

(** The error with which the attempt on an endpoint ends when its answer is
    not accepted: the timer's, the endpoint's own, or the chain mismatch. *)
Definition refusal (t : Timed Z) : Js.Error :=
  match t with
  | Answers elapsedMs r =>
      if elapsedMs <? 10000
      then match r with
           | Ok chainId =>
               match validateChainId chainId with
               | Raise e => e
               | Ok _ => connectionTimeout
               end
           | Raise e => e
           end
      else connectionTimeout
  | Hangs => connectionTimeout
  end.

(** The numbers that [Math.random()] can return: from 0 up to but
    excluding 1. *)
Definition unitInterval (x : Js.number) : bool :=
  Js.valid x && Js.leb (Js.of_int 0) x && Js.ltb x (Js.of_int 1).

(** The variable is not set, or it is blank. *)
Definition unset (env : string -> option string) (varName : string) : bool :=
  match env varName with
  | Some value => String.eqb value "" || String.eqb (Str.trim value) ""
  | None => true
  end.

(** [values.KEY] read as a loose value. *)
Definition property (key : string) (values : list (string * string))
  : Js.value :=
  match getProperty key values with
  | Some v => Js.VStr v
  | None => Js.VUndefined
  end.

(** The object literal that both entry points hand to [validateTradeConfig],
    given the numbers that [Number(process.env.X) || DEFAULT] yield. *)
Definition tradeConfigOf (env : list (string * string))
  (slippageTolerance maxGasPrice : Js.number) : TradeConfigInput :=
  mkTradeConfigInput (property "PRIVATE_KEY" env) (property "TOKEN_ADDRESS" env)
    (property "RPC_URL" env) (Some slippageTolerance) (Some maxGasPrice).

(* ================================================================== *)
(** * Scripted endpoints, for concrete runs *)
(* ================================================================== *)

Module DemoNet.

(** The world is what each endpoint does. *)
Definition World := string -> Timed Z.

#[global] Instance network : Network World := {
  provider_getNetwork rpcUrl w := (w rpcUrl, w)
}.

(** The primary endpoint hangs, the first fallback is on another chain, the
    second fallback answers for Base after 800 ms. *)
Definition flaky (rpcUrl : string) : Timed Z :=
  if String.eqb rpcUrl "https://base.llamarpc.com" then Answers 800 (Ok 8453)
  else if String.eqb rpcUrl "https://mainnet.base.org" then Answers 300 (Ok 1)
  else Hangs.

Definition down (rpcUrl : string) : Timed Z :=
  if String.eqb rpcUrl "https://1rpc.io/base"
  then Answers 50 (Raise (Js.mkError "Error" (Some "ECONNREFUSED") None []))
  else Hangs.

End DemoNet.

(** The scripted world of [Demo] with a chosen ETH balance and a chosen
    answer of the price feed. *)
Module DemoFunds.

Definition ethers (ethBalance : Z) (feed : Result Z) : Ethers Demo.World := {|
  wallet_getAddress := wallet_getAddress (Ethers := Demo.ethers);
  erc20_name := erc20_name (Ethers := Demo.ethers);
  erc20_symbol := erc20_symbol (Ethers := Demo.ethers);
  erc20_decimals := erc20_decimals (Ethers := Demo.ethers);
  erc20_balanceOf := erc20_balanceOf (Ethers := Demo.ethers);
  erc20_allowance := erc20_allowance (Ethers := Demo.ethers);
  erc20_approve_estimateGas := erc20_approve_estimateGas (Ethers := Demo.ethers);
  erc20_approve := erc20_approve (Ethers := Demo.ethers);
  provider_getBalance := fun _ w => (Ok ethBalance, w);
  quoter_quoteExactInputSingle :=
    quoter_quoteExactInputSingle (Ethers := Demo.ethers);
  router_exactInputSingle_estimateGas :=
    router_exactInputSingle_estimateGas (Ethers := Demo.ethers);
  router_exactInputSingle := router_exactInputSingle (Ethers := Demo.ethers);
  tx_wait := tx_wait (Ethers := Demo.ethers);
  priceFeed_latestRoundData := fun w => (feed, w)
|}.


End DemoFunds.

(* ================================================================== *)
(** * Facts about binary64 rounding *)
(* ================================================================== *)

Lemma digits2_pos_size p : digits2_pos p = Pos.size p.
Proof. induction p; simpl; congruence. Qed.

Lemma digits2_lower p : 2 ^ (Zpos (digits2_pos p)) <= 2 * Zpos p.
Proof.
  rewrite digits2_pos_size. generalize (Pos.size_le p).
  intros H. apply Pos2Z.pos_le_pos in H. rewrite Pos2Z.inj_pow in H.
  rewrite Pos2Z.inj_xO in H. exact H.
Qed.

Lemma digits2_upper p : Zpos p < 2 ^ (Zpos (digits2_pos p)).
Proof.
  rewrite digits2_pos_size. generalize (Pos.size_gt p).
  intros H. apply Pos2Z.pos_lt_pos in H. rewrite Pos2Z.inj_pow in H. exact H.
Qed.

Lemma shr_1_m r : 0 <= shr_m r -> shr_m (shr_1 r) = shr_m r / 2.
Proof.
  destruct r as [m r s]; cbn [shr_m]. intros Hm.
  destruct m as [|[p|p|]|p]; cbn [shr_1 shr_m]; try reflexivity; try lia.
  - apply Z.div_unique with 1; lia.
  - apply Z.div_unique with 0; lia.
Qed.

Lemma pow2_xO p : 2 ^ Zpos p~0 = 2 ^ Zpos p * 2 ^ Zpos p.
Proof. rewrite <- Z.pow_add_r by lia. f_equal. lia. Qed.

Lemma pow2_xI p : 2 ^ Zpos p~1 = 2 * (2 ^ Zpos p * 2 ^ Zpos p).
Proof.
  rewrite <- Z.pow_add_r by lia. rewrite <- Z.pow_succ_r by lia. f_equal. lia.
Qed.

Lemma iter_pos_shr_m p : forall r, 0 <= shr_m r ->
  shr_m (iter_pos shr_1 p r) = shr_m r / 2 ^ (Zpos p).
Proof.
  induction p as [p IH|p IH|]; intros r Hr; simpl iter_pos.
  - assert (H1 : 0 <= shr_m (shr_1 r)) by (rewrite shr_1_m by assumption; apply Z.div_pos; lia).
    assert (H2 : 0 <= shr_m (iter_pos shr_1 p (shr_1 r))).
    { rewrite IH by assumption. apply Z.div_pos; [assumption|]. apply Z.pow_pos_nonneg; lia. }
    rewrite IH by assumption. rewrite IH by assumption. rewrite shr_1_m by assumption.
    rewrite !Z.div_div by (try apply Z.pow_pos_nonneg; lia).
    f_equal. rewrite (pow2_xI p). lia.
  - assert (H2 : 0 <= shr_m (iter_pos shr_1 p r)).
    { rewrite IH by assumption. apply Z.div_pos; [assumption|]. apply Z.pow_pos_nonneg; lia. }
    rewrite IH by assumption. rewrite IH by assumption.
    rewrite !Z.div_div by (try apply Z.pow_pos_nonneg; lia).
    f_equal. rewrite (pow2_xO p). lia.
  - rewrite shr_1_m by assumption. rewrite Z.pow_1_r. reflexivity.
Qed.

Lemma shr_spec r e n : 0 <= shr_m r ->
  shr_m (fst (shr r e n)) = shr_m r / 2 ^ (Z.max n 0) /\ snd (shr r e n) = e + Z.max n 0.
Proof.
  intros Hr. destruct n as [|p|p]; simpl.
  - rewrite Z.div_1_r. split; lia.
  - rewrite iter_pos_shr_m by assumption. split; reflexivity.
  - rewrite Z.div_1_r. split; lia.
Qed.

Lemma round_nearest_even_bounds m l : m <= round_nearest_even m l <= m + 1.
Proof. destruct l as [|[| |]]; simpl; try lia. destruct (Z.even m); lia. Qed.

Lemma shr_fexp_spec m e l : 0 <= m ->
  shr_m (fst (shr_fexp Js.prec Js.emax m e l)) =
    m / 2 ^ (snd (shr_fexp Js.prec Js.emax m e l) - e) /\
  snd (shr_fexp Js.prec Js.emax m e l) = Z.max e (fexp Js.prec Js.emax (Zdigits2 m + e)).
Proof.
  intros Hm. unfold shr_fexp.
  set (n := fexp Js.prec Js.emax (Zdigits2 m + e) - e).
  assert (Hr : 0 <= shr_m (shr_record_of_loc m l)) by (destruct l as [|[| |]]; exact Hm).
  destruct (shr_spec (shr_record_of_loc m l) e n Hr) as [H1 H2].
  rewrite H1, H2. split.
  - replace (shr_m (shr_record_of_loc m l)) with m by (destruct l as [|[| |]]; reflexivity).
    f_equal. f_equal. lia.
  - subst n. lia.
Qed.

Lemma binary_round_aux_pos M e :
  exists m1 e1 e2,
    e1 = Z.max e (fexp Js.prec Js.emax (Zpos (digits2_pos M) + e)) /\
    Zpos M / 2 ^ (e1 - e) <= m1 <= Zpos M / 2 ^ (e1 - e) + 1 /\
    e2 = Z.max e1 (fexp Js.prec Js.emax (Zdigits2 m1 + e1)) /\
    binary_round_aux Js.prec Js.emax false (Zpos M) e loc_Exact =
      round_result (m1 / 2 ^ (e2 - e1)) e2.
Proof.
  unfold binary_round_aux.
  destruct (shr_fexp_spec (Zpos M) e loc_Exact) as [Hm1 He1]; [lia|].
  destruct (shr_fexp Js.prec Js.emax (Zpos M) e loc_Exact) as [mrs1 e1] eqn:E1.
  cbn [fst snd] in Hm1, He1.
  set (m1 := round_nearest_even (shr_m mrs1) (loc_of_shr_record mrs1)).
  assert (Hb : shr_m mrs1 <= m1 <= shr_m mrs1 + 1) by apply round_nearest_even_bounds.
  assert (Hq : 0 <= shr_m mrs1).
  { rewrite Hm1. apply Z.div_pos; [lia|]. apply Z.pow_pos_nonneg; lia. }
  destruct (shr_fexp_spec m1 e1 loc_Exact) as [Hm2 He2]; [lia|].
  destruct (shr_fexp Js.prec Js.emax m1 e1 loc_Exact) as [mrs2 e2] eqn:E2.
  cbn [fst snd] in Hm2, He2.
  exists m1, e1, e2. split; [exact He1|]. split; [rewrite <- Hm1; exact Hb|].
  split; [exact He2|]. rewrite Hm2. reflexivity.
Qed.

Lemma bounded_inv m e : bounded Js.prec Js.emax m e = true ->
  Zpos m < 2 ^ 53 /\ -1074 <= e <= 971.
Proof.
  unfold bounded, canonical_mantissa, fexp, emin, Js.prec, Js.emax.
  intros H. apply andb_prop in H. destruct H as [H1 H2].
  apply Z.eqb_eq in H1. apply Z.leb_le in H2.
  split; [|lia].
  assert (Hd : Zpos (digits2_pos m) <= 53) by lia.
  eapply Z.lt_le_trans; [apply digits2_upper|].
  apply Z.pow_le_mono_r; lia.
Qed.

Lemma leb_hundred_inv m e :
  SFleb (S754_finite false m e) hundred = true ->
  e < -46 \/ (e = -46 /\ Zpos m <= 7036874417766400).
Proof.
  unfold SFleb, SFcompare, hundred.
  destruct (Z.compare_spec e (-46)) as [He|He|He].
  - intros H. right. split; [exact He|].
    destruct (Pos.compare_cont Eq m 7036874417766400) eqn:C.
    + apply Pos.compare_eq in C. subst m. apply Z.le_refl.
    + apply Pos.compare_lt_iff in C. apply Pos2Z.pos_lt_pos in C. apply Z.lt_le_incl. exact C.
    + discriminate.
  - intros _. left. exact He.
  - discriminate.
Qed.

Lemma Zdigits2_le m k : 0 <= m -> 0 <= k -> m <= 2 ^ k -> Zdigits2 m <= k + 1.
Proof.
  intros Hm Hk H. destruct m as [|p|p]; simpl; try lia.
  assert (H1 := digits2_lower p).
  destruct (Z_le_gt_dec (Zpos (digits2_pos p)) (k + 1)) as [L|G]; [exact L|].
  exfalso.
  assert (2 ^ (k + 2) <= 2 ^ Zpos (digits2_pos p)) by (apply Z.pow_le_mono_r; lia).
  replace (k + 2) with (2 + k) in H0 by lia.
  rewrite Z.pow_add_r in H0 by lia. change (2 ^ 2) with 4 in H0.
  assert (0 < 2 ^ k) by (apply Z.pow_pos_nonneg; lia).
  lia.
Qed.

Lemma floor_round_result_bound m2 e2 e B :
  0 <= m2 -> e <= e2 -> e <= 0 -> e2 <= Js.emax - Js.prec -> 0 < B ->
  m2 * 2 ^ (e2 - e) < B * 2 ^ (- e) ->
  exists b, Js.BigInt_floor (round_result m2 e2) = Ok b /\ 0 <= b < B.
Proof.
  intros Hm He Hneg Hfin HB Hlt.
  destruct m2 as [|p|p]; [exists 0; simpl; split; [reflexivity|lia] | | lia].
  unfold round_result. apply Z.leb_le in Hfin. rewrite Hfin.
  cbn [Js.BigInt_floor]. eexists; split; [reflexivity|].
  assert (P0 : 0 < 2 ^ (- e)) by (apply Z.pow_pos_nonneg; lia).
  destruct (Z.leb_spec 0 e2) as [L|L].
  - assert (P2 : 0 < 2 ^ e2) by (apply Z.pow_pos_nonneg; lia).
    replace (e2 - e) with (e2 + - e) in Hlt by lia.
    rewrite Z.pow_add_r in Hlt by lia.
    split; [lia|]. nia.
  - assert (P2 : 0 < 2 ^ (- e2)) by (apply Z.pow_pos_nonneg; lia).
    assert (P3 : 0 < 2 ^ (e2 - e)) by (apply Z.pow_pos_nonneg; lia).
    assert (E : 2 ^ (- e) = 2 ^ (e2 - e) * 2 ^ (- e2)).
    { rewrite <- Z.pow_add_r by lia. f_equal. lia. }
    rewrite E in Hlt.
    split; [apply Z.div_pos; lia|].
    apply Z.div_lt_upper_bound; [lia|]. nia.
Qed.

Lemma mul_hundred_bound mx ex :
  bounded Js.prec Js.emax mx ex = true ->
  SFleb (S754_finite false mx ex) hundred = true ->
  exists b, Js.BigInt_floor (Js.mul (S754_finite false mx ex) hundred) = Ok b
            /\ 0 <= b <= 10000.
Proof.
  intros Hb Hle.
  destruct (bounded_inv _ _ Hb) as [Hmx Hex].
  apply leb_hundred_inv in Hle.
  unfold Js.mul. cbn [SFmul hundred xorb].
  set (M := (mx * 7036874417766400)%positive). set (e := ex + -46).
  assert (EM : Zpos M = Zpos mx * 7036874417766400) by reflexivity.
  destruct (binary_round_aux_pos M e) as (m1 & e1 & e2 & He1 & Hm1 & He2 & Hres).
  rewrite Hres. clear Hres.
  set (k := -46 - ex).
  assert (Hk : 0 <= k) by lia.
  assert (Pk : 0 < 2 ^ k) by (apply Z.pow_pos_nonneg; lia).
  assert (Hmk : Zpos mx <= 7036874417766400 * 2 ^ k).
  { destruct Hle as [L|[L1 L2]].
    - assert (2 ^ 1 <= 2 ^ k) by (apply Z.pow_le_mono_r; lia).
      change (2 ^ 1) with 2 in H. change (2 ^ 53) with 9007199254740992 in Hmx. lia.
    - replace k with 0 by lia. change (2 ^ 0) with 1. lia. }
  assert (E92 : 2 ^ (- e) = 4951760157141521099596496896 * 2 ^ k).
  { replace (- e) with (92 + k) by lia. rewrite Z.pow_add_r by lia. reflexivity. }
  assert (HM : Zpos M <= 10000 * 2 ^ (- e)).
  { rewrite EM, E92. nia. }
  assert (HM106 : Zpos M <= 2 ^ 106).
  { rewrite EM. change (2 ^ 53) with 9007199254740992 in Hmx.
    change (2 ^ 106) with (9007199254740992 * 9007199254740992). nia. }
  assert (Hd : Zpos (digits2_pos M) <= 107).
  { apply (Zdigits2_le (Zpos M) 106); lia. }
  assert (Hee1 : e <= e1 < 0).
  { unfold fexp, emin, Js.prec, Js.emax in He1. lia. }
  set (a := e1 - e) in *.
  assert (Pa : 0 < 2 ^ a) by (apply Z.pow_pos_nonneg; lia).
  assert (Hq1 : 0 <= Zpos M / 2 ^ a) by (apply Z.div_pos; lia).
  assert (Hq1M : Zpos M / 2 ^ a * 2 ^ a <= Zpos M).
  { rewrite Z.mul_comm. apply Z.mul_div_le. lia. }
  assert (Hm1M : m1 <= 2 ^ 106).
  { assert (Zpos M / 2 ^ a <= Zpos M) by nia.
    assert (Zpos M <> 2 ^ 106).
    { rewrite EM. change (2 ^ 106) with 81129638414606681695789005144064.
      intros Heq.
      assert (Zpos mx * 7036874417766400 < 81129638414606681695789005144064).
      { change (2 ^ 53) with 9007199254740992 in Hmx. nia. }
      lia. }
    lia. }
  assert (Hd1 : Zdigits2 m1 <= 107) by (apply (Zdigits2_le m1 106); lia).
  assert (He2b : e1 <= e2 <= 60).
  { unfold fexp, emin, Js.prec, Js.emax in He2. lia. }
  set (c := e2 - e1) in *.
  assert (Pc : 0 < 2 ^ c) by (apply Z.pow_pos_nonneg; lia).
  assert (Hm2 : m1 / 2 ^ c * 2 ^ c <= m1).
  { rewrite Z.mul_comm. apply Z.mul_div_le. lia. }
  assert (Eca : 2 ^ (e2 - e) = 2 ^ c * 2 ^ a).
  { rewrite <- Z.pow_add_r by lia. f_equal. lia. }
  assert (Ha : 2 ^ a < 2 ^ (- e)) by (apply Z.pow_lt_mono_r; lia).
  destruct (floor_round_result_bound (m1 / 2 ^ c) e2 e 10001) as (b & Hb1 & Hb2).
  - apply Z.div_pos; lia.
  - lia.
  - lia.
  - unfold Js.emax, Js.prec. lia.
  - lia.
  - rewrite Eca.
    assert (m1 / 2 ^ c * (2 ^ c * 2 ^ a) <= m1 * 2 ^ a) by nia.
    assert (m1 * 2 ^ a <= Zpos M + 2 ^ a) by nia.
    lia.
  - exists b. split; [exact Hb1|lia].
Qed.

Lemma of_int_100 : Js.of_int 100 = hundred.
Proof. reflexivity. Qed.

Lemma floor_round_result_nonneg m2 e2 :
  match Js.BigInt_floor (round_result m2 e2) with
  | Ok b => 0 <= b
  | Raise _ => True
  end.
Proof.
  destruct m2 as [|p|p]; cbn [round_result].
  - cbn [Js.BigInt_floor]. lia.
  - destruct (e2 <=? Js.emax - Js.prec); cbn [Js.BigInt_floor]; [|exact I].
    destruct (Z.leb_spec 0 e2).
    + apply Z.mul_nonneg_nonneg; [lia|]. apply Z.pow_nonneg; lia.
    + apply Z.div_pos; [lia|]. apply Z.pow_pos_nonneg; lia.
  - exact I.
Qed.

(** A non-negative percentage has a non-negative basis-point count. *)
Lemma slippageBps_nonneg (S : Js.number) (bps : Z) :
  Js.leb (Js.of_int 0) S = true ->
  Js.BigInt_floor (Js.mul S (Js.of_int 100)) = Ok bps ->
  0 <= bps.
Proof.
  rewrite of_int_100. intros Hpos Hb.
  destruct S as [s|s| |s m e]; try discriminate.
  - cbn in Hb. injection Hb as <-. lia.
  - destruct s; [discriminate|].
    unfold Js.mul in Hb. cbn [SFmul hundred xorb] in Hb.
    destruct (binary_round_aux_pos (m * 7036874417766400) (e + -46))
      as (m1 & e1 & e2 & _ & _ & _ & Hres).
    rewrite Hres in Hb.
    generalize (floor_round_result_nonneg (m1 / 2 ^ (e2 - e1)) e2).
    rewrite Hb. exact (fun h => h).
Qed.

(** A percentage between 0 and 100 has between 0 and 10000 basis points. *)
Lemma slippageBps_in_range (S : Js.number) :
  percent_in_range S = true ->
  exists bps, Js.BigInt_floor (Js.mul S (Js.of_int 100)) = Ok bps
              /\ 0 <= bps <= 10000.
Proof.
  unfold percent_in_range. intros H.
  apply andb_prop in H. destruct H as [H Hle].
  apply andb_prop in H. destruct H as [Hv Hpos].
  rewrite of_int_100 in *.
  destruct S as [s|s| |s m e]; try discriminate.
  - exists 0. split; [reflexivity|lia].
  - destruct s; discriminate.
  - destruct s; [discriminate|].
    apply mul_hundred_bound; assumption.
Qed.

Lemma calculateMinOutput_bps (E bps : Z) (S : Js.number) :
  Js.BigInt_floor (Js.mul S (Js.of_int 100)) = Ok bps ->
  calculateMinOutput E S = Ok (E - Z.quot (E * bps) 10000).
Proof. unfold calculateMinOutput. intros ->. reflexivity. Qed.

Lemma quot_is_floor (a : Z) : 0 <= a -> Z.quot a 10000 = a / 10000.
Proof. intros Ha. apply Z.quot_div_nonneg; lia. Qed.

Lemma Qpower_2_nonneg (e : Z) : 0 <= e -> (Qpower 2 e == inject_Z (2 ^ e))%Q.
Proof. intros He. rewrite Zpower_Qpower by exact He. reflexivity. Qed.

Lemma Qpower_2_neg (p : positive) :
  (Qpower 2 (Zneg p) == / inject_Z (Zpos (2 ^ p)))%Q.
Proof.
  change (Zneg p) with (- Zpos p). rewrite Qpower_opp.
  rewrite Qpower_2_nonneg by lia. rewrite <- Pos2Z.inj_pow. reflexivity.
Qed.

(** [BigInt(Math.floor(x))] is the floor of the exact value of a finite [x],
    and a RangeError for NaN and the infinities. *)
Lemma BigInt_floor_exact (x : Js.number) :
  match Js.exact x with
  | Some q => Js.BigInt_floor x = Ok (Qfloor q)
  | None => Js.BigInt_floor x = Raise Js.RangeError_BigInt
  end.
Proof.
  destruct x as [s|s| |s m e]; cbn [Js.exact Js.BigInt_floor];
    try reflexivity.
  set (v := if s then Zneg m else Zpos m). f_equal.
  destruct e as [|p|p].
  - cbn [Z.leb Z.compare Z.pow]. rewrite Z.mul_1_r.
    rewrite (Qfloor_comp _ (inject_Z v)); [rewrite Qfloor_Z; reflexivity|].
    cbn [Qpower]. apply Qmult_1_r.
  - change (0 <=? Zpos p) with true. cbv iota.
    rewrite (Qfloor_comp _ (inject_Z (v * 2 ^ Zpos p))).
    + rewrite Qfloor_Z. reflexivity.
    + rewrite Qpower_2_nonneg by lia. rewrite inject_Z_mult. reflexivity.
  - change (0 <=? Zneg p) with false. cbv iota.
    change (- Zneg p) with (Zpos p). rewrite <- Pos2Z.inj_pow.
    rewrite (Qfloor_comp _ (v # 2 ^ p)); [reflexivity|].
    rewrite Qpower_2_neg. unfold Qeq, Qmult, Qinv, inject_Z.
    cbn [Qnum Qden]. rewrite Pos.mul_1_l. lia.
Qed.

(** BigInt division truncates toward zero: it is the floor of a quotient
    that is not negative and the ceiling of one that is not positive. *)
Lemma quot_is_ceiling (a : Z) : a <= 0 -> Z.quot a 10000 = - ((- a) / 10000).
Proof.
  intros Ha. rewrite <- (Z.opp_involutive a) at 1.
  rewrite Z.quot_opp_l by lia. rewrite Z.quot_div_nonneg by lia. reflexivity.
Qed.

(* ================================================================== *)
(** * Minimum output with slippage *)
(* ================================================================== *)

(** C2, as stated, fails in two ways.  The code takes [Math.floor] of
    [S * 100] where the specification's formula rounds it: at [S = 0.375]
    (so [S * 100 = 37.5] exactly) and [E = 10000] the code returns 9963 and
    the formula 9962.  And the code divides by 10000 in BigInt arithmetic,
    which truncates toward zero, where the formula takes the floor: at
    [S = -1] (so [S * 100 = -100], an integer, whatever the rounding) and
    [E = 999] the code returns [999 + 9 = 1008] and the formula
    [999 + 10 = 1009].  At [S = NaN] the code returns no amount at all: the
    conversion to BigInt throws. *)
Lemma calculateMinOutput_formula_counterexample :
  calculateMinOutput 10000 (Js.decimal 375 3) = Ok 9963 /\
  minOut_as_specified 10000 (Js.decimal 375 3) = Ok 9962 /\
  calculateMinOutput 999 (Js.of_int (-1)) = Ok 1008 /\
  minOut_as_specified 999 (Js.of_int (-1)) = Ok 1009 /\
  calculateMinOutput 10000 S754_nan = Raise Js.RangeError_BigInt.
Proof. repeat split; vm_compute; reflexivity. Qed.

(** The same happens at a two-decimal percentage: [0.29 * 100] is
    [28.999999999999996] in binary64, whose floor is 28. *)
Example calculateMinOutput_029 :
  calculateMinOutput 10000 (Js.decimal 29 2) = Ok 9972 /\
  minOut_as_specified 10000 (Js.decimal 29 2) = Ok 9971.
Proof. split; vm_compute; reflexivity. Qed.

(** C2 (amended): for every expected output [E >= 0] and every slippage
    percentage [S], of either sign: when the binary64 product [S * 100] is
    finite, with exact value [q], the minimum output is
    [E - trunc(E * floor(q) / 10000)], where the inner floor is [Math.floor]
    of the product (not a rounding), the arithmetic on [E] is exact and the
    division truncates toward zero, which is the floor when [floor(q) >= 0]
    and the ceiling when [floor(q) <= 0]; when the product is NaN or
    infinite the conversion to BigInt throws a RangeError.  So for [S >= 0]
    the result is [E - floor(E * floor(q) / 10000)]; for [S] in [[0,100]] it
    exists and is at most [E], and for [S = 0] it is [E]. *)
Theorem calculateMinOutput_floor_formula (E : Z) (S : Js.number) :
  0 <= E ->
  (forall q, Js.exact (Js.mul S (Js.of_int 100)) = Some q ->
     calculateMinOutput E S = Ok (E - Z.quot (E * Qfloor q) 10000) /\
     (0 <= Qfloor q ->
        Z.quot (E * Qfloor q) 10000 = (E * Qfloor q) / 10000) /\
     (Qfloor q <= 0 ->
        Z.quot (E * Qfloor q) 10000 = - ((E * - Qfloor q) / 10000)) /\
     (Js.leb (Js.of_int 0) S = true ->
        calculateMinOutput E S = Ok (E - (E * Qfloor q) / 10000))) /\
  (Js.exact (Js.mul S (Js.of_int 100)) = None ->
     calculateMinOutput E S = Raise Js.RangeError_BigInt) /\
  (percent_in_range S = true ->
     exists r, calculateMinOutput E S = Ok r /\ r <= E) /\
  (Js.leb (Js.of_int 0) S = true -> Js.leb S (Js.of_int 0) = true ->
     calculateMinOutput E S = Ok E).
Proof.
  intros HE.
  pose proof (BigInt_floor_exact (Js.mul S (Js.of_int 100))) as Hfloor.
  split; [|split; [|split]].
  - intros q Hq. rewrite Hq in Hfloor.
    pose proof (calculateMinOutput_bps E _ S Hfloor) as Hc.
    split; [exact Hc|]. split; [|split].
    + intros Hn. apply quot_is_floor. apply Z.mul_nonneg_nonneg; lia.
    + intros Hn. rewrite quot_is_ceiling.
      * rewrite Z.mul_opp_r. reflexivity.
      * apply Z.mul_nonneg_nonpos; lia.
    + intros Hpos. rewrite Hc.
      assert (Hn : 0 <= Qfloor q) by (eapply slippageBps_nonneg; eassumption).
      rewrite quot_is_floor by (apply Z.mul_nonneg_nonneg; lia).
      reflexivity.
  - intros Hq. rewrite Hq in Hfloor.
    unfold calculateMinOutput. rewrite Hfloor. reflexivity.
  - intros Hr. destruct (slippageBps_in_range S Hr) as (bps & Hb & Hrange).
    rewrite (calculateMinOutput_bps E bps S Hb).
    rewrite quot_is_floor by (apply Z.mul_nonneg_nonneg; lia).
    exists (E - (E * bps) / 10000). split; [reflexivity|].
    assert (0 <= (E * bps) / 10000).
    { apply Z.div_pos; [|lia]. apply Z.mul_nonneg_nonneg; lia. }
    lia.
  - intros Hpos Hle. clear Hfloor.
    destruct S as [s|[|]| |[|] m e]; try discriminate.
    rewrite (calculateMinOutput_bps E 0 (S754_zero s) eq_refl).
    rewrite Z.mul_0_r. change (Z.quot 0 10000) with 0. rewrite Z.sub_0_r.
    reflexivity.
Qed.

Lemma calculateMinOutput_floor_formula_witness :
  calculateMinOutput 1000 (Js.of_int 5) = Ok 950 /\
  calculateMinOutput 999 (Js.of_int (-1)) = Ok 1008 /\
  calculateMinOutput 1000 S754_nan = Raise Js.RangeError_BigInt /\
  (exists r, calculateMinOutput 1000 (Js.of_int 5) = Ok r /\ r <= 1000) /\
  calculateMinOutput 1000 (Js.of_int 0) = Ok 1000.
Proof.
  assert (H1000 : 0 <= 1000) by lia.
  assert (H999 : 0 <= 999) by lia.
  destruct (calculateMinOutput_floor_formula 1000 (Js.of_int 5) H1000)
    as (H1 & _ & H2 & _).
  destruct (calculateMinOutput_floor_formula 999 (Js.of_int (-1)) H999)
    as (H3 & _).
  destruct (calculateMinOutput_floor_formula 1000 S754_nan H1000)
    as (_ & H4 & _).
  destruct (calculateMinOutput_floor_formula 1000 (Js.of_int 0) H1000)
    as (_ & _ & _ & H5).
  split; [exact (proj1 (H1 _ eq_refl))|].
  split; [exact (proj1 (H3 _ eq_refl))|].
  split; [exact (H4 eq_refl)|].
  split; [exact (H2 eq_refl) | exact (H5 eq_refl eq_refl)].
Defined.

(** The scenario of the specification: 1000 token units at 5%. *)
Example calculateMinOutput_1000_at_5 :
  calculateMinOutput 1000 SLIPPAGE_TOLERANCE_PERCENT = Ok 950.
Proof. reflexivity. Qed.




(* ================================================================== *)
(** * The retry wrapper *)
(* ================================================================== *)

Section RetryFacts.
Context {W T : Type}.
Variable fn : Async W T.
Variable operationName : string.

Lemma attemptNumbers_eq : attemptNumbers = [1; 2; 3].
Proof. reflexivity. Qed.

(** One iteration of the loop. *)
Lemma retryLoop_cons attempt rest lastError (st : State W) :
  retryLoop fn operationName (attempt :: rest) lastError st =
  match fn (mkState (world st) (journal st ++ [Attempt operationName attempt])) with
  | (Returned v, s) => (Returned v, s)
  | (Thrown error, s) =>
      if isNonRetryableError error then (Thrown error, s)
      else retryLoop fn operationName rest (Some error)
             (if attempt <? MAX_RETRY_ATTEMPTS
              then mkState (world s)
                     (journal s ++ [Sleep (RETRY_BASE_DELAY_MS
                                           * RETRY_BACKOFF_MULTIPLIER ^ (attempt - 1))])
              else s)
  | (Pending, s) => (Pending, s)
  end.
Proof.
  cbn [retryLoop]. unfold bind at 1. cbn [emit].
  unfold bind at 1. unfold settle.
  destruct (fn _) as [[v|error|] s]; try reflexivity.
  destruct (isNonRetryableError error); [reflexivity|].
  unfold bind. destruct (attempt <? MAX_RETRY_ATTEMPTS); reflexivity.
Qed.

Lemma retryLoop_nil lastError (st : State W) :
  retryLoop fn operationName [] lastError st =
  (Thrown (retriesExhausted operationName lastError), st).
Proof. reflexivity. Qed.

(** C5: when every invocation of the operation raises an error whose
    message matches the fatal substrings, [executeWithRetry] is the single
    invocation that follows the first attempt line: the operation runs once,
    its error is propagated as it is, and nothing else happens (no further
    attempt, no sleep). *)
Theorem executeWithRetry_fatal_once (st : State W) :
  (forall s, exists e s', fn s = (Thrown e, s') /\ isNonRetryableError e = true) ->
  exists e s',
    fn (mkState (world st) (journal st ++ [Attempt operationName 1])) = (Thrown e, s') /\
    isNonRetryableError e = true /\
    executeWithRetry fn operationName st = (Thrown e, s') /\
    (quiet fn -> journal s' = journal st ++ [Attempt operationName 1]).
Proof.
  intros Hfatal.
  destruct (Hfatal (mkState (world st) (journal st ++ [Attempt operationName 1])))
    as (e & s' & Hfn & He).
  exists e, s'. split; [exact Hfn|]. split; [exact He|]. split.
  - unfold executeWithRetry. rewrite attemptNumbers_eq, retryLoop_cons.
    rewrite Hfn, He. reflexivity.
  - intros Hq. specialize (Hq (mkState (world st) (journal st ++ [Attempt operationName 1]))).
    rewrite Hfn in Hq. exact Hq.
Qed.

(** C4: an operation that fails twice with retryable errors is invoked a
    third time, after sleeps of [baseDelay * multiplier^(attempt-1)], that is
    2000 ms and then 4000 ms.  If the third invocation returns, so does the
    wrapper; if it fails with a retryable error, the wrapper throws the
    exhausted-retries error, which carries the message of that last error,
    and does not sleep again. *)
Theorem executeWithRetry_backoff (st s1 s2 s3 : State W) (e1 e2 : Js.Error)
  (outcome : Completion T) :
  fn (mkState (world st) (journal st ++ [Attempt operationName 1])) = (Thrown e1, s1) ->
  isNonRetryableError e1 = false ->
  fn (mkState (world s1) (journal s1 ++ [Sleep 2000; Attempt operationName 2]))
    = (Thrown e2, s2) ->
  isNonRetryableError e2 = false ->
  fn (mkState (world s2) (journal s2 ++ [Sleep 4000; Attempt operationName 3]))
    = (outcome, s3) ->
  2000 = RETRY_BASE_DELAY_MS * RETRY_BACKOFF_MULTIPLIER ^ (1 - 1) /\
  4000 = RETRY_BASE_DELAY_MS * RETRY_BACKOFF_MULTIPLIER ^ (2 - 1) /\
  (forall v, outcome = Returned v ->
     executeWithRetry fn operationName st = (Returned v, s3)) /\
  (forall e3, outcome = Thrown e3 -> isNonRetryableError e3 = false ->
     executeWithRetry fn operationName st
       = (Thrown (retriesExhausted operationName (Some e3)), s3) /\
     Js.code (retriesExhausted operationName (Some e3)) = Some ERROR_CODES.TX_FAILED /\
     Js.details (retriesExhausted operationName (Some e3))
       = [("lastError", Js.opt_str (Js.message e3))]) /\
  (quiet fn ->
     journal s3 = journal st ++ [Attempt operationName 1; Sleep 2000;
                                 Attempt operationName 2; Sleep 4000;
                                 Attempt operationName 3]).
Proof.
  intros H1 R1 H2 R2 H3.
  assert (Hrun : executeWithRetry fn operationName st =
                 match outcome with
                 | Returned v => (Returned v, s3)
                 | Thrown e3 =>
                     if isNonRetryableError e3 then (Thrown e3, s3)
                     else (Thrown (retriesExhausted operationName (Some e3)), s3)
                 | Pending => (Pending, s3)
                 end).
  { unfold executeWithRetry. rewrite attemptNumbers_eq.
    rewrite retryLoop_cons, H1, R1.
    change (1 <? MAX_RETRY_ATTEMPTS) with true. cbv iota.
    change (RETRY_BASE_DELAY_MS * RETRY_BACKOFF_MULTIPLIER ^ (1 - 1)) with 2000.
    rewrite retryLoop_cons. cbn [world journal].
    rewrite <- app_assoc. cbn [app]. rewrite H2, R2.
    change (2 <? MAX_RETRY_ATTEMPTS) with true. cbv iota.
    change (RETRY_BASE_DELAY_MS * RETRY_BACKOFF_MULTIPLIER ^ (2 - 1)) with 4000.
    rewrite retryLoop_cons. cbn [world journal].
    rewrite <- app_assoc. cbn [app]. rewrite H3.
    destruct outcome as [v|e3|]; reflexivity. }
  split; [reflexivity|]. split; [reflexivity|]. split; [|split].
  - intros v ->. exact Hrun.
  - intros e3 -> R3. rewrite R3 in Hrun. split; [exact Hrun|]. split; reflexivity.
  - intros Hq.
    pose proof (Hq (mkState (world st) (journal st ++ [Attempt operationName 1]))) as Q1.
    pose proof (Hq (mkState (world s1) (journal s1 ++ [Sleep 2000; Attempt operationName 2]))) as Q2.
    pose proof (Hq (mkState (world s2) (journal s2 ++ [Sleep 4000; Attempt operationName 3]))) as Q3.
    rewrite H1 in Q1. rewrite H2 in Q2. rewrite H3 in Q3.
    cbn [snd journal] in Q1, Q2, Q3.
    rewrite Q3, Q2, Q1. rewrite <- !app_assoc. reflexivity.
Qed.

End RetryFacts.

(** The six fatal substrings are matched whatever the case of the message;
    other errors, and errors without a message, are retryable. *)
Example isNonRetryableError_taxonomy :
  map (fun m => isNonRetryableError (Demo.rpcError m))
    [ "INSUFFICIENT FUNDS for transfer";
      "Nonce too low";
      "replacement fee too low";
      "already known";
      "Invalid private key";
      "execution reverted: STF";
      "request timeout" ]
  = [true; true; true; true; true; true; false]
  /\ isNonRetryableError (Js.mkError "Error" None None []) = false.
Proof. split; reflexivity. Qed.

Lemma executeWithRetry_fatal_once_witness :
  exists e s',
    executeWithRetry (W := unit) (T := Z) (throw Demo.insufficientFunds)
      "Buy swap" (mkState tt []) = (Thrown e, s') /\
    journal s' = [Attempt "Buy swap" 1].
Proof.
  destruct (executeWithRetry_fatal_once (W := unit) (T := Z)
              (throw Demo.insufficientFunds) "Buy swap" (mkState tt []))
    as (e & s' & _ & _ & Hrun & Hj).
  - intros s. exists Demo.insufficientFunds, s. split; reflexivity.
  - exists e, s'. split; [exact Hrun|]. apply Hj. intros s. reflexivity.
Defined.

Lemma executeWithRetry_backoff_witness :
  executeWithRetry Demo.replay "Sell swap"
    (mkState [Raise Demo.networkTimeout; Raise Demo.networkTimeout; Ok 7] [])
  = (Returned 7,
     mkState [] [Attempt "Sell swap" 1; Sleep 2000;
                 Attempt "Sell swap" 2; Sleep 4000;
                 Attempt "Sell swap" 3]) /\
  executeWithRetry Demo.replay "Sell swap"
    (mkState [Raise Demo.networkTimeout; Raise Demo.networkTimeout;
              Raise Demo.networkTimeout] [])
  = (Thrown (retriesExhausted "Sell swap" (Some Demo.networkTimeout)),
     mkState [] [Attempt "Sell swap" 1; Sleep 2000;
                 Attempt "Sell swap" 2; Sleep 4000;
                 Attempt "Sell swap" 3]) /\
  journal (mkState (W := list (Result Z)) []
             [Attempt "Sell swap" 1; Sleep 2000;
              Attempt "Sell swap" 2; Sleep 4000;
              Attempt "Sell swap" 3])
  = [] ++ [Attempt "Sell swap" 1; Sleep 2000;
           Attempt "Sell swap" 2; Sleep 4000;
           Attempt "Sell swap" 3].
Proof.
  split; [|split].
  - refine (proj1 (proj2 (proj2
      (executeWithRetry_backoff Demo.replay "Sell swap"
         (mkState [Raise Demo.networkTimeout; Raise Demo.networkTimeout; Ok 7] [])
         _ _ _ Demo.networkTimeout Demo.networkTimeout (Returned 7)
         eq_refl eq_refl eq_refl eq_refl eq_refl))) 7 eq_refl).
  - refine (proj1 (proj1 (proj2 (proj2 (proj2
      (executeWithRetry_backoff Demo.replay "Sell swap"
         (mkState [Raise Demo.networkTimeout; Raise Demo.networkTimeout;
                   Raise Demo.networkTimeout] [])
         _ _ _ Demo.networkTimeout Demo.networkTimeout
         (Thrown Demo.networkTimeout)
         eq_refl eq_refl eq_refl eq_refl eq_refl)))) Demo.networkTimeout eq_refl eq_refl)).
  - refine (proj2 (proj2 (proj2 (proj2
      (executeWithRetry_backoff Demo.replay "Sell swap"
         (mkState [Raise Demo.networkTimeout; Raise Demo.networkTimeout; Ok 7] [])
         _ _ _ Demo.networkTimeout Demo.networkTimeout (Returned 7)
         eq_refl eq_refl eq_refl eq_refl eq_refl)))) _).
    intros st. unfold Demo.replay.
    destruct (world st) as [|[v|e] rest]; reflexivity.
Defined.

(* ================================================================== *)
(** * The quote selector *)
(* ================================================================== *)

(** The running maximum keeps [bestQuote] when no answer beats it, and
    otherwise ends on the first answer that attains the maximum. *)
Lemma selectQuote_spec (outcomes : list (Z * Result Z)) :
  forall bestQuote,
    let q := selectQuote outcomes bestQuote in
    (q = bestQuote /\
     forall j fee out, nth_error outcomes j = Some (fee, Ok out) ->
                       out <= Quote.amountOut bestQuote)
    \/
    (exists i,
       nth_error outcomes i = Some (Quote.fee q, Ok (Quote.amountOut q)) /\
       Quote.amountOut bestQuote < Quote.amountOut q /\
       (forall j fee out, nth_error outcomes j = Some (fee, Ok out) ->
                          out <= Quote.amountOut q) /\
       (forall j fee out, (j < i)%nat ->
                          nth_error outcomes j = Some (fee, Ok out) ->
                          out < Quote.amountOut q)).
Proof.
  induction outcomes as [|[fee [out|e]] rest IH]; intros bestQuote; cbn [selectQuote].
  - left. split; [reflexivity|]. intros [|j] ? ? Hj; discriminate Hj.
  - destruct (Z.ltb_spec (Quote.amountOut bestQuote) out) as [Hlt|Hge].
    + destruct (IH (Quote.mk fee out)) as [[Hq Hall]|(i & Hi & Hgt & Hall & Hbefore)].
      * right. exists 0%nat. rewrite Hq. cbn [Quote.fee Quote.amountOut nth_error] in *.
        split; [reflexivity|]. split; [exact Hlt|]. split.
        -- intros [|j] fee' out' Hj; cbn [nth_error] in Hj.
           ++ injection Hj as _ <-. lia.
           ++ eapply Hall; eassumption.
        -- intros j fee' out' Hj. lia.
      * right. exists (S i). cbn [Quote.amountOut] in Hgt. cbn [nth_error].
        split; [exact Hi|]. split; [lia|]. split.
        -- intros [|j] fee' out' Hj; cbn [nth_error] in Hj.
           ++ injection Hj as _ <-. lia.
           ++ eapply Hall; eassumption.
        -- intros [|j] fee' out' Hlt' Hj; cbn [nth_error] in Hj.
           ++ injection Hj as _ <-. lia.
           ++ eapply Hbefore; [|eassumption]. lia.
    + destruct (IH bestQuote) as [[Hq Hall]|(i & Hi & Hgt & Hall & Hbefore)].
      * left. split; [exact Hq|].
        intros [|j] fee' out' Hj; cbn [nth_error] in Hj.
        -- injection Hj as _ <-. lia.
        -- eapply Hall; eassumption.
      * right. exists (S i). cbn [nth_error].
        split; [exact Hi|]. split; [exact Hgt|]. split.
        -- intros [|j] fee' out' Hj; cbn [nth_error] in Hj.
           ++ injection Hj as _ <-. lia.
           ++ eapply Hall; eassumption.
        -- intros [|j] fee' out' Hlt' Hj; cbn [nth_error] in Hj.
           ++ injection Hj as _ <-. lia.
           ++ eapply Hbefore; [|eassumption]. lia.
  - destruct (IH bestQuote) as [[Hq Hall]|(i & Hi & Hgt & Hall & Hbefore)].
    + left. split; [exact Hq|].
      intros [|j] fee' out' Hj; cbn [nth_error] in Hj.
      * discriminate Hj.
      * eapply Hall; eassumption.
    + right. exists (S i). cbn [nth_error].
      split; [exact Hi|]. split; [exact Hgt|]. split.
      * intros [|j] fee' out' Hj; cbn [nth_error] in Hj.
        -- discriminate Hj.
        -- eapply Hall; eassumption.
      * intros [|j] fee' out' Hlt' Hj; cbn [nth_error] in Hj.
        -- discriminate Hj.
        -- eapply Hbefore; [|eassumption]. lia.
Qed.

Section SelectorFacts.
Context {W : Type} `{Ethers W}.
Variables tokenIn tokenOut : Address.
Variable amountIn : Z.

(** The loop computes the running maximum of the quoter's answers, and
    touches nothing but the world. *)
Lemma probeTiers_spec (fees : list Z) :
  forall (bestQuote : Quote.t) (st : State W),
  exists w,
    probeTiers tokenIn tokenOut amountIn fees bestQuote st =
    (Returned (selectQuote
                 (quoteOutcomes tokenIn tokenOut amountIn fees (world st))
                 bestQuote),
     mkState w (journal st)).
Proof.
  induction fees as [|fee rest IH]; intros bestQuote st.
  - exists (world st). destruct st; reflexivity.
  - cbn [probeTiers quoteOutcomes]. unfold bind at 1. unfold settle, call.
    destruct (quoter_quoteExactInputSingle _ (world st)) as [[out|e] w1].
    + destruct (IH (if Quote.amountOut bestQuote <? out
                    then Quote.mk fee out else bestQuote)
                   (mkState w1 (journal st))) as [w Hw].
      exists w. rewrite Hw. reflexivity.
    + destruct (IH bestQuote (mkState w1 (journal st))) as [w Hw].
      exists w. rewrite Hw. reflexivity.
Qed.

Lemma findBestPoolFee_spec (st : State W) :
  exists w,
    findBestPoolFee tokenIn tokenOut amountIn st =
    let q := selectQuote
               (quoteOutcomes tokenIn tokenOut amountIn POOL_FEE_TIERS (world st))
               (Quote.mk 0 0) in
    (if Quote.amountOut q =? 0
     then Thrown (noLiquidity tokenIn tokenOut)
     else Returned q,
     mkState w (journal st)).
Proof.
  destruct (probeTiers_spec POOL_FEE_TIERS (Quote.mk 0 0) st) as [w Hw].
  exists w. unfold findBestPoolFee, bind. rewrite Hw.
  cbv zeta. destruct (Quote.amountOut _ =? 0); reflexivity.
Qed.

(** C1 (amended): when at least one tier answers with a positive output,
    [findBestPoolFee] returns an answer of maximal output among the
    successful ones, and the earliest such answer in the order of
    [POOL_FEE_TIERS]: every answer probed before it is strictly smaller. *)
Theorem findBestPoolFee_selects_max (st : State W) :
  let outcomes :=
    quoteOutcomes tokenIn tokenOut amountIn POOL_FEE_TIERS (world st) in
  (exists fee out, In (fee, Ok out) outcomes /\ 0 < out) ->
  exists i q st',
    findBestPoolFee tokenIn tokenOut amountIn st = (Returned q, st') /\
    journal st' = journal st /\
    nth_error outcomes i = Some (Quote.fee q, Ok (Quote.amountOut q)) /\
    (forall j fee out, nth_error outcomes j = Some (fee, Ok out) ->
                       out <= Quote.amountOut q) /\
    (forall j fee out, (j < i)%nat ->
                       nth_error outcomes j = Some (fee, Ok out) ->
                       out < Quote.amountOut q).
Proof.
  intros outcomes (fee & out & Hin & Hpos).
  destruct (findBestPoolFee_spec st) as [w Hw]. fold outcomes in Hw.
  cbv zeta in Hw.
  destruct (selectQuote_spec outcomes (Quote.mk 0 0))
    as [[_ Hall]|(i & Hi & Hgt & Hall & Hbefore)].
  - exfalso. apply In_nth_error in Hin. destruct Hin as [j Hj].
    specialize (Hall j fee out Hj). cbn in Hall. lia.
  - cbn [Quote.amountOut] in Hgt.
    exists i, (selectQuote outcomes (Quote.mk 0 0)), (mkState w (journal st)).
    split.
    + rewrite Hw.
      destruct (Z.eqb_spec (Quote.amountOut (selectQuote outcomes (Quote.mk 0 0))) 0);
        [lia | reflexivity].
    + split; [reflexivity|]. split; [exact Hi|]. split; assumption.
Qed.

(** C3: when no tier produces a usable quote (every query fails or quotes
    nothing), [findBestPoolFee] throws the no-liquidity error, whose details
    are the two token addresses; and whatever the answers, a quote that it
    returns has a positive output. *)
Theorem findBestPoolFee_no_liquidity (st : State W) :
  ((forall fee out,
      In (fee, Ok out)
         (quoteOutcomes tokenIn tokenOut amountIn POOL_FEE_TIERS (world st)) ->
      out <= 0) ->
   exists st',
     findBestPoolFee tokenIn tokenOut amountIn st
       = (Thrown (noLiquidity tokenIn tokenOut), st') /\
     Js.code (noLiquidity tokenIn tokenOut) = Some ERROR_CODES.NO_LIQUIDITY /\
     Js.details (noLiquidity tokenIn tokenOut)
       = [("tokenIn", Js.VStr tokenIn); ("tokenOut", Js.VStr tokenOut)]) /\
  (forall q st',
     findBestPoolFee tokenIn tokenOut amountIn st = (Returned q, st') ->
     0 < Quote.amountOut q).
Proof.
  destruct (findBestPoolFee_spec st) as [w Hw]. cbv zeta in Hw.
  set (outcomes := quoteOutcomes tokenIn tokenOut amountIn POOL_FEE_TIERS (world st)) in *.
  destruct (selectQuote_spec outcomes (Quote.mk 0 0))
    as [[Hq _]|(i & Hi & Hgt & _ & _)].
  - cbv zeta in Hq. rewrite Hq in Hw. cbn in Hw. split.
    + intros _. exists (mkState w (journal st)).
      split; [exact Hw|]. split; reflexivity.
    + intros q st' Hr. rewrite Hw in Hr. discriminate Hr.
  - cbn [Quote.amountOut] in Hgt. split.
    + intros Hnone. exfalso.
      apply nth_error_In in Hi. apply Hnone in Hi. lia.
    + intros q st' Hr. rewrite Hw in Hr.
      destruct (Z.eqb_spec (Quote.amountOut (selectQuote outcomes (Quote.mk 0 0))) 0);
        [discriminate Hr|].
      injection Hr as <- _. exact Hgt.
Qed.

End SelectorFacts.

(** C1, as stated, fails when the only successful quote is 0: the 0.3% tier
    answers 0, the other tiers fail, and the selector throws the
    no-liquidity error instead of returning the successful quote. *)
Lemma findBestPoolFee_zero_quote_counterexample :
  quoteOutcomes "0xTokenA" "0xTokenB" 1 POOL_FEE_TIERS
    (Demo.wallet (Demo.onlyTier3000 0) 0 Demo.mined)
  = [(3000, Ok 0); (10000, Demo.noPool); (500, Demo.noPool)] /\
  findBestPoolFee "0xTokenA" "0xTokenB" 1
    (mkState (Demo.wallet (Demo.onlyTier3000 0) 0 Demo.mined) [])
  = (Thrown (noLiquidity "0xTokenA" "0xTokenB"),
     mkState (Demo.wallet (Demo.onlyTier3000 0) 0 Demo.mined) []).
Proof. split; reflexivity. Qed.

Lemma findBestPoolFee_selects_max_witness :
  exists i q st',
    findBestPoolFee "0xTokenA" "0xTokenB" 1
      (mkState (Demo.wallet Demo.tiedQuotes 0 Demo.mined) []) = (Returned q, st') /\
    journal st' = [] /\
    nth_error [(3000, Ok 50); (10000, Ok 70); (500, Ok 70)] i
      = Some (Quote.fee q, Ok (Quote.amountOut q)) /\
    (forall j fee out,
       nth_error [(3000, Ok 50); (10000, Ok 70); (500, Ok 70)] j = Some (fee, Ok out) ->
       out <= Quote.amountOut q) /\
    (forall j fee out, (j < i)%nat ->
       nth_error [(3000, Ok 50); (10000, Ok 70); (500, Ok 70)] j = Some (fee, Ok out) ->
       out < Quote.amountOut q).
Proof.
  assert (Hquote : exists fee out,
             In (fee, Ok out)
                (quoteOutcomes "0xTokenA" "0xTokenB" 1 POOL_FEE_TIERS
                   (Demo.wallet Demo.tiedQuotes 0 Demo.mined)) /\ 0 < out).
  { exists 10000, 70. split; [|lia]. right. left. reflexivity. }
  exact (findBestPoolFee_selects_max "0xTokenA" "0xTokenB" 1
           (mkState (Demo.wallet Demo.tiedQuotes 0 Demo.mined) []) Hquote).
Defined.

(** On a tie the earlier tier wins: 1% (probed second) over 0.05% (probed
    third). *)
Example findBestPoolFee_tie :
  findBestPoolFee "0xTokenA" "0xTokenB" 1
    (mkState (Demo.wallet Demo.tiedQuotes 0 Demo.mined) [])
  = (Returned (Quote.mk 10000 70),
     mkState (Demo.wallet Demo.tiedQuotes 0 Demo.mined) []).
Proof. reflexivity. Qed.

Lemma findBestPoolFee_no_liquidity_witness :
  (exists st',
     findBestPoolFee "0xTokenA" "0xTokenB" 1
       (mkState (Demo.wallet Demo.noQuotes 0 Demo.mined) [])
     = (Thrown (noLiquidity "0xTokenA" "0xTokenB"), st')) /\
  0 < Quote.amountOut (Quote.mk 10000 70).
Proof.
  split.
  - destruct (findBestPoolFee_no_liquidity "0xTokenA" "0xTokenB" 1
                (mkState (Demo.wallet Demo.noQuotes 0 Demo.mined) []))
      as [Hnone _].
    destruct Hnone as (st' & Hthrow & _).
    + intros fee out Hin. cbn in Hin.
      repeat (destruct Hin as [Hin|Hin]; [discriminate Hin|]).
      contradiction.
    + exists st'. exact Hthrow.
  - exact (proj2 (findBestPoolFee_no_liquidity (H := Demo.ethers)
                    "0xTokenA" "0xTokenB" 1
                    (mkState (Demo.wallet Demo.tiedQuotes 0 Demo.mined) []))
             (Quote.mk 10000 70)
             (mkState (Demo.wallet Demo.tiedQuotes 0 Demo.mined) [])
             eq_refl).
Defined.

(* ================================================================== *)
(** * Confirmation waits *)
(* ================================================================== *)

Section ConfirmationFacts.
Context {W : Type} `{Ethers W}.

(** Every outcome of [waitForTransaction], by what [tx.wait()] does.  The
    reverted error (code TX_REVERTED, with the hash and the status) is thrown
    when [tx.wait()] resolves in time with a receipt whose status is not 1; a
    rejection of [tx.wait()] in time is thrown as it is; past the timer
    (120000 ms unless given) the timeout error is thrown, a plain [Error]
    without code, different from the reverted error.  Every returned receipt
    has status 1. *)
Lemma waitForTransaction_outcomes (tx : Tx) (timeoutMs : option Z)
  (st : State W) :
  let limit := match timeoutMs with Some t => t | None => 120000 end in
  (forall elapsedMs receipt w,
     tx_wait tx (world st) = (Settles elapsedMs (Ok receipt), w) ->
     elapsedMs <= limit ->
     waitForTransaction tx timeoutMs st
       = (if status receipt =? 1 then Returned receipt
          else Thrown (reverted tx receipt),
          mkState w (journal st))) /\
  (forall elapsedMs e w,
     tx_wait tx (world st) = (Settles elapsedMs (Raise e), w) ->
     elapsedMs <= limit ->
     waitForTransaction tx timeoutMs st = (Thrown e, mkState w (journal st))) /\
  (forall c w,
     tx_wait tx (world st) = (c, w) ->
     (c = NeverSettles \/
      exists elapsedMs r, c = Settles elapsedMs r /\ limit < elapsedMs) ->
     waitForTransaction tx timeoutMs st
       = (Thrown timeoutError, mkState w (journal st))) /\
  (forall receipt st',
     waitForTransaction tx timeoutMs st = (Returned receipt, st') ->
     status receipt = 1) /\
  (forall receipt,
     Js.name (reverted tx receipt) = "BlockchainError" /\
     Js.code (reverted tx receipt) = Some ERROR_CODES.TX_REVERTED /\
     Js.name timeoutError = "Error" /\
     Js.code timeoutError = None /\
     reverted tx receipt <> timeoutError).
Proof.
  intros limit. split; [|split; [|split; [|split]]].
  - intros elapsedMs receipt w Hw Hle.
    unfold waitForTransaction, bind, await_race. fold limit. rewrite Hw.
    destruct (Z.leb_spec elapsedMs limit); [|lia].
    destruct (status receipt =? 1); reflexivity.
  - intros elapsedMs e w Hw Hle.
    unfold waitForTransaction, bind, await_race. fold limit. rewrite Hw.
    destruct (Z.leb_spec elapsedMs limit); [|lia]. reflexivity.
  - intros c w Hw Hc.
    unfold waitForTransaction, bind, await_race. fold limit. rewrite Hw.
    destruct Hc as [->|(elapsedMs & r & -> & Hgt)]; [reflexivity|].
    destruct (Z.leb_spec elapsedMs limit); [lia|]. reflexivity.
  - intros receipt st'.
    unfold waitForTransaction, bind, await_race. fold limit.
    destruct (tx_wait tx (world st)) as [[elapsedMs [r|e]|] w]; cbv zeta;
      try (destruct (elapsedMs <=? limit)); try discriminate.
    destruct (Z.eqb_spec (status r) 1) as [E|E]; cbn [negb]; [|discriminate].
    unfold ret. intros [= <- _]. exact E.
  - intros receipt. repeat split; try reflexivity. discriminate.
Qed.

(** C8 fails on a transaction that is included with a non-success status.
    ethers reports that inclusion by rejecting [tx.wait()] (its
    CALL_EXCEPTION error), it does not resolve with the receipt; and
    [waitForTransaction] awaits the race without a handler.  So whatever
    [tx.wait()] rejects with before the timer is thrown as it is, and when
    that error is not a BlockchainError with code TX_REVERTED the caller is
    not given the reverted error of the status test, for any receipt. *)
Theorem waitForTransaction_rejection_passes_through (tx : Tx)
  (timeoutMs : option Z) (st : State W) (elapsedMs : Z) (e : Js.Error) (w : W) :
  tx_wait tx (world st) = (Settles elapsedMs (Raise e), w) ->
  elapsedMs <= match timeoutMs with Some t => t | None => 120000 end ->
  waitForTransaction tx timeoutMs st = (Thrown e, mkState w (journal st)) /\
  (Js.code e <> Some ERROR_CODES.TX_REVERTED ->
   forall receipt,
     waitForTransaction tx timeoutMs st
       <> (Thrown (reverted tx receipt), mkState w (journal st))).
Proof.
  intros Hw Hle.
  assert (Hrun : waitForTransaction tx timeoutMs st
                 = (Thrown e, mkState w (journal st))).
  { unfold waitForTransaction, bind, await_race. rewrite Hw.
    destruct (Z.leb_spec elapsedMs
                (match timeoutMs with Some t => t | None => 120000 end));
      [|lia].
    reflexivity. }
  split; [exact Hrun|].
  intros Hcode receipt Heq. rewrite Hrun in Heq.
  apply Hcode. injection Heq as ->. reflexivity.
Qed.

End ConfirmationFacts.

Lemma waitForTransaction_rejection_passes_through_witness :
  waitForTransaction (mkTx "0xswap") None
    (mkState (Demo.wallet Demo.tiedQuotes 0 Demo.revertedOnChain) [])
  = (Thrown Demo.callException,
     mkState (Demo.wallet Demo.tiedQuotes 0 Demo.revertedOnChain) []) /\
  Js.name Demo.callException = "Error" /\
  Js.code Demo.callException = None /\
  (forall receipt,
     waitForTransaction (mkTx "0xswap") None
       (mkState (Demo.wallet Demo.tiedQuotes 0 Demo.revertedOnChain) [])
     <> (Thrown (reverted (mkTx "0xswap") receipt),
         mkState (Demo.wallet Demo.tiedQuotes 0 Demo.revertedOnChain) [])).
Proof.
  assert (Hle : 4000 <= 120000) by lia.
  pose proof (waitForTransaction_rejection_passes_through (H := Demo.ethers)
                (mkTx "0xswap") None
                (mkState (Demo.wallet Demo.tiedQuotes 0 Demo.revertedOnChain) [])
                4000 Demo.callException
                (Demo.wallet Demo.tiedQuotes 0 Demo.revertedOnChain)
                eq_refl Hle) as [Hrun Hnot].
  split; [exact Hrun|]. split; [reflexivity|]. split; [reflexivity|].
  apply Hnot. discriminate.
Defined.

(** A receipt of status 0, which the wait of ethers does not resolve with,
    would give the reverted error; the timer decides when nothing settles or
    the receipt comes after it; at the very end of the wait the receipt still
    decides. *)
Example waitForTransaction_runs :
  waitForTransaction (mkTx "0xswap") None
    (mkState (Demo.wallet Demo.tiedQuotes 0
                (Settles 4000 (Ok (mkReceipt 0 100 90000)))) [])
  = (Thrown (reverted (mkTx "0xswap") (mkReceipt 0 100 90000)),
     mkState (Demo.wallet Demo.tiedQuotes 0
                (Settles 4000 (Ok (mkReceipt 0 100 90000)))) []) /\
  waitForTransaction (mkTx "0xswap") None
    (mkState (Demo.wallet Demo.tiedQuotes 0 NeverSettles) [])
  = (Thrown timeoutError,
     mkState (Demo.wallet Demo.tiedQuotes 0 NeverSettles) []) /\
  waitForTransaction (mkTx "0xswap") (Some 3000)
    (mkState (Demo.wallet Demo.tiedQuotes 0 Demo.mined) [])
  = (Thrown timeoutError,
     mkState (Demo.wallet Demo.tiedQuotes 0 Demo.mined) []) /\
  waitForTransaction (mkTx "0xswap") (Some 4000)
    (mkState (Demo.wallet Demo.tiedQuotes 0 Demo.mined) [])
  = (Returned (mkReceipt 1 100 90000),
     mkState (Demo.wallet Demo.tiedQuotes 0 Demo.mined) []).
Proof. repeat split. Qed.

(** C9 fails on [approveToken]: with an allowance below the amount, the
    approval is submitted and [tx.wait()] is awaited on its own.  When the
    transaction is never mined, [approveToken] stays pending for ever, while
    [waitForTransaction] on the same transaction gives up with the timeout
    error. *)
Theorem approveToken_wait_unbounded :
  approveToken "0xToken" UNISWAP_V3_ROUTER 500
    (mkState (Demo.wallet Demo.tiedQuotes 500 NeverSettles) [])
  = (Pending,
     mkState (Demo.wallet Demo.tiedQuotes 500 NeverSettles)
       [Attempt "Token approval" 1;
        ApproveSubmitted "0xToken" UNISWAP_V3_ROUTER 500 65000]) /\
  waitForTransaction (mkTx "0xapprove") None
    (mkState (Demo.wallet Demo.tiedQuotes 500 NeverSettles) [])
  = (Thrown timeoutError,
     mkState (Demo.wallet Demo.tiedQuotes 500 NeverSettles) []).
Proof. split; reflexivity. Qed.

(* ================================================================== *)
(** * What a computation writes to the journal *)
(* ================================================================== *)

Section JournalFacts.
Context {W : Type}.
Variable P : Event -> Prop.

Lemma emits_nothing {A} (m : Async W A) :
  (forall st, journal (snd (m st)) = journal st) -> emits P m.
Proof.
  intros Hq st r st' Hrun. exists []. specialize (Hq st).
  rewrite Hrun in Hq. cbn in Hq. rewrite app_nil_r. split; [exact Hq|constructor].
Qed.

Lemma emits_ret {A} (a : A) : emits P (ret (W := W) a).
Proof. apply emits_nothing. reflexivity. Qed.

Lemma emits_throw {A} (e : Js.Error) : emits P (throw (W := W) (A := A) e).
Proof. apply emits_nothing. reflexivity. Qed.

Lemma emits_lift {A} (r : Result A) : emits P (lift (W := W) r).
Proof. destruct r; [apply emits_ret | apply emits_throw]. Qed.

Lemma emits_call {A} (op : W -> Result A * W) : emits P (call op).
Proof.
  apply emits_nothing. intros st. unfold call.
  destruct (op (world st)) as [r w]. reflexivity.
Qed.

Lemma emits_emit (ev : Event) : P ev -> emits P (emit (W := W) ev).
Proof.
  intros Hev st r st' [= <- <-]. exists [ev]. split; [reflexivity|].
  constructor; [exact Hev|constructor].
Qed.

Lemma emits_bind {A B} (m : Async W A) (k : A -> Async W B) :
  emits P m -> (forall a, emits P (k a)) -> emits P (bind m k).
Proof.
  intros Hm Hk st r st' Hrun. unfold bind in Hrun.
  destruct (m st) as [[a|e|] s1] eqn:Em;
    destruct (Hm _ _ _ Em) as (evs1 & J1 & F1).
  - destruct (Hk a _ _ _ Hrun) as (evs2 & J2 & F2).
    exists (evs1 ++ evs2). rewrite J2, J1, app_assoc.
    split; [reflexivity|]. apply Forall_app. split; assumption.
  - injection Hrun as <- <-. exists evs1. split; assumption.
  - injection Hrun as <- <-. exists evs1. split; assumption.
Qed.

Lemma emits_try_catch {A} (m : Async W A) (handler : Js.Error -> Async W A) :
  emits P m -> (forall e, emits P (handler e)) -> emits P (try_catch m handler).
Proof.
  intros Hm Hh st r st' Hrun. unfold try_catch in Hrun.
  destruct (m st) as [[a|e|] s1] eqn:Em;
    destruct (Hm _ _ _ Em) as (evs1 & J1 & F1).
  - injection Hrun as <- <-. exists evs1. split; assumption.
  - destruct (Hh e _ _ _ Hrun) as (evs2 & J2 & F2).
    exists (evs1 ++ evs2). rewrite J2, J1, app_assoc.
    split; [reflexivity|]. apply Forall_app. split; assumption.
  - injection Hrun as <- <-. exists evs1. split; assumption.
Qed.

Lemma emits_settle {A} (m : Async W A) : emits P m -> emits P (settle m).
Proof.
  intros Hm st r st' Hrun. unfold settle in Hrun.
  destruct (m st) as [[a|e|] s1] eqn:Em;
    destruct (Hm _ _ _ Em) as (evs1 & J1 & F1);
    injection Hrun as <- <-; exists evs1; split; assumption.
Qed.

Hypothesis P_attempt : forall operationName attempt, P (Attempt operationName attempt).
Hypothesis P_sleep : forall ms, P (Sleep ms).

Lemma emits_retryLoop {T} (fn : Async W T) (operationName : string)
  (attempts : list Z) :
  emits P fn ->
  forall lastError, emits P (retryLoop fn operationName attempts lastError).
Proof.
  intros Hfn. induction attempts as [|attempt rest IH]; intros lastError;
    cbn [retryLoop].
  - apply emits_throw.
  - apply emits_bind; [apply emits_emit, P_attempt | intros _].
    apply emits_bind; [apply emits_settle, Hfn | intros [v|error]].
    + apply emits_ret.
    + destruct (isNonRetryableError error); [apply emits_throw|].
      apply emits_bind; [|intros _; apply IH].
      destruct (attempt <? MAX_RETRY_ATTEMPTS);
        [apply emits_emit, P_sleep | apply emits_ret].
Qed.

Lemma emits_executeWithRetry {T} (fn : Async W T) (operationName : string) :
  emits P fn -> emits P (executeWithRetry fn operationName).
Proof. intros Hfn. apply emits_retryLoop. exact Hfn. Qed.

End JournalFacts.

Ltac emits_auto :=
  repeat first
    [ apply emits_ret | apply emits_throw | apply emits_lift | apply emits_call
    | apply emits_settle | apply emits_try_catch
    | apply emits_bind
    | progress intros ].

Section ReturnFacts.
Context {W A : Type}.
Variable Q : A -> Prop.

Lemma returnsOnly_ret (a : A) : Q a -> returnsOnly Q (ret (W := W) a).
Proof. intros Ha st a' st' [= <- _]. exact Ha. Qed.

Lemma returnsOnly_bind {B} (m : Async W B) (k : B -> Async W A) :
  (forall b, returnsOnly Q (k b)) -> returnsOnly Q (bind m k).
Proof.
  intros Hk st a st' Hrun. unfold bind in Hrun.
  destruct (m st) as [[b|e|] s1]; try discriminate Hrun.
  eapply Hk; eassumption.
Qed.

End ReturnFacts.

Lemma bind_returned {W A B} (m : Async W A) (k : A -> Async W B)
  (st st1 : State W) (a : A) :
  m st = (Returned a, st1) -> bind m k st = k a st1.
Proof. intros Hm. unfold bind. rewrite Hm. reflexivity. Qed.

(* ================================================================== *)
(** * The sell operation *)
(* ================================================================== *)

Section SellFacts.
Context {W : Type} `{Ethers W}.
Variable P : Event -> Prop.
Hypothesis P_attempt : forall operationName attempt, P (Attempt operationName attempt).
Hypothesis P_sleep : forall ms, P (Sleep ms).
Hypothesis P_approve : forall token spender amount gasLimit,
  P (ApproveSubmitted token spender amount gasLimit).

Lemma emits_getTokenInfo tokenAddress : emits P (getTokenInfo tokenAddress).
Proof. unfold getTokenInfo, catch_default. emits_auto. Qed.

Lemma emits_getTokenBalance tokenAddress walletAddress :
  emits P (getTokenBalance tokenAddress walletAddress).
Proof. unfold getTokenBalance. emits_auto. Qed.

Lemma emits_getEthBalance walletAddress : emits P (getEthBalance walletAddress).
Proof. unfold getEthBalance. emits_auto. Qed.

Lemma emits_getEthPriceUsd : emits P getEthPriceUsd.
Proof. unfold getEthPriceUsd. emits_auto. Qed.

Lemma emits_findBestPoolFee tokenIn tokenOut amountIn :
  emits P (findBestPoolFee tokenIn tokenOut amountIn).
Proof.
  apply emits_nothing. intros st.
  destruct (findBestPoolFee_spec tokenIn tokenOut amountIn st) as [w Hw].
  rewrite Hw. reflexivity.
Qed.

Lemma emits_await_wait tx : emits P (await_wait tx).
Proof.
  apply emits_nothing. intros st. unfold await_wait.
  destruct (tx_wait tx (world st)) as [c w]. reflexivity.
Qed.

Lemma emits_waitForTransaction tx timeoutMs :
  emits P (waitForTransaction tx timeoutMs).
Proof.
  unfold waitForTransaction. apply emits_bind.
  - apply emits_nothing. intros st. unfold await_race.
    destruct (tx_wait tx (world st)) as [c w]. reflexivity.
  - intros receipt. destruct (negb (status receipt =? 1)); emits_auto.
Qed.


Lemma emits_submitSwap swapParams :
  (forall gasLimit, P (SwapSubmitted swapParams gasLimit)) ->
  emits P (submitSwap swapParams).
Proof.
  intros Hswap. unfold submitSwap.
  apply emits_bind; [apply emits_call | intros gasEstimate].
  apply emits_bind; [apply emits_lift | intros gasLimit].
  apply emits_bind; [apply emits_emit, Hswap | intros _].
  apply emits_call.
Qed.

End SellFacts.


Lemma quiet_journal {W A} (m : Async W A) (st st' : State W) (r : Completion A) :
  emits (fun _ => False) m -> m st = (r, st') -> journal st' = journal st.
Proof.
  intros Hm Hrun. destruct (Hm _ _ _ Hrun) as (l & J & F).
  destruct l as [|? ?]; [|inversion F; contradiction].
  rewrite J, app_nil_r. reflexivity.
Qed.

(** A value that [executeWithRetry] returns was returned by one of the
    invocations of the callback. *)
Lemma executeWithRetry_returned {W T} (fn : Async W T) (operationName : string)
  (st st' : State W) (v : T) :
  executeWithRetry fn operationName st = (Returned v, st') ->
  exists s, fn s = (Returned v, st').
Proof.
  unfold executeWithRetry. rewrite attemptNumbers_eq.
  rewrite retryLoop_cons.
  match goal with |- context [fn ?s0] =>
    destruct (fn s0) as [[v1|e1|] s1] eqn:F1 end; try discriminate.
  { intros [= <- <-]. eexists; exact F1. }
  destruct (isNonRetryableError e1); [discriminate|].
  rewrite retryLoop_cons.
  match goal with |- context [fn ?s0] =>
    destruct (fn s0) as [[v2|e2|] s2] eqn:F2 end; try discriminate.
  { intros [= <- <-]. eexists; exact F2. }
  destruct (isNonRetryableError e2); [discriminate|].
  rewrite retryLoop_cons.
  match goal with |- context [fn ?s0] =>
    destruct (fn s0) as [[v3|e3|] s3] eqn:F3 end; try discriminate.
  { intros [= <- <-]. eexists; exact F3. }
  destruct (isNonRetryableError e3); [discriminate|].
  change (3 <? MAX_RETRY_ATTEMPTS) with false. cbv iota.
  rewrite retryLoop_nil. discriminate.
Qed.


Section SubmissionFacts.
Context {W : Type} `{Ethers W}.

Lemma submitSwap_returned (swapParams : SwapParams.t) (s st' : State W)
  (tx : Tx) :
  submitSwap swapParams s = (Returned tx, st') ->
  exists gasLimit,
    journal st' = journal s ++ [SwapSubmitted swapParams gasLimit].
Proof.
  unfold submitSwap, bind, call, lift, emit, ret, throw.
  destruct (router_exactInputSingle_estimateGas swapParams (world s))
    as [[gasEstimate|e] w1]; [|discriminate].
  destruct (gasLimitFor gasEstimate) as [gasLimit|e]; [|discriminate].
  cbn [world journal].
  destruct (router_exactInputSingle swapParams gasLimit w1) as [[tx'|e] w2];
    [|discriminate].
  intros [= _ <-]. exists gasLimit. reflexivity.
Qed.

Lemma retried_swap_in_journal (swapParams : SwapParams.t)
  (operationName : string) (st st' : State W) (tx : Tx) :
  executeWithRetry (submitSwap swapParams) operationName st
    = (Returned tx, st') ->
  exists gasLimit, In (SwapSubmitted swapParams gasLimit) (journal st').
Proof.
  intros Hrun. destruct (executeWithRetry_returned _ _ _ _ _ Hrun) as [s Hs].
  destruct (submitSwap_returned _ _ _ _ Hs) as [gasLimit Hj].
  exists gasLimit. rewrite Hj. apply in_or_app. right. left. reflexivity.
Qed.


End SubmissionFacts.

Section SellTheorem.
Context {W : Type} `{Ethers W}.


End SellTheorem.


(** A sale of 500 units on the scripted world: the approval and the swap are
    submitted once each, the swap with the whole balance as input and the
    minimum output of the best quote (70 at the 1% tier, 5% slippage). *)
Example executeSell_run :
  executeSell "0xToken" (Js.of_int 5)
    (mkState (Demo.wallet Demo.tiedQuotes 500 Demo.mined) [])
  = (Returned
       (SellDone
          (mkSellReport "0xswap" "https://basescan.org/tx/0xswap" 100 90000
             (mkTokenInfo "Demo Token" "DEMO" 18 "0xToken")
             500 70 67 500 (10 ^ 18) 10000)),
     mkState (Demo.wallet Demo.tiedQuotes 500 Demo.mined)
       [Attempt "Token approval" 1;
        ApproveSubmitted "0xToken" UNISWAP_V3_ROUTER 500 65000;
        Attempt "Sell swap" 1;
        SwapSubmitted
          (SwapParams.mk "0xToken" WETH_ADDRESS 10000 "0xWallet" 500 67 0)
          130000]).
Proof. vm_compute. reflexivity. Qed.

(* ================================================================== *)
(** * USD to wei conversion of the buy operation *)
(* ================================================================== *)

Lemma Q_half_unit (n A : Z) (d : positive) :
  2 * Z.abs (n * Zpos d - A) <= Zpos d ->
  (Qabs (inject_Z n - inject_Z A * / inject_Z (Zpos d)) <= 1 # 2)%Q.
Proof.
  intros Hn.
  unfold Qle, Qabs, Qminus, Qplus, Qopp, Qmult, Qinv, inject_Z.
  cbn [Qnum Qden]. rewrite !Pos.mul_1_l. lia.
Qed.

Lemma round_half_up_near (A D : Z) :
  0 < D -> 2 * Z.abs ((2 * A + D) / (2 * D) * D - A) <= D.
Proof.
  intros HD.
  pose proof (Z.div_mod (2 * A + D) (2 * D) ltac:(lia)) as E.
  pose proof (Z.mod_pos_bound (2 * A + D) (2 * D) ltac:(lia)) as B.
  set (n := (2 * A + D) / (2 * D)) in *.
  set (r := (2 * A + D) mod (2 * D)) in *.
  lia.
Qed.

Lemma Ok_inj {A} (a b : A) : Ok a = Ok b -> a = b.
Proof. congruence. Qed.

(** [toFixed(18)] followed by [parseEther] rounds to a nearest wei. *)
Lemma toFixed18_parseEther_nearest (x : Js.number) (wei : Z) :
  Js.toFixed18_parseEther x = Ok wei -> nearestWei x wei.
Proof.
  unfold nearestWei, Js.toFixed18_parseEther, Js.exact.
  destruct x as [s|s| |s m e]; try discriminate.
  - intros [= <-]. vm_compute. discriminate.
  - destruct (0 <=? e) eqn:Ee.
    + destruct (10 ^ 21 <=? Z.pos m * 2 ^ e); [discriminate|].
      intros Hw. apply Ok_inj in Hw. apply Z.leb_le in Ee.
      rewrite Qpower_2_nonneg by exact Ee. rewrite <- !inject_Z_mult.
      assert (E : wei = (if s then Z.neg m else Z.pos m) * 2 ^ e * 10 ^ 18).
      { rewrite <- Hw. destruct s; [|reflexivity].
        change (Z.neg m) with (- Z.pos m). ring. }
      rewrite E. unfold Qminus. rewrite Qplus_opp_r. vm_compute. discriminate.
    + destruct (10 ^ 21 * 2 ^ (- e) <=? Z.pos m); [discriminate|].
      intros Hw. apply Ok_inj in Hw.
      destruct e as [|p|p]; try discriminate Ee.
      cbn [Z.opp] in Hw.
      rewrite Qpower_2_neg.
      change (2 ^ Z.pos p) with (Z.pos 2 ^ Z.pos p) in Hw.
      rewrite <- (Pos2Z.inj_pow 2 p) in Hw.
      set (D := Z.pos (2 ^ p)) in *.
      set (v := if s then Z.neg m else Z.pos m).
      assert (Eq : (inject_Z v * / inject_Z D * inject_Z (10 ^ 18)
                    == inject_Z (v * 10 ^ 18) * / inject_Z D)%Q).
      { rewrite inject_Z_mult. ring. }
      rewrite Eq. apply Q_half_unit.
      pose proof (round_half_up_near (Z.pos m * 10 ^ 18) D ltac:(lia)) as Hn.
      subst v. destruct s; subst wei; lia.
Qed.

(** Below [10^21] the conversion does not throw. *)
Lemma toFixed18_parseEther_total (x : Js.number) (q : Q) :
  Js.exact x = Some q -> (Qabs q < inject_Z (10 ^ 21))%Q ->
  exists wei, Js.toFixed18_parseEther x = Ok wei.
Proof.
  unfold Js.exact, Js.toFixed18_parseEther.
  destruct x as [s|s| |s m e]; try discriminate.
  - intros _ _. exists 0. reflexivity.
  - intros [= <-] Hq.
    destruct (0 <=? e) eqn:Ee.
    + apply Z.leb_le in Ee.
      assert (Hlt : Z.pos m * 2 ^ e < 10 ^ 21).
      { rewrite Qpower_2_nonneg in Hq by exact Ee.
        rewrite <- inject_Z_mult in Hq.
        assert (P : 0 < 2 ^ e) by (apply Z.pow_pos_nonneg; lia).
        unfold Qlt, Qabs, inject_Z in Hq. cbn [Qnum Qden] in Hq.
        rewrite !Z.mul_1_r in Hq.
        destruct s; [change (Z.neg m) with (- Z.pos m) in Hq|]; nia. }
      destruct (Z.leb_spec (10 ^ 21) (Z.pos m * 2 ^ e)); [lia|].
      eexists; reflexivity.
    + destruct e as [|p|p]; try discriminate Ee.
      cbn [Z.opp].
      change (2 ^ Z.pos p) with (Z.pos 2 ^ Z.pos p).
      rewrite <- (Pos2Z.inj_pow 2 p).
      rewrite Qpower_2_neg in Hq.
      assert (Hlt : Z.pos m < 10 ^ 21 * Z.pos (2 ^ p)).
      { unfold Qlt, Qabs, Qmult, Qinv, inject_Z in Hq. cbn [Qnum Qden] in Hq.
        rewrite !Z.mul_1_r, ?Pos.mul_1_l in Hq.
        destruct s; [change (Z.neg m) with (- Z.pos m) in Hq|]; lia. }
      destruct (Z.leb_spec (10 ^ 21 * Z.pos (2 ^ p)) (Z.pos m)); [lia|].
      eexists; reflexivity.
Qed.

(** C7, as stated, fails: the quotient is a binary64 division, whose rounding
    error is carried into the wei amount.  For $10 at $200 the exact quotient
    is 0.05, that is [5 * 10^16] wei; the code computes
    [50000000000000003] wei, three units more. *)
Lemma wethAmountWei_float_counterexample :
  wethAmountWei (Js.of_int 10) (Js.of_int 200) = Ok 50000000000000003 /\
  ~ withinOneWei (Js.of_int 10) (Js.of_int 200) 50000000000000003.
Proof.
  split; [vm_compute; reflexivity|].
  unfold withinOneWei. intros Hle. apply Qle_bool_iff in Hle.
  vm_compute in Hle. discriminate Hle.
Qed.

(** C7 (amended): the input amount of a BUY is the binary64 quotient
    [amountUsd / ethPriceUsd] quantized to wei by rounding to a nearest
    integer: below [10^21] the conversion succeeds and its result is within
    half a wei of that floating-point quotient (the quotient itself carries
    the rounding error of the division).  In particular $5 at $2500 gives
    exactly [2 * 10^15] wei. *)
Theorem wethAmountWei_quantization (amountUsd ethPriceUsd : Js.number) :
  (forall q,
     Js.exact (wethAmount amountUsd ethPriceUsd) = Some q ->
     (Qabs q < inject_Z (10 ^ 21))%Q ->
     exists wei,
       wethAmountWei amountUsd ethPriceUsd = Ok wei /\
       nearestWei (wethAmount amountUsd ethPriceUsd) wei) /\
  wethAmountWei (Js.of_int 5) (Js.of_int 2500) = Ok (2 * 10 ^ 15).
Proof.
  split; [|vm_compute; reflexivity].
  intros q Hq Hsmall.
  destruct (toFixed18_parseEther_total _ _ Hq Hsmall) as [wei Hwei].
  exists wei. split; [exact Hwei|].
  apply toFixed18_parseEther_nearest. exact Hwei.
Qed.

Lemma wethAmountWei_quantization_witness :
  exists wei,
    wethAmountWei (Js.of_int 5) (Js.of_int 2500) = Ok wei /\
    nearestWei (wethAmount (Js.of_int 5) (Js.of_int 2500)) wei.
Proof.
  refine (proj1 (wethAmountWei_quantization (Js.of_int 5) (Js.of_int 2500))
            (inject_Z 4611686018427388 * Qpower 2 (-61))%Q eq_refl _).
  vm_compute. reflexivity.
Defined.

Section BuyFacts.
Context {W : Type} `{Ethers W}.


End BuyFacts.

(** A purchase of $5 on the scripted world, where the price feed answers
    $2500: the swap spends [2 * 10^15] wei of WETH, and the minimum output is
    that of the best quote (70 at the 1% tier, 5% slippage). *)
Example executeBuy_run :
  executeBuy "0xToken" (Js.of_int 5) (Js.of_int 5)
    (mkState (Demo.wallet Demo.tiedQuotes (10 ^ 16) Demo.mined) [])
  = (Returned
       (mkBuyReport "0xswap" "https://basescan.org/tx/0xswap" 100 90000
          (mkTokenInfo "Demo Token" "DEMO" 18 "0xToken")
          (Js.of_int 5) (2 * 10 ^ 15) 70 67 (10 ^ 16) (10 ^ 16) 10000),
     mkState (Demo.wallet Demo.tiedQuotes (10 ^ 16) Demo.mined)
       [Attempt "Token approval" 1;
        ApproveSubmitted WETH_ADDRESS UNISWAP_V3_ROUTER (2 * 10 ^ 15) 65000;
        Attempt "Buy swap" 1;
        SwapSubmitted
          (SwapParams.mk WETH_ADDRESS "0xToken" 10000 "0xWallet"
             (2 * 10 ^ 15) 67 0)
          130000]).
Proof. vm_compute. reflexivity. Qed.

(* ================================================================== *)
(** * More on the retry wrapper *)
(* ================================================================== *)

Section RetryMore.
Context {W T : Type}.
Variable fn : Async W T.
Variable operationName : string.

(** X1: an error that escapes [executeWithRetry] is either an error of the
    operation that is classified as fatal, passed on as it is, or the
    exhausted-retries error built from a retryable error of the operation;
    a retryable error of the operation never escapes as it is. *)
Theorem executeWithRetry_error_kinds (st st' : State W) (e : Js.Error) :
  executeWithRetry fn operationName st = (Thrown e, st') ->
  (isNonRetryableError e = true /\ exists s, fn s = (Thrown e, st')) \/
  (exists last s,
     e = retriesExhausted operationName (Some last) /\
     isNonRetryableError last = false /\
     fn s = (Thrown last, st')).
Proof.
  unfold executeWithRetry. rewrite attemptNumbers_eq.
  rewrite retryLoop_cons.
  match goal with |- context [fn ?s0] =>
    destruct (fn s0) as [[v1|e1|] s1] eqn:F1 end; try discriminate.
  destruct (isNonRetryableError e1) eqn:R1.
  { intros [= <- <-]. left. split; [exact R1|]. eexists; exact F1. }
  rewrite retryLoop_cons.
  match goal with |- context [fn ?s0] =>
    destruct (fn s0) as [[v2|e2|] s2] eqn:F2 end; try discriminate.
  destruct (isNonRetryableError e2) eqn:R2.
  { intros [= <- <-]. left. split; [exact R2|]. eexists; exact F2. }
  rewrite retryLoop_cons.
  match goal with |- context [fn ?s0] =>
    destruct (fn s0) as [[v3|e3|] s3] eqn:F3 end; try discriminate.
  destruct (isNonRetryableError e3) eqn:R3.
  { intros [= <- <-]. left. split; [exact R3|]. eexists; exact F3. }
  change (3 <? MAX_RETRY_ATTEMPTS) with false. cbv iota.
  rewrite retryLoop_nil. intros [= <- <-].
  right. exists e3. eexists. split; [reflexivity|]. split; [exact R3 | exact F3].
Qed.

(** X2: for an operation that writes nothing to the journal itself, a run of
    [executeWithRetry] adds a prefix of the full schedule that ends on an
    attempt: between one and three attempts, a sleep of 2000 ms before the
    second and of 4000 ms before the third, and never a sleep after the last
    attempt made. *)
Theorem executeWithRetry_bounded (st st' : State W) (r : Completion T) :
  quiet fn ->
  executeWithRetry fn operationName st = (r, st') ->
  exists k, (1 <= k <= 3)%nat /\
    journal st' = journal st ++ firstn (2 * k - 1) (fullSchedule operationName).
Proof.
  intros Hq. unfold executeWithRetry. rewrite attemptNumbers_eq.
  rewrite retryLoop_cons.
  pose proof (Hq (mkState (world st) (journal st ++ [Attempt operationName 1]))) as Q1.
  match goal with |- context [fn ?s0] =>
    destruct (fn s0) as [[v1|e1|] s1] eqn:F1 end; cbn [snd journal] in Q1.
  1, 3: intros [= <- <-]; exists 1%nat; split; [lia | exact Q1].
  destruct (isNonRetryableError e1).
  { intros [= <- <-]; exists 1%nat; split; [lia | exact Q1]. }
  rewrite retryLoop_cons.
  change (1 <? MAX_RETRY_ATTEMPTS) with true. cbv iota. cbn [world journal].
  change (RETRY_BASE_DELAY_MS * RETRY_BACKOFF_MULTIPLIER ^ (1 - 1)) with 2000.
  match goal with |- context [fn ?s] => pose proof (Hq s) as Q2 end.
  match goal with |- context [fn ?s0] =>
    destruct (fn s0) as [[v2|e2|] s2] eqn:F2 end; cbn [snd journal] in Q2;
    rewrite Q1, <- !app_assoc in Q2; cbn [app] in Q2.
  1, 3: intros [= <- <-]; exists 2%nat; split; [lia | exact Q2].
  destruct (isNonRetryableError e2).
  { intros [= <- <-]; exists 2%nat; split; [lia | exact Q2]. }
  rewrite retryLoop_cons.
  change (2 <? MAX_RETRY_ATTEMPTS) with true. cbv iota. cbn [world journal].
  change (RETRY_BASE_DELAY_MS * RETRY_BACKOFF_MULTIPLIER ^ (2 - 1)) with 4000.
  match goal with |- context [fn ?s] => pose proof (Hq s) as Q3 end.
  match goal with |- context [fn ?s0] =>
    destruct (fn s0) as [[v3|e3|] s3] eqn:F3 end; cbn [snd journal] in Q3;
    rewrite Q2, <- !app_assoc in Q3; cbn [app] in Q3.
  1, 3: intros [= <- <-]; exists 3%nat; split; [lia | exact Q3].
  destruct (isNonRetryableError e3).
  { intros [= <- <-]; exists 3%nat; split; [lia | exact Q3]. }
  change (3 <? MAX_RETRY_ATTEMPTS) with false. cbv iota.
  rewrite retryLoop_nil. intros [= <- <-].
  exists 3%nat; split; [lia | exact Q3].
Qed.

End RetryMore.

Lemma executeWithRetry_error_kinds_witness :
  exists last s st',
    isNonRetryableError last = false /\
    Demo.replay s = (Thrown last, st') /\
    executeWithRetry Demo.replay "Sell swap"
      (mkState [Raise Demo.networkTimeout; Raise Demo.networkTimeout;
                Raise Demo.networkTimeout] [])
    = (Thrown (retriesExhausted "Sell swap" (Some last)), st').
Proof.
  destruct (executeWithRetry Demo.replay "Sell swap"
              (mkState [Raise Demo.networkTimeout; Raise Demo.networkTimeout;
                        Raise Demo.networkTimeout] []))
    as [r st'] eqn:Hrun.
  assert (Hr : r = Thrown (retriesExhausted "Sell swap" (Some Demo.networkTimeout)))
    by (apply (f_equal fst) in Hrun; symmetry; exact Hrun).
  subst r.
  destruct (executeWithRetry_error_kinds Demo.replay "Sell swap" _ _ _ Hrun)
    as [[Hfatal _]|(last & s & Hlast & Hretry & Hfn)].
  - discriminate Hfatal.
  - exists last, s, st'. rewrite <- Hlast.
    split; [exact Hretry|]. split; [exact Hfn | reflexivity].
Defined.

Lemma executeWithRetry_bounded_witness :
  exists k, (1 <= k <= 3)%nat /\
    journal (snd (executeWithRetry Demo.replay "Buy swap"
                    (mkState [Raise Demo.networkTimeout; Ok 7] [])))
    = [] ++ firstn (2 * k - 1) (fullSchedule "Buy swap").
Proof.
  refine (executeWithRetry_bounded Demo.replay "Buy swap"
            (mkState [Raise Demo.networkTimeout; Ok 7] []) _ _ _ _).
  - intros st. unfold Demo.replay.
    destruct (world st) as [|[v|e] rest]; reflexivity.
  - apply surjective_pairing.
Defined.

(* ================================================================== *)
(** * The classification of errors *)
(* ================================================================== *)

Lemma toLowerCase_app (a b : string) :
  Js.toLowerCase (a ++ b) = (Js.toLowerCase a ++ Js.toLowerCase b)%string.
Proof. induction a as [|c a IH]; cbn; [reflexivity | rewrite IH; reflexivity]. Qed.

Lemma prefix_app (sub s after : string) :
  String.prefix sub s = true -> String.prefix sub (s ++ after) = true.
Proof.
  revert s. induction sub as [|c sub IH]; intros s.
  - intros _. destruct (s ++ after)%string; reflexivity.
  - destruct s as [|d s]; cbn; [discriminate|].
    destruct (ascii_dec c d); [apply IH | discriminate].
Qed.

Lemma includes_app_r (s sub after : string) :
  Js.includes s sub = true -> Js.includes (s ++ after) sub = true.
Proof.
  induction s as [|c s IH]; cbn [Js.includes append].
  - destruct (String.prefix sub "") eqn:P; [|discriminate].
    intros _. destruct sub; [|discriminate P].
    destruct after; reflexivity.
  - destruct (String.prefix sub (String c s)) eqn:P.
    + intros _. change (String c (s ++ after)) with (String c s ++ after)%string.
      rewrite (prefix_app _ _ after P). reflexivity.
    + intros Hs. rewrite (IH Hs).
      destruct (String.prefix sub (String c (s ++ after))); reflexivity.
Qed.

Lemma includes_app_l (before s sub : string) :
  Js.includes s sub = true -> Js.includes (before ++ s) sub = true.
Proof.
  intros Hs. induction before as [|c before IH]; [exact Hs|].
  cbn [append Js.includes]. rewrite IH.
  destruct (String.prefix sub (String c (before ++ s))); reflexivity.
Qed.

(** X3: the classification looks for the fatal substrings anywhere in the
    message: an error stays fatal when its message is embedded in a longer
    one, whatever is put before and after it and whatever the other fields
    of the error are. *)
Theorem isNonRetryableError_in_context (e : Js.Error) (m before after : string)
  (name : string) (code : option Z) (details : list (string * Js.value)) :
  Js.message e = Some m ->
  isNonRetryableError e = true ->
  isNonRetryableError
    (Js.mkError name (Some (before ++ m ++ after)%string) code details) = true.
Proof.
  unfold isNonRetryableError. intros -> Hfatal. cbn [Js.message].
  apply existsb_exists in Hfatal. destruct Hfatal as (msg & Hin & Hinc).
  apply existsb_exists. exists msg. split; [exact Hin|].
  rewrite !toLowerCase_app. apply includes_app_l, includes_app_r. exact Hinc.
Qed.

Lemma isNonRetryableError_in_context_witness :
  isNonRetryableError
    (Js.mkError "Error"
       (Some ("could not coalesce error (error={ message: "
              ++ "Nonce too low" ++ " })")%string)
       (Some 7) []) = true.
Proof.
  exact (isNonRetryableError_in_context (Demo.rpcError "Nonce too low")
           "Nonce too low" "could not coalesce error (error={ message: " " })"
           "Error" (Some 7) [] eq_refl eq_refl).
Defined.

(* ================================================================== *)
(** * More on the quote selector *)
(* ================================================================== *)

Section SelectorMore.
Context {W : Type} `{Ethers W}.
Variables tokenIn tokenOut : Address.
Variable amountIn : Z.

Lemma probeTiers_world (fees : list Z) :
  forall (bestQuote : Quote.t) (st : State W),
    probeTiers tokenIn tokenOut amountIn fees bestQuote st =
    (Returned (selectQuote
                 (quoteOutcomes tokenIn tokenOut amountIn fees (world st))
                 bestQuote),
     mkState (worldAfterProbe tokenIn tokenOut amountIn fees (world st))
       (journal st)).
Proof.
  induction fees as [|fee rest IH]; intros bestQuote st.
  - destruct st; reflexivity.
  - cbn [probeTiers quoteOutcomes]. unfold worldAfterProbe. cbn [fold_left].
    fold (worldAfterProbe tokenIn tokenOut amountIn rest).
    unfold bind at 1. unfold settle, call.
    destruct (quoter_quoteExactInputSingle _ (world st)) as [[out|e] w1];
      cbn [snd]; rewrite IH; reflexivity.
Qed.

Lemma quoteOutcomes_fees (fees : list Z) :
  forall w, map fst (quoteOutcomes tokenIn tokenOut amountIn fees w) = fees.
Proof.
  induction fees as [|fee rest IH]; intros w; [reflexivity|].
  cbn [quoteOutcomes].
  destruct (quoter_quoteExactInputSingle _ w) as [r w1].
  cbn [map fst]. rewrite IH. reflexivity.
Qed.

(** X4: [findBestPoolFee] asks the quoter about every tier of
    [POOL_FEE_TIERS], in order, whatever the earlier tiers answered: the
    world it leaves is the world after the three queries and the journal is
    untouched.  A quote that it returns carries one of the three tiers, never
    the fee 0 of the initial placeholder. *)
Theorem findBestPoolFee_probes_every_tier (st : State W) :
  exists r,
    findBestPoolFee tokenIn tokenOut amountIn st
    = (r, mkState (worldAfterProbe tokenIn tokenOut amountIn POOL_FEE_TIERS
                     (world st))
            (journal st)) /\
    (forall q, r = Returned q -> In (Quote.fee q) POOL_FEE_TIERS).
Proof.
  unfold findBestPoolFee, bind. rewrite probeTiers_world.
  set (outcomes := quoteOutcomes tokenIn tokenOut amountIn POOL_FEE_TIERS (world st)).
  destruct (selectQuote_spec outcomes (Quote.mk 0 0))
    as [[Hq _]|(i & Hi & _ & _ & _)]; cbv zeta in *.
  - rewrite Hq. cbn.
    eexists. split; [reflexivity|].
    intros q Hr. discriminate Hr.
  - destruct (Quote.amountOut (selectQuote outcomes (Quote.mk 0 0)) =? 0).
    + eexists. split; [reflexivity|].
      intros q Hr. discriminate Hr.
    + eexists. split; [reflexivity|].
      intros q [= <-].
      apply nth_error_In in Hi. apply (in_map fst) in Hi.
      unfold outcomes in Hi. rewrite quoteOutcomes_fees in Hi. exact Hi.
Qed.

End SelectorMore.

(* ================================================================== *)
(** * More on the minimum output *)
(* ================================================================== *)

(** X5: for [E >= 0] and a percentage in [[0,100]] with [bps] basis points,
    the minimum output is the exact threshold [E * (10000 - bps) / 10000]
    rounded up to an integer: the deduction is rounded down, so the floor
    is never below the exact threshold and is less than one unit above
    it. *)
Theorem calculateMinOutput_rounds_up (E : Z) (S : Js.number) :
  0 <= E -> percent_in_range S = true ->
  exists bps r,
    Js.BigInt_floor (Js.mul S (Js.of_int 100)) = Ok bps /\
    calculateMinOutput E S = Ok r /\
    E * (10000 - bps) <= 10000 * r < E * (10000 - bps) + 10000.
Proof.
  intros HE Hr.
  destruct (slippageBps_in_range S Hr) as (bps & Hb & Hrange).
  exists bps, (E - Z.quot (E * bps) 10000).
  split; [exact Hb|]. split; [apply calculateMinOutput_bps; exact Hb|].
  rewrite quot_is_floor by (apply Z.mul_nonneg_nonneg; lia).
  pose proof (Z.div_mod (E * bps) 10000 ltac:(lia)) as Hdiv.
  pose proof (Z.mod_pos_bound (E * bps) 10000 ltac:(lia)) as Hmod.
  lia.
Qed.

Lemma calculateMinOutput_rounds_up_witness :
  exists bps r,
    Js.BigInt_floor (Js.mul (Js.decimal 25 1) (Js.of_int 100)) = Ok bps /\
    calculateMinOutput 999 (Js.decimal 25 1) = Ok r /\
    999 * (10000 - bps) <= 10000 * r < 999 * (10000 - bps) + 10000.
Proof.
  apply (calculateMinOutput_rounds_up 999 (Js.decimal 25 1)); [lia | reflexivity].
Defined.

(** X6: for a percentage in [[0,100]] the minimum output grows with the
    expected output: a larger quote never gets a smaller floor. *)
Theorem calculateMinOutput_monotone (E1 E2 : Z) (S : Js.number) :
  0 <= E1 <= E2 -> percent_in_range S = true ->
  exists r1 r2,
    calculateMinOutput E1 S = Ok r1 /\
    calculateMinOutput E2 S = Ok r2 /\
    r1 <= r2.
Proof.
  intros HE Hr.
  destruct (slippageBps_in_range S Hr) as (bps & Hb & Hrange).
  exists (E1 - Z.quot (E1 * bps) 10000), (E2 - Z.quot (E2 * bps) 10000).
  split; [apply calculateMinOutput_bps; exact Hb|].
  split; [apply calculateMinOutput_bps; exact Hb|].
  rewrite !quot_is_floor by (apply Z.mul_nonneg_nonneg; lia).
  assert (Hle : (E2 * bps) / 10000 <= (E1 * bps + (E2 - E1) * 10000) / 10000).
  { apply Z.div_le_mono; [lia|]. nia. }
  rewrite Z.div_add in Hle by lia. lia.
Qed.

Lemma calculateMinOutput_monotone_witness :
  exists r1 r2,
    calculateMinOutput 1000 (Js.of_int 5) = Ok r1 /\
    calculateMinOutput 1001 (Js.of_int 5) = Ok r2 /\
    r1 <= r2.
Proof.
  apply (calculateMinOutput_monotone 1000 1001 (Js.of_int 5));
    [lia | reflexivity].
Defined.

(* ================================================================== *)
(** * Token operations *)
(* ================================================================== *)

Lemma returnsOnly_throw {W A} (Q : A -> Prop) (e : Js.Error) :
  returnsOnly Q (throw (W := W) e).
Proof. intros st a st' Hrun. discriminate Hrun. Qed.

Section TokenFacts.
Context {W : Type} `{Ethers W}.

(** X7: [approveToken] submits nothing when the allowance already covers
    the amount: it returns [null] and the journal is as it was.  Otherwise
    every approval it submits is for exactly this token, spender and amount
    (and it submits no swap); it returns [null] only in the first case, and
    a receipt that it returns has status 1. *)
Theorem approveToken_skips_or_confirms (tokenAddress spenderAddress : Address)
  (amount : Z) (st st' : State W) (r : Completion (option Receipt)) :
  approveToken tokenAddress spenderAddress amount st = (r, st') ->
  (exists evs, journal st' = journal st ++ evs /\
               Forall (approvalOf tokenAddress spenderAddress amount) evs) /\
  (forall receipt, r = Returned (Some receipt) -> status receipt = 1) /\
  (r = Returned None -> journal st' = journal st) /\
  (forall owner w1 currentAllowance w2,
     wallet_getAddress (world st) = (Ok owner, w1) ->
     erc20_allowance tokenAddress owner spenderAddress w1
       = (Ok currentAllowance, w2) ->
     amount <= currentAllowance ->
     r = Returned None /\ st' = mkState w2 (journal st)).
Proof.
  intros Hrun. split; [|split; [|split]].
  - revert st r st' Hrun.
    change (emits (approvalOf tokenAddress spenderAddress amount)
              (approveToken tokenAddress spenderAddress amount)).
    unfold approveToken.
    apply emits_bind; [apply emits_call | intros owner].
    apply emits_bind; [apply emits_call | intros currentAllowance].
    destruct (amount <=? currentAllowance); [apply emits_ret|].
    apply emits_bind; [|intros tx].
    + apply emits_executeWithRetry; try (intros; exact I).
      apply emits_bind; [apply emits_call | intros gasEstimate].
      apply emits_bind; [apply emits_emit; cbn; auto | intros _].
      apply emits_call.
    + apply emits_bind; [apply emits_await_wait | intros receipt].
      destruct (negb (status receipt =? 1)); [apply emits_throw | apply emits_ret].
  - intros receipt ->. revert st st' Hrun.
    assert (Hret : returnsOnly
                     (fun x => forall rc, x = Some rc -> status rc = 1)
                     (approveToken tokenAddress spenderAddress amount)).
    { unfold approveToken.
      apply returnsOnly_bind; intros owner.
      apply returnsOnly_bind; intros currentAllowance.
      destruct (amount <=? currentAllowance);
        [apply returnsOnly_ret; discriminate|].
      apply returnsOnly_bind; intros tx.
      apply returnsOnly_bind; intros rc.
      destruct (Z.eqb_spec (status rc) 1) as [E|E]; cbn [negb].
      - apply returnsOnly_ret. intros rc' [= <-]. exact E.
      - apply returnsOnly_throw. }
    intros st st' Hrun. exact (Hret _ _ _ Hrun receipt eq_refl).
  - intros ->. revert Hrun. unfold approveToken.
    unfold bind at 1. unfold call at 1.
    destruct (wallet_getAddress (world st)) as [[owner|e] w1]; [|discriminate].
    unfold bind at 1. unfold call at 1. cbn [world journal].
    destruct (erc20_allowance _ _ _ w1) as [[currentAllowance|e] w2];
      [|discriminate].
    destruct (amount <=? currentAllowance).
    + intros [= <-]. reflexivity.
    + intros Hrun. exfalso.
      match type of Hrun with ?m ?s = _ =>
        assert (Hret : returnsOnly (fun x => x <> None) m)
      end.
      { apply returnsOnly_bind; intros tx.
        apply returnsOnly_bind; intros rc.
        destruct (negb (status rc =? 1));
          [apply returnsOnly_throw | apply returnsOnly_ret; discriminate]. }
      exact (Hret _ _ _ Hrun eq_refl).
  - intros owner w1 currentAllowance w2 Hw Ha Hle.
    revert Hrun. unfold approveToken.
    unfold bind at 1. unfold call at 1. rewrite Hw.
    unfold bind at 1. unfold call at 1. cbn [world journal]. rewrite Ha.
    destruct (Z.leb_spec amount currentAllowance); [|lia].
    intros [= <- <-]. split; reflexivity.
Qed.

(** X8: [getTokenInfo] never fails on the token's side: a [name], [symbol]
    or [decimals] call that rejects is replaced by "Unknown", "UNKNOWN" or
    18, the address is the one asked for, and nothing is written to the
    journal. *)
Theorem getTokenInfo_defaults (tokenAddress : Address) (st : State W) :
  let name := erc20_name tokenAddress (world st) in
  let symbol := erc20_symbol tokenAddress (snd name) in
  let decimals := erc20_decimals tokenAddress (snd symbol) in
  getTokenInfo tokenAddress st =
  (Returned
     (mkTokenInfo
        (match fst name with Ok n => n | Raise _ => "Unknown" end)
        (match fst symbol with Ok s => s | Raise _ => "UNKNOWN" end)
        (match fst decimals with Ok d => d | Raise _ => 18 end)
        tokenAddress),
   mkState (snd decimals) (journal st)).
Proof.
  unfold getTokenInfo, catch_default, try_catch, bind, call, ret.
  cbv zeta.
  destruct (erc20_name tokenAddress (world st)) as [[n|e1] w1]; cbn [fst snd world journal];
    destruct (erc20_symbol tokenAddress w1) as [[s|e2] w2]; cbn [fst snd world journal];
    destruct (erc20_decimals tokenAddress w2) as [[d|e3] w3]; reflexivity.
Qed.

End TokenFacts.

Lemma approveToken_skips_or_confirms_witness :
  approveToken "0xToken" UNISWAP_V3_ROUTER 80
    (mkState (Demo.mk Demo.tiedQuotes 500 100 [] Demo.mined) [])
  = (Returned None, mkState (Demo.mk Demo.tiedQuotes 500 100 [] Demo.mined) []).
Proof.
  destruct (approveToken "0xToken" UNISWAP_V3_ROUTER 80
              (mkState (Demo.mk Demo.tiedQuotes 500 100 [] Demo.mined) []))
    as [r st'] eqn:Hrun.
  destruct (approveToken_skips_or_confirms (H := Demo.ethers) _ _ _ _ _ _ Hrun)
    as (_ & _ & _ & Hskip).
  destruct (Hskip "0xWallet" (Demo.mk Demo.tiedQuotes 500 100 [] Demo.mined)
              100 (Demo.mk Demo.tiedQuotes 500 100 [] Demo.mined)
              eq_refl eq_refl ltac:(lia)) as [-> ->].
  reflexivity.
Defined.

(* ================================================================== *)
(** * More on the buy operation *)
(* ================================================================== *)

Section BuyMore.
Context {W : Type} `{Ethers W}.


(** X10: [executeBuy] checks the balances before it asks for a quote or
    submits anything.  With less than 0.001 ETH for gas it throws the
    insufficient-balance error for "ETH (for gas)"; with enough ETH but less
    WETH than the amount to spend it throws the one for "WETH".  In both
    cases the state is the one left by the two balance reads and the journal
    is as it was. *)
Theorem executeBuy_checks_balances (tokenAddress : Address)
  (amountUsd slippageTolerance ethPriceUsd : Js.number)
  (st st1 st2 st3 st4 st5 : State W) (walletAddress : Address)
  (tokenInfo : TokenInfo) (wei wethBalance ethBalance : Z) :
  call wallet_getAddress st = (Returned walletAddress, st1) ->
  getTokenInfo tokenAddress st1 = (Returned tokenInfo, st2) ->
  getEthPriceUsd st2 = (Returned ethPriceUsd, st3) ->
  wethAmountWei amountUsd ethPriceUsd = Ok wei ->
  getTokenBalance WETH_ADDRESS walletAddress st3 = (Returned wethBalance, st4) ->
  getEthBalance walletAddress st4 = (Returned ethBalance, st5) ->
  journal st5 = journal st /\
  (ethBalance < 10 ^ 15 ->
   exists e,
     executeBuy tokenAddress amountUsd slippageTolerance st = (Thrown e, st5) /\
     Js.name e = "ValidationError" /\
     Js.code e = Some ERROR_CODES.INSUFFICIENT_BALANCE /\
     Js.message e = Some "Insufficient ETH (for gas) balance") /\
  (10 ^ 15 <= ethBalance -> wethBalance < wei ->
   exists e,
     executeBuy tokenAddress amountUsd slippageTolerance st = (Thrown e, st5) /\
     Js.name e = "ValidationError" /\
     Js.code e = Some ERROR_CODES.INSUFFICIENT_BALANCE /\
     Js.message e = Some "Insufficient WETH balance").
Proof.
  intros H1 H2 H3 Hwei H4 H5.
  assert (Hrun : executeBuy tokenAddress amountUsd slippageTolerance st =
                 (lift (validateSufficientBalance ethBalance (10 ^ 15) "ETH (for gas)") ;;
                  lift (validateSufficientBalance wethBalance wei "WETH") ;;
                  quote <- findBestPoolFee WETH_ADDRESS tokenAddress wei ;;
                  minAmountOut <- lift (calculateMinOutput (Quote.amountOut quote)
                                          slippageTolerance) ;;
                  approveToken WETH_ADDRESS UNISWAP_V3_ROUTER wei ;;
                  tx <- executeWithRetry
                          (submitSwap
                             (SwapParams.mk WETH_ADDRESS tokenAddress
                                (Quote.fee quote) walletAddress wei minAmountOut 0))
                          "Buy swap" ;;
                  receipt <- waitForTransaction tx None ;;
                  newTokenBalance <- getTokenBalance tokenAddress walletAddress ;;
                  newWethBalance <- getTokenBalance WETH_ADDRESS walletAddress ;;
                  ret (mkBuyReport (hash tx) (getExplorerUrl (hash tx))
                         (blockNumber receipt) (gasUsed receipt) tokenInfo
                         amountUsd wei (Quote.amountOut quote) minAmountOut
                         newTokenBalance newWethBalance (Quote.fee quote))) st5).
  { unfold executeBuy.
    rewrite (bind_returned _ _ _ _ _ H1).
    rewrite (bind_returned _ _ _ _ _ H2).
    rewrite (bind_returned _ _ _ _ _ H3).
    rewrite Hwei.
    rewrite (bind_returned (lift (Ok wei)) _ st3 st3 wei eq_refl).
    rewrite (bind_returned _ _ _ _ _ H4).
    rewrite (bind_returned _ _ _ _ _ H5).
    reflexivity. }
  split; [|split].
  - destruct (emits_call (fun _ => False) _ _ _ _ H1) as (l1 & J1 & F1).
    destruct (emits_getTokenInfo (fun _ => False) _ _ _ _ H2) as (l2 & J2 & F2).
    destruct (emits_getEthPriceUsd (fun _ => False) _ _ _ H3) as (l3 & J3 & F3).
    destruct (emits_getTokenBalance (fun _ => False) _ _ _ _ _ H4) as (l4 & J4 & F4).
    destruct (emits_getEthBalance (fun _ => False) _ _ _ _ H5) as (l5 & J5 & F5).
    destruct l1 as [|? ?]; [|inversion F1; contradiction].
    destruct l2 as [|? ?]; [|inversion F2; contradiction].
    destruct l3 as [|? ?]; [|inversion F3; contradiction].
    destruct l4 as [|? ?]; [|inversion F4; contradiction].
    destruct l5 as [|? ?]; [|inversion F5; contradiction].
    rewrite J5, J4, J3, J2, J1, !app_nil_r. reflexivity.
  - intros Hlow. rewrite Hrun.
    unfold validateSufficientBalance at 1.
    destruct (Z.ltb_spec ethBalance (10 ^ 15)); [|lia].
    eexists. split; [reflexivity|]. repeat split.
  - intros Hgas Hlow. rewrite Hrun.
    unfold validateSufficientBalance at 1.
    destruct (Z.ltb_spec ethBalance (10 ^ 15)); [lia|].
    unfold validateSufficientBalance at 1.
    destruct (Z.ltb_spec wethBalance wei); [|lia].
    eexists. split; [reflexivity|]. repeat split.
Qed.

End BuyMore.


Lemma executeBuy_checks_balances_witness :
  (exists e,
     executeBuy (H := DemoFunds.ethers (10 ^ 14) (Ok 250000000000))
       "0xToken" (Js.of_int 5) (Js.of_int 5)
       (mkState (Demo.wallet Demo.tiedQuotes (10 ^ 16) Demo.mined) [])
     = (Thrown e, mkState (Demo.wallet Demo.tiedQuotes (10 ^ 16) Demo.mined) []) /\
     Js.message e = Some "Insufficient ETH (for gas) balance") /\
  (exists e,
     executeBuy (H := DemoFunds.ethers (10 ^ 18) (Ok 250000000000))
       "0xToken" (Js.of_int 5) (Js.of_int 5)
       (mkState (Demo.wallet Demo.tiedQuotes (10 ^ 15) Demo.mined) [])
     = (Thrown e, mkState (Demo.wallet Demo.tiedQuotes (10 ^ 15) Demo.mined) []) /\
     Js.message e = Some "Insufficient WETH balance").
Proof.
  split.
  - destruct (executeBuy_checks_balances
                (H := DemoFunds.ethers (10 ^ 14) (Ok 250000000000))
                "0xToken" (Js.of_int 5) (Js.of_int 5) (Js.of_int 2500)
                (mkState (Demo.wallet Demo.tiedQuotes (10 ^ 16) Demo.mined) [])
                (mkState (Demo.wallet Demo.tiedQuotes (10 ^ 16) Demo.mined) [])
                (mkState (Demo.wallet Demo.tiedQuotes (10 ^ 16) Demo.mined) [])
                (mkState (Demo.wallet Demo.tiedQuotes (10 ^ 16) Demo.mined) [])
                (mkState (Demo.wallet Demo.tiedQuotes (10 ^ 16) Demo.mined) [])
                (mkState (Demo.wallet Demo.tiedQuotes (10 ^ 16) Demo.mined) [])
                "0xWallet" (mkTokenInfo "Demo Token" "DEMO" 18 "0xToken")
                (2 * 10 ^ 15) (10 ^ 16) (10 ^ 14)
                eq_refl eq_refl eq_refl eq_refl eq_refl eq_refl)
      as (_ & Hgas & _).
    destruct Hgas as (e & Hrun & _ & _ & Hmsg); [vm_compute; reflexivity|].
    exists e. split; [exact Hrun | exact Hmsg].
  - destruct (executeBuy_checks_balances
                (H := DemoFunds.ethers (10 ^ 18) (Ok 250000000000))
                "0xToken" (Js.of_int 5) (Js.of_int 5) (Js.of_int 2500)
                (mkState (Demo.wallet Demo.tiedQuotes (10 ^ 15) Demo.mined) [])
                (mkState (Demo.wallet Demo.tiedQuotes (10 ^ 15) Demo.mined) [])
                (mkState (Demo.wallet Demo.tiedQuotes (10 ^ 15) Demo.mined) [])
                (mkState (Demo.wallet Demo.tiedQuotes (10 ^ 15) Demo.mined) [])
                (mkState (Demo.wallet Demo.tiedQuotes (10 ^ 15) Demo.mined) [])
                (mkState (Demo.wallet Demo.tiedQuotes (10 ^ 15) Demo.mined) [])
                "0xWallet" (mkTokenInfo "Demo Token" "DEMO" 18 "0xToken")
                (2 * 10 ^ 15) (10 ^ 15) (10 ^ 18)
                eq_refl eq_refl eq_refl eq_refl eq_refl eq_refl)
      as (_ & _ & Hweth).
    destruct Hweth as (e & Hrun & _ & _ & Hmsg);
      [vm_compute; discriminate | vm_compute; reflexivity |].
    exists e. split; [exact Hrun | exact Hmsg].
Defined.

(* ================================================================== *)
(** * What the two operations submit *)
(* ================================================================== *)

Section TradeFacts.
Context {W : Type} `{Ethers W}.

Lemma emits_approveToken_exact (P : Event -> Prop)
  (tokenAddress spenderAddress : Address) (amount : Z) :
  (forall operationName attempt, P (Attempt operationName attempt)) ->
  (forall ms, P (Sleep ms)) ->
  (forall gasLimit,
     P (ApproveSubmitted tokenAddress spenderAddress amount gasLimit)) ->
  emits P (approveToken tokenAddress spenderAddress amount).
Proof.
  intros Pa Ps Pp. unfold approveToken.
  apply emits_bind; [apply emits_call | intros owner].
  apply emits_bind; [apply emits_call | intros currentAllowance].
  destruct (amount <=? currentAllowance); [apply emits_ret|].
  apply emits_bind; [|intros tx].
  - apply emits_executeWithRetry; try assumption.
    apply emits_bind; [apply emits_call | intros gasEstimate].
    apply emits_bind; [apply emits_emit, Pp | intros _].
    apply emits_call.
  - apply emits_bind; [apply emits_await_wait | intros receipt].
    destruct (negb (status receipt =? 1)); [apply emits_throw | apply emits_ret].
Qed.

(** X11: once the balance [B <> 0] has been read and the best quote and its
    minimum output are known, everything [executeSell] submits is the
    approval of exactly [B] units of the token for the router, or the swap of
    exactly [B] units of the token for WETH at the quoted fee tier, to the
    wallet itself, with that minimum output and no price limit.  A completed
    sale reports the quote's fee tier and output, that minimum, the token
    info read at the start and the explorer link of the swap's hash. *)
Theorem executeSell_submits_quoted_swap (tokenAddress : Address)
  (slippageTolerance : Js.number) (st st1 st2 st3 st4 st' : State W)
  (walletAddress : Address) (tokenInfo : TokenInfo) (B : Z)
  (quote : Quote.t) (minAmountOut : Z) (r : Completion SellResult) :
  call wallet_getAddress st = (Returned walletAddress, st1) ->
  getTokenInfo tokenAddress st1 = (Returned tokenInfo, st2) ->
  getTokenBalance tokenAddress walletAddress st2 = (Returned B, st3) ->
  B <> 0 ->
  findBestPoolFee tokenAddress WETH_ADDRESS B st3 = (Returned quote, st4) ->
  calculateMinOutput (Quote.amountOut quote) slippageTolerance = Ok minAmountOut ->
  executeSell tokenAddress slippageTolerance st = (r, st') ->
  (exists evs,
     journal st' = journal st ++ evs /\
     Forall (tradeOf tokenAddress UNISWAP_V3_ROUTER B
               (SwapParams.mk tokenAddress WETH_ADDRESS (Quote.fee quote)
                  walletAddress B minAmountOut 0)) evs) /\
  (forall result, r = Returned result ->
     exists report,
       result = SellDone report /\
       sell_poolFee report = Quote.fee quote /\
       sell_expectedEth report = Quote.amountOut quote /\
       sell_minEth report = minAmountOut /\
       sell_token report = tokenInfo /\
       sell_explorerUrl report = getExplorerUrl (sell_txHash report)).
Proof.
  intros H1 H2 H3 HB Hq Hmin Hrun.
  assert (J4 : journal st4 = journal st).
  { rewrite (quiet_journal _ _ _ _ (emits_findBestPoolFee _ _ _ _) Hq).
    rewrite (quiet_journal _ _ _ _ (emits_getTokenBalance _ _ _) H3).
    rewrite (quiet_journal _ _ _ _ (emits_getTokenInfo _ _) H2).
    exact (quiet_journal _ _ _ _ (emits_call _ _) H1). }
  unfold executeSell in Hrun.
  rewrite (bind_returned _ _ _ _ _ H1) in Hrun.
  rewrite (bind_returned _ _ _ _ _ H2) in Hrun.
  rewrite (bind_returned _ _ _ _ _ H3) in Hrun.
  destruct (Z.eqb_spec B 0) as [E|_]; [contradiction|].
  rewrite (bind_returned _ _ _ _ _ Hq) in Hrun.
  cbv beta zeta in Hrun. rewrite Hmin in Hrun.
  rewrite (bind_returned (lift (Ok minAmountOut)) _ st4 st4 minAmountOut eq_refl)
    in Hrun.
  match type of Hrun with ?m st4 = _ =>
    assert (Hem : emits (tradeOf tokenAddress UNISWAP_V3_ROUTER B
                           (SwapParams.mk tokenAddress WETH_ADDRESS
                              (Quote.fee quote) walletAddress B minAmountOut 0)) m);
    [| assert (Hret : returnsOnly
                        (fun result => exists report,
                           result = SellDone report /\
                           sell_poolFee report = Quote.fee quote /\
                           sell_expectedEth report = Quote.amountOut quote /\
                           sell_minEth report = minAmountOut /\
                           sell_token report = tokenInfo /\
                           sell_explorerUrl report
                             = getExplorerUrl (sell_txHash report)) m) ]
  end.
  - apply emits_bind; [|intros _].
    { apply emits_approveToken_exact; intros; cbn; auto. }
    apply emits_bind; [|intros tx].
    { apply emits_executeWithRetry; try (intros; exact I).
      apply emits_submitSwap. intros gasLimit. reflexivity. }
    apply emits_bind; [apply emits_waitForTransaction | intros receipt].
    apply emits_bind; [apply emits_getTokenBalance | intros newTokenBalance].
    apply emits_bind; [apply emits_getEthBalance | intros newEthBalance].
    apply emits_bind; [apply emits_getEthPriceUsd | intros _].
    apply emits_ret.
  - repeat (apply returnsOnly_bind; intros ?).
    apply returnsOnly_ret. eexists. repeat split.
  - split.
    + destruct (Hem _ _ _ Hrun) as (evs & J & F).
      exists evs. rewrite J, J4. split; [reflexivity | exact F].
    + intros result ->. exact (Hret _ _ _ Hrun).
Qed.

(** X12: a sale goes no further than its approval.  When [approveToken]
    throws, [executeSell] throws the same error, and when it stays pending
    so does [executeSell]; in both cases the state is the one the approval
    left and no swap has been submitted. *)
Theorem executeSell_stops_at_failed_approval (tokenAddress : Address)
  (slippageTolerance : Js.number) (st st1 st2 st3 st4 st5 : State W)
  (walletAddress : Address) (tokenInfo : TokenInfo) (B : Z)
  (quote : Quote.t) (minAmountOut : Z) (c : Completion (option Receipt)) :
  call wallet_getAddress st = (Returned walletAddress, st1) ->
  getTokenInfo tokenAddress st1 = (Returned tokenInfo, st2) ->
  getTokenBalance tokenAddress walletAddress st2 = (Returned B, st3) ->
  B <> 0 ->
  findBestPoolFee tokenAddress WETH_ADDRESS B st3 = (Returned quote, st4) ->
  calculateMinOutput (Quote.amountOut quote) slippageTolerance = Ok minAmountOut ->
  approveToken tokenAddress UNISWAP_V3_ROUTER B st4 = (c, st5) ->
  (forall e, c = Thrown e ->
     executeSell tokenAddress slippageTolerance st = (Thrown e, st5)) /\
  (c = Pending ->
     executeSell tokenAddress slippageTolerance st = (Pending, st5)) /\
  (exists evs, journal st5 = journal st ++ evs /\ Forall notSwap evs).
Proof.
  intros H1 H2 H3 HB Hq Hmin Happ.
  assert (J4 : journal st4 = journal st).
  { rewrite (quiet_journal _ _ _ _ (emits_findBestPoolFee _ _ _ _) Hq).
    rewrite (quiet_journal _ _ _ _ (emits_getTokenBalance _ _ _) H3).
    rewrite (quiet_journal _ _ _ _ (emits_getTokenInfo _ _) H2).
    exact (quiet_journal _ _ _ _ (emits_call _ _) H1). }
  assert (Hrun :
            executeSell tokenAddress slippageTolerance st
            = bind (approveToken tokenAddress UNISWAP_V3_ROUTER B)
                (fun _ =>
                   tx <- executeWithRetry
                           (submitSwap
                              (SwapParams.mk tokenAddress WETH_ADDRESS
                                 (Quote.fee quote) walletAddress B minAmountOut 0))
                           "Sell swap" ;;
                   receipt <- waitForTransaction tx None ;;
                   newTokenBalance <- getTokenBalance tokenAddress walletAddress ;;
                   newEthBalance <- getEthBalance walletAddress ;;
                   getEthPriceUsd ;;
                   ret (SellDone
                          (mkSellReport (hash tx) (getExplorerUrl (hash tx))
                             (blockNumber receipt) (gasUsed receipt) tokenInfo
                             B (Quote.amountOut quote) minAmountOut
                             newTokenBalance newEthBalance (Quote.fee quote))))
                st4).
  { unfold executeSell.
    rewrite (bind_returned _ _ _ _ _ H1).
    rewrite (bind_returned _ _ _ _ _ H2).
    rewrite (bind_returned _ _ _ _ _ H3).
    destruct (Z.eqb_spec B 0) as [E|_]; [contradiction|].
    rewrite (bind_returned _ _ _ _ _ Hq).
    cbv beta zeta. rewrite Hmin.
    rewrite (bind_returned (lift (Ok minAmountOut)) _ st4 st4 minAmountOut eq_refl).
    reflexivity. }
  split; [|split].
  - intros e ->. rewrite Hrun. unfold bind at 1. rewrite Happ. reflexivity.
  - intros ->. rewrite Hrun. unfold bind at 1. rewrite Happ. reflexivity.
  - assert (Hem : emits notSwap (approveToken tokenAddress UNISWAP_V3_ROUTER B)).
    { apply emits_approveToken_exact; intros; exact I. }
    destruct (Hem _ _ _ Happ) as (evs & J & F).
    exists evs. rewrite J, J4. split; [reflexivity | exact F].
Qed.

End TradeFacts.

Lemma executeSell_submits_quoted_swap_witness :
  exists r st' evs,
    executeSell "0xToken" (Js.of_int 5)
      (mkState (Demo.wallet Demo.tiedQuotes 500 Demo.mined) [])
    = (r, st') /\
    journal st' = [] ++ evs /\
    Forall (tradeOf "0xToken" UNISWAP_V3_ROUTER 500
              (SwapParams.mk "0xToken" WETH_ADDRESS 10000 "0xWallet" 500 67 0))
      evs.
Proof.
  destruct (executeSell "0xToken" (Js.of_int 5)
              (mkState (Demo.wallet Demo.tiedQuotes 500 Demo.mined) []))
    as [r st'] eqn:Hrun.
  destruct (executeSell_submits_quoted_swap (H := Demo.ethers)
              "0xToken" (Js.of_int 5)
              (mkState (Demo.wallet Demo.tiedQuotes 500 Demo.mined) [])
              (mkState (Demo.wallet Demo.tiedQuotes 500 Demo.mined) [])
              (mkState (Demo.wallet Demo.tiedQuotes 500 Demo.mined) [])
              (mkState (Demo.wallet Demo.tiedQuotes 500 Demo.mined) [])
              (mkState (Demo.wallet Demo.tiedQuotes 500 Demo.mined) [])
              st' "0xWallet" (mkTokenInfo "Demo Token" "DEMO" 18 "0xToken")
              500 (Quote.mk 10000 70) 67 r
              eq_refl eq_refl eq_refl ltac:(discriminate) eq_refl eq_refl Hrun)
    as ((evs & Hj & Hall) & _).
  exists r, st', evs. split; [reflexivity|]. split; [exact Hj | exact Hall].
Defined.

Lemma executeSell_stops_at_failed_approval_witness :
  executeSell "0xToken" (Js.of_int 5)
    (mkState (Demo.wallet Demo.tiedQuotes 500 NeverSettles) [])
  = (Pending,
     mkState (Demo.wallet Demo.tiedQuotes 500 NeverSettles)
       [Attempt "Token approval" 1;
        ApproveSubmitted "0xToken" UNISWAP_V3_ROUTER 500 65000]).
Proof.
  destruct (executeSell_stops_at_failed_approval (H := Demo.ethers)
              "0xToken" (Js.of_int 5)
              (mkState (Demo.wallet Demo.tiedQuotes 500 NeverSettles) [])
              (mkState (Demo.wallet Demo.tiedQuotes 500 NeverSettles) [])
              (mkState (Demo.wallet Demo.tiedQuotes 500 NeverSettles) [])
              (mkState (Demo.wallet Demo.tiedQuotes 500 NeverSettles) [])
              (mkState (Demo.wallet Demo.tiedQuotes 500 NeverSettles) [])
              (mkState (Demo.wallet Demo.tiedQuotes 500 NeverSettles)
                 [Attempt "Token approval" 1;
                  ApproveSubmitted "0xToken" UNISWAP_V3_ROUTER 500 65000])
              "0xWallet" (mkTokenInfo "Demo Token" "DEMO" 18 "0xToken")
              500 (Quote.mk 10000 70) 67 Pending
              eq_refl eq_refl eq_refl ltac:(discriminate) eq_refl eq_refl eq_refl)
    as (_ & Hpending & _).
  exact (Hpending eq_refl).
Defined.

Section BuyTrade.
Context {W : Type} `{Ethers W}.

(** X13: once both balance checks have passed and the best quote and its
    minimum output are known, everything [executeBuy] submits is the
    approval of exactly the converted wei amount of WETH for the router, or
    the swap of exactly that amount of WETH for the token at the quoted fee
    tier, to the wallet itself, with that minimum output and no price
    limit.  A completed purchase reports the USD amount asked for, the
    quote's fee tier and output, that minimum and the token info read at the
    start. *)
Theorem executeBuy_submits_quoted_swap (tokenAddress : Address)
  (amountUsd slippageTolerance ethPriceUsd : Js.number)
  (st st1 st2 st3 st4 st5 st6 st' : State W) (walletAddress : Address)
  (tokenInfo : TokenInfo) (wei wethBalance ethBalance : Z)
  (quote : Quote.t) (minAmountOut : Z) (r : Completion BuyReport) :
  call wallet_getAddress st = (Returned walletAddress, st1) ->
  getTokenInfo tokenAddress st1 = (Returned tokenInfo, st2) ->
  getEthPriceUsd st2 = (Returned ethPriceUsd, st3) ->
  wethAmountWei amountUsd ethPriceUsd = Ok wei ->
  getTokenBalance WETH_ADDRESS walletAddress st3 = (Returned wethBalance, st4) ->
  getEthBalance walletAddress st4 = (Returned ethBalance, st5) ->
  10 ^ 15 <= ethBalance ->
  wei <= wethBalance ->
  findBestPoolFee WETH_ADDRESS tokenAddress wei st5 = (Returned quote, st6) ->
  calculateMinOutput (Quote.amountOut quote) slippageTolerance = Ok minAmountOut ->
  executeBuy tokenAddress amountUsd slippageTolerance st = (r, st') ->
  (exists evs,
     journal st' = journal st ++ evs /\
     Forall (tradeOf WETH_ADDRESS UNISWAP_V3_ROUTER wei
               (SwapParams.mk WETH_ADDRESS tokenAddress (Quote.fee quote)
                  walletAddress wei minAmountOut 0)) evs) /\
  (forall report, r = Returned report ->
     buy_usdAmount report = amountUsd /\
     buy_wethAmountWei report = wei /\
     buy_poolFee report = Quote.fee quote /\
     buy_expectedTokens report = Quote.amountOut quote /\
     buy_minTokens report = minAmountOut /\
     buy_token report = tokenInfo /\
     buy_explorerUrl report = getExplorerUrl (buy_txHash report)).
Proof.
  intros H1 H2 H3 Hwei H4 H5 Hgas Hweth Hq Hmin Hrun.
  assert (J6 : journal st6 = journal st).
  { rewrite (quiet_journal _ _ _ _ (emits_findBestPoolFee _ _ _ _) Hq).
    rewrite (quiet_journal _ _ _ _ (emits_getEthBalance _ _) H5).
    rewrite (quiet_journal _ _ _ _ (emits_getTokenBalance _ _ _) H4).
    rewrite (quiet_journal _ _ _ _ (emits_getEthPriceUsd _) H3).
    rewrite (quiet_journal _ _ _ _ (emits_getTokenInfo _ _) H2).
    exact (quiet_journal _ _ _ _ (emits_call _ _) H1). }
  unfold executeBuy in Hrun.
  rewrite (bind_returned _ _ _ _ _ H1) in Hrun.
  rewrite (bind_returned _ _ _ _ _ H2) in Hrun.
  rewrite (bind_returned _ _ _ _ _ H3) in Hrun.
  rewrite Hwei in Hrun.
  rewrite (bind_returned (lift (Ok wei)) _ st3 st3 wei eq_refl) in Hrun.
  rewrite (bind_returned _ _ _ _ _ H4) in Hrun.
  rewrite (bind_returned _ _ _ _ _ H5) in Hrun.
  cbv beta zeta in Hrun.
  unfold validateSufficientBalance in Hrun at 1.
  destruct (Z.ltb_spec ethBalance (10 ^ 15)); [lia|].
  rewrite (bind_returned (lift (Ok tt)) _ st5 st5 tt eq_refl) in Hrun.
  unfold validateSufficientBalance in Hrun at 1.
  destruct (Z.ltb_spec wethBalance wei); [lia|].
  rewrite (bind_returned (lift (Ok tt)) _ st5 st5 tt eq_refl) in Hrun.
  rewrite (bind_returned _ _ _ _ _ Hq) in Hrun.
  cbv beta zeta in Hrun. rewrite Hmin in Hrun.
  rewrite (bind_returned (lift (Ok minAmountOut)) _ st6 st6 minAmountOut eq_refl)
    in Hrun.
  match type of Hrun with ?m st6 = _ =>
    assert (Hem : emits (tradeOf WETH_ADDRESS UNISWAP_V3_ROUTER wei
                           (SwapParams.mk WETH_ADDRESS tokenAddress
                              (Quote.fee quote) walletAddress wei minAmountOut 0))
                    m);
    [| assert (Hret : returnsOnly
                        (fun report =>
                           buy_usdAmount report = amountUsd /\
                           buy_wethAmountWei report = wei /\
                           buy_poolFee report = Quote.fee quote /\
                           buy_expectedTokens report = Quote.amountOut quote /\
                           buy_minTokens report = minAmountOut /\
                           buy_token report = tokenInfo /\
                           buy_explorerUrl report
                             = getExplorerUrl (buy_txHash report)) m) ]
  end.
  - apply emits_bind; [|intros _].
    { apply emits_approveToken_exact; intros; cbn; auto. }
    apply emits_bind; [|intros tx].
    { apply emits_executeWithRetry; try (intros; exact I).
      apply emits_submitSwap. intros gasLimit. reflexivity. }
    apply emits_bind; [apply emits_waitForTransaction | intros receipt].
    apply emits_bind; [apply emits_getTokenBalance | intros newTokenBalance].
    apply emits_bind; [apply emits_getTokenBalance | intros newWethBalance].
    apply emits_ret.
  - repeat (apply returnsOnly_bind; intros ?).
    apply returnsOnly_ret. repeat split.
  - split.
    + destruct (Hem _ _ _ Hrun) as (evs & J & F).
      exists evs. rewrite J, J6. split; [reflexivity | exact F].
    + intros report ->. exact (Hret _ _ _ Hrun).
Qed.

End BuyTrade.

Lemma executeBuy_submits_quoted_swap_witness :
  exists r st' evs,
    executeBuy "0xToken" (Js.of_int 5) (Js.of_int 5)
      (mkState (Demo.wallet Demo.tiedQuotes (10 ^ 16) Demo.mined) [])
    = (r, st') /\
    journal st' = [] ++ evs /\
    Forall (tradeOf WETH_ADDRESS UNISWAP_V3_ROUTER (2 * 10 ^ 15)
              (SwapParams.mk WETH_ADDRESS "0xToken" 10000 "0xWallet"
                 (2 * 10 ^ 15) 67 0)) evs.
Proof.
  destruct (executeBuy "0xToken" (Js.of_int 5) (Js.of_int 5)
              (mkState (Demo.wallet Demo.tiedQuotes (10 ^ 16) Demo.mined) []))
    as [r st'] eqn:Hrun.
  destruct (executeBuy_submits_quoted_swap (H := Demo.ethers)
              "0xToken" (Js.of_int 5) (Js.of_int 5) (Js.of_int 2500)
              (mkState (Demo.wallet Demo.tiedQuotes (10 ^ 16) Demo.mined) [])
              (mkState (Demo.wallet Demo.tiedQuotes (10 ^ 16) Demo.mined) [])
              (mkState (Demo.wallet Demo.tiedQuotes (10 ^ 16) Demo.mined) [])
              (mkState (Demo.wallet Demo.tiedQuotes (10 ^ 16) Demo.mined) [])
              (mkState (Demo.wallet Demo.tiedQuotes (10 ^ 16) Demo.mined) [])
              (mkState (Demo.wallet Demo.tiedQuotes (10 ^ 16) Demo.mined) [])
              (mkState (Demo.wallet Demo.tiedQuotes (10 ^ 16) Demo.mined) [])
              st' "0xWallet" (mkTokenInfo "Demo Token" "DEMO" 18 "0xToken")
              (2 * 10 ^ 15) (10 ^ 16) (10 ^ 18) (Quote.mk 10000 70) 67 r
              eq_refl eq_refl eq_refl eq_refl eq_refl eq_refl
              ltac:(vm_compute; discriminate) ltac:(vm_compute; discriminate)
              eq_refl eq_refl Hrun)
    as ((evs & Hj & Hall) & _).
  exists r, st', evs. split; [reflexivity|]. split; [exact Hj | exact Hall].
Defined.

(* ================================================================== *)
(** * Trimming and the validation patterns *)
(* ================================================================== *)

Lemma trimEnd_cons (c : ascii) (s : string) :
  Str.trimEnd (String c s)
  = match Str.trimEnd s with
    | EmptyString =>
        if Str.isWhiteSpace c then EmptyString else String c EmptyString
    | t => String c t
    end.
Proof. reflexivity. Qed.

Lemma trimEnd_cons_keep (c : ascii) (s : string) :
  Str.isWhiteSpace c = false ->
  Str.trimEnd (String c s) = String c (Str.trimEnd s).
Proof.
  intros Hc. rewrite trimEnd_cons.
  destruct (Str.trimEnd s); [rewrite Hc|]; reflexivity.
Qed.

Lemma trimEnd_idem (s : string) : Str.trimEnd (Str.trimEnd s) = Str.trimEnd s.
Proof.
  induction s as [|c s IH]; [reflexivity|].
  rewrite trimEnd_cons. destruct (Str.trimEnd s) as [|d t] eqn:E.
  - destruct (Str.isWhiteSpace c) eqn:Hc; [reflexivity|].
    rewrite trimEnd_cons. cbn [Str.trimEnd]. rewrite Hc. reflexivity.
  - rewrite trimEnd_cons, IH. reflexivity.
Qed.

Lemma trimStart_head (s : string) :
  match Str.trimStart s with
  | EmptyString => True
  | String c _ => Str.isWhiteSpace c = false
  end.
Proof.
  induction s as [|c s IH]; [exact I|].
  cbn [Str.trimStart]. destruct (Str.isWhiteSpace c) eqn:Hc; [exact IH | exact Hc].
Qed.

Lemma trim_idem (s : string) : Str.trim (Str.trim s) = Str.trim s.
Proof.
  unfold Str.trim. pose proof (trimStart_head s) as Hh.
  destruct (Str.trimStart s) as [|c u]; [reflexivity|].
  rewrite (trimEnd_cons_keep c u Hh).
  cbn [Str.trimStart]. rewrite Hh.
  rewrite (trimEnd_cons_keep c _ Hh), trimEnd_idem. reflexivity.
Qed.

Lemma isHexDigit_not_space (c : ascii) :
  Str.isHexDigit c = true -> Str.isWhiteSpace c = false.
Proof.
  destruct c as [b0 b1 b2 b3 b4 b5 b6 b7].
  destruct b0, b1, b2, b3, b4, b5, b6, b7; vm_compute;
    intros Hc; solve [reflexivity | discriminate Hc].
Qed.

Lemma allHex_trimEnd (s : string) : Str.allHex s = true -> Str.trimEnd s = s.
Proof.
  induction s as [|c s IH]; [reflexivity|].
  cbn [Str.allHex]. intros Hs. apply andb_prop in Hs. destruct Hs as [Hc Hs].
  rewrite (trimEnd_cons_keep c s (isHexDigit_not_space c Hc)), (IH Hs).
  reflexivity.
Qed.

Lemma allHex_trim (s : string) : Str.allHex s = true -> Str.trim s = s.
Proof.
  intros Hs. unfold Str.trim. destruct s as [|c s]; [reflexivity|].
  pose proof Hs as Hs'. cbn [Str.allHex] in Hs'.
  apply andb_prop in Hs'. destruct Hs' as [Hc _].
  cbn [Str.trimStart]. rewrite (isHexDigit_not_space c Hc).
  apply allHex_trimEnd. exact Hs.
Qed.

Lemma prefixed_trim (h : string) :
  Str.allHex h = true -> Str.trim ("0x" ++ h) = ("0x" ++ h)%string.
Proof.
  intros Hh. unfold Str.trim.
  change ("0x" ++ h)%string with (String "0" (String "x" h)).
  cbn [Str.trimStart].
  change (Str.isWhiteSpace "0") with false. cbv iota.
  rewrite (trimEnd_cons_keep "0" _ eq_refl), (trimEnd_cons_keep "x" _ eq_refl).
  rewrite (allHex_trimEnd h Hh). reflexivity.
Qed.

Lemma allHex_not_prefixed (s : string) :
  Str.allHex s = true -> String.prefix "0x" s = false.
Proof.
  destruct s as [|c1 [|c2 s]]; cbn [Str.allHex String.prefix]; intros Hs.
  - reflexivity.
  - destruct (ascii_dec "0" c1); reflexivity.
  - destruct (ascii_dec "0" c1); [|reflexivity].
    destruct (ascii_dec "x" c2) as [<-|]; [|reflexivity].
    apply andb_prop in Hs. destruct Hs as [_ Hs].
    apply andb_prop in Hs. destruct Hs as [Hx _]. discriminate Hx.
Qed.

Lemma ETH_ADDRESS_PATTERN_test_spec (s : string) :
  ETH_ADDRESS_PATTERN_test s = true <->
  exists h, s = ("0x" ++ h)%string /\ Str.allHex h = true /\ String.length h = 40%nat.
Proof.
  unfold ETH_ADDRESS_PATTERN_test. split.
  - destruct s as [|c1 [|c2 h]]; try discriminate. intros Hs.
    apply andb_prop in Hs. destruct Hs as [Hs Hl].
    apply andb_prop in Hs. destruct Hs as [Hs Hh].
    apply andb_prop in Hs. destruct Hs as [H1 H2].
    apply Ascii.eqb_eq in H1, H2. subst c1 c2.
    exists h. split; [reflexivity|]. split; [exact Hh|].
    apply Nat.eqb_eq. exact Hl.
  - intros (h & -> & Hh & Hl).
    change ("0x" ++ h)%string with (String "0" (String "x" h)).
    cbv beta iota. rewrite Hh, Hl. reflexivity.
Qed.

Lemma substring0_length (n : nat) (s : string) :
  (String.length (String.substring 0 n s) <= n)%nat.
Proof.
  revert s. induction n as [|n IH]; intros [|c s]; cbn; try lia.
  specialize (IH s). lia.
Qed.

Lemma length_app (s t : string) :
  String.length (s ++ t) = (String.length s + String.length t)%nat.
Proof. induction s as [|c s IH]; cbn; [reflexivity | rewrite IH; reflexivity]. Qed.

Lemma validateAddress_length (address : Js.value) (fieldName : option string)
  (a : string) :
  validateAddress address fieldName = Ok a -> String.length a = 42%nat.
Proof.
  unfold validateAddress. destruct (falsy address); [discriminate|].
  destruct address as [s|z|]; try discriminate.
  destruct (ETH_ADDRESS_PATTERN_test (Str.trim s)) eqn:Hp; [|discriminate].
  cbn [negb]. intros [= <-]. apply ETH_ADDRESS_PATTERN_test_spec in Hp.
  destruct Hp as (h & -> & _ & Hl).
  change ("0x" ++ h)%string with (String "0" (String "x" h)).
  cbn [String.length]. rewrite Hl. reflexivity.
Qed.

Lemma validateAddress_code (address : Js.value) (fieldName : option string)
  (e : Js.Error) :
  validateAddress address fieldName = Raise e ->
  Js.code e = Some ERROR_CODES.INVALID_ADDRESS.
Proof.
  unfold validateAddress. destruct (falsy address); [intros [= <-]; reflexivity|].
  destruct address as [s|z|]; try (intros [= <-]; reflexivity).
  destruct (ETH_ADDRESS_PATTERN_test (Str.trim s)); cbn [negb];
    [discriminate | intros [= <-]; reflexivity].
Qed.

(** X14: [validateAddress] returns a string only for a string input, and
    then the trimmed input, which is "0x" followed by 40 hexadecimal digits
    (42 characters); validating the result again, under any field name,
    returns it unchanged.  Every rejection is a ValidationError with code
    INVALID_ADDRESS that depends on no field name, and the [value] it shows
    has at most 13 characters: ten of the input and the ellipsis. *)
Theorem validateAddress_outcome (address : Js.value)
  (fieldName fieldName' : option string) :
  match validateAddress address fieldName with
  | Ok a =>
      (exists s, address = Js.VStr s /\ a = Str.trim s) /\
      (exists h, a = ("0x" ++ h)%string /\ Str.allHex h = true /\
                 String.length h = 40%nat) /\
      String.length a = 42%nat /\
      validateAddress (Js.VStr a) fieldName' = Ok a
  | Raise e =>
      Js.name e = "ValidationError" /\
      Js.code e = Some ERROR_CODES.INVALID_ADDRESS /\
      (forall v, In ("value", Js.VStr v) (Js.details e) ->
                 (String.length v <= 13)%nat) /\
      (forall a, validateAddress address fieldName' <> Ok a)
  end.
Proof.
  unfold validateAddress at 1.
  destruct (falsy address) eqn:Hf.
  { split; [reflexivity|]. split; [reflexivity|]. split.
    - intros v [Hv|[]]. discriminate Hv.
    - intros a. unfold validateAddress. rewrite Hf. discriminate. }
  destruct address as [s|z|].
  2,3: split; [reflexivity|]; split; [reflexivity|]; split;
       [ intros v [Hv|[Hv|[]]]; discriminate Hv
       | intros a; unfold validateAddress; rewrite Hf; discriminate ].
  destruct (ETH_ADDRESS_PATTERN_test (Str.trim s)) eqn:Hp; cbn [negb].
  - pose proof Hp as Hp'. apply ETH_ADDRESS_PATTERN_test_spec in Hp'.
    destruct Hp' as (h & Hs & Hh & Hl).
    split; [exists s; split; reflexivity|].
    split; [exists h; split; [exact Hs|]; split; assumption|].
    split.
    + rewrite Hs. change ("0x" ++ h)%string with (String "0" (String "x" h)).
      cbn [String.length]. rewrite Hl. reflexivity.
    + unfold validateAddress.
      replace (falsy (Js.VStr (Str.trim s))) with false
        by (rewrite Hs; reflexivity).
      rewrite trim_idem, Hp. reflexivity.
  - split; [reflexivity|]. split; [reflexivity|]. split.
    + intros v [Hv|[Hv|[]]]; [discriminate Hv|].
      injection Hv as <-. rewrite length_app. unfold Str.substring0.
      pose proof (substring0_length (Z.to_nat 10) (Str.trim s)) as Hlen.
      change (Z.to_nat 10) with 10%nat in *. cbn [String.length]. lia.
    + intros a. unfold validateAddress. rewrite Hf, Hp. discriminate.
Qed.

Lemma PRIVATE_KEY_PATTERN_test_spec (s : string) :
  PRIVATE_KEY_PATTERN_test s = true <->
  exists h, (s = h \/ s = ("0x" ++ h)%string) /\
            Str.allHex h = true /\ String.length h = 64%nat.
Proof.
  unfold PRIVATE_KEY_PATTERN_test. split.
  - intros Hs. apply orb_prop in Hs. destruct Hs as [Hs|Hs].
    + apply andb_prop in Hs. destruct Hs as [Hh Hl].
      exists s. split; [left; reflexivity|]. split; [exact Hh|].
      apply Nat.eqb_eq. exact Hl.
    + destruct s as [|c1 [|c2 h]]; try discriminate.
      apply andb_prop in Hs. destruct Hs as [Hs Hl].
      apply andb_prop in Hs. destruct Hs as [Hs Hh].
      apply andb_prop in Hs. destruct Hs as [H1 H2].
      apply Ascii.eqb_eq in H1, H2. subst c1 c2.
      exists h. split; [right; reflexivity|]. split; [exact Hh|].
      apply Nat.eqb_eq. exact Hl.
  - intros (h & [->| ->] & Hh & Hl).
    + rewrite Hh, Hl. reflexivity.
    + change ("0x" ++ h)%string with (String "0" (String "x" h)).
      cbv beta iota. rewrite (Hh), Hl. apply orb_true_r.
Qed.

Lemma prefix_0x (h : string) : String.prefix "0x" ("0x" ++ h) = true.
Proof.
  change ("0x" ++ h)%string with (String "0" (String "x" h)).
  cbn [String.prefix].
  destruct (ascii_dec "0" "0") as [_|N]; [|contradiction N; reflexivity].
  destruct (ascii_dec "x" "x") as [_|N]; [|contradiction N; reflexivity].
  destruct h; reflexivity.
Qed.

Lemma validatePrivateKey_prefixed (h : string) :
  Str.allHex h = true -> String.length h = 64%nat ->
  validatePrivateKey (Js.VStr ("0x" ++ h)) = Ok ("0x" ++ h)%string.
Proof.
  intros Hh Hl. unfold validatePrivateKey.
  replace (falsy (Js.VStr ("0x" ++ h))) with false by reflexivity.
  rewrite (prefixed_trim h Hh).
  replace (PRIVATE_KEY_PATTERN_test ("0x" ++ h)) with true.
  2:{ symmetry. apply PRIVATE_KEY_PATTERN_test_spec.
      exists h. split; [right; reflexivity|]. split; assumption. }
  cbn [negb].
  rewrite (prefix_0x h). reflexivity.
Qed.

Lemma allHex_nonempty (h : string) :
  String.length h = 64%nat -> falsy (Js.VStr h) = false.
Proof. destruct h; [discriminate | reflexivity]. Qed.

Lemma validatePrivateKey_normal (privateKey : Js.value) (key : string) :
  validatePrivateKey privateKey = Ok key ->
  exists s h, privateKey = Js.VStr s /\
              (Str.trim s = h \/ Str.trim s = ("0x" ++ h)%string) /\
              key = ("0x" ++ h)%string /\
              Str.allHex h = true /\ String.length h = 64%nat.
Proof.
  unfold validatePrivateKey. destruct (falsy privateKey); [discriminate|].
  destruct privateKey as [s|z|]; try discriminate.
  destruct (PRIVATE_KEY_PATTERN_test (Str.trim s)) eqn:Hp; [|discriminate].
  cbn [negb]. intros [= <-]. apply PRIVATE_KEY_PATTERN_test_spec in Hp.
  destruct Hp as (h & Hs & Hh & Hl). exists s, h.
  split; [reflexivity|]. split; [exact Hs|]. split; [|split; assumption].
  destruct Hs as [Hs|Hs]; rewrite Hs.
  - rewrite (allHex_not_prefixed h Hh). reflexivity.
  - rewrite (prefix_0x h). reflexivity.
Qed.

Lemma validatePrivateKey_length (privateKey : Js.value) (key : string) :
  validatePrivateKey privateKey = Ok key -> String.length key = 66%nat.
Proof.
  intros Hk. destruct (validatePrivateKey_normal _ _ Hk)
    as (s & h & _ & _ & -> & _ & Hl).
  change ("0x" ++ h)%string with (String "0" (String "x" h)).
  cbn [String.length]. rewrite Hl. reflexivity.
Qed.

Lemma validatePrivateKey_code (privateKey : Js.value) (e : Js.Error) :
  validatePrivateKey privateKey = Raise e ->
  Js.code e = Some ERROR_CODES.INVALID_PRIVATE_KEY.
Proof.
  unfold validatePrivateKey. destruct (falsy privateKey);
    [intros [= <-]; reflexivity|].
  destruct privateKey as [s|z|]; try (intros [= <-]; reflexivity).
  destruct (PRIVATE_KEY_PATTERN_test (Str.trim s)); cbn [negb];
    [discriminate | intros [= <-]; reflexivity].
Qed.

(** X15: [validatePrivateKey] returns a key only for a string input, and
    then "0x" followed by the 64 hexadecimal digits of the trimmed input (66
    characters); validating the result again returns it unchanged.  Every
    rejection is a ValidationError with code INVALID_PRIVATE_KEY whose
    message is one of three fixed texts and whose details name the field
    only: no part of the key reaches the error. *)
Theorem validatePrivateKey_outcome (privateKey : Js.value) :
  match validatePrivateKey privateKey with
  | Ok key =>
      (exists s h, privateKey = Js.VStr s /\
                   (Str.trim s = h \/ Str.trim s = ("0x" ++ h)%string) /\
                   key = ("0x" ++ h)%string /\
                   Str.allHex h = true /\ String.length h = 64%nat) /\
      String.length key = 66%nat /\
      validatePrivateKey (Js.VStr key) = Ok key
  | Raise e =>
      Js.name e = "ValidationError" /\
      Js.code e = Some ERROR_CODES.INVALID_PRIVATE_KEY /\
      Js.details e = [("field", Js.VStr "privateKey")] /\
      (Js.message e = Some "Private key is required" \/
       Js.message e = Some "Private key must be a string" \/
       Js.message e = Some "Invalid private key format")
  end.
Proof.
  unfold validatePrivateKey at 1.
  destruct (falsy privateKey) eqn:Hf.
  { repeat split. left. reflexivity. }
  destruct privateKey as [s|z|].
  2,3: repeat split; right; left; reflexivity.
  destruct (PRIVATE_KEY_PATTERN_test (Str.trim s)) eqn:Hp; cbn [negb].
  - assert (Hk : validatePrivateKey (Js.VStr s)
                 = Ok (if String.prefix "0x" (Str.trim s) then Str.trim s
                       else ("0x" ++ Str.trim s)%string)).
    { unfold validatePrivateKey. rewrite Hf, Hp. reflexivity. }
    destruct (validatePrivateKey_normal _ _ Hk)
      as (s' & h & [= <-] & Hs & Hkey & Hh & Hl).
    split; [|split].
    + exists s, h. repeat split; assumption.
    + exact (validatePrivateKey_length _ _ Hk).
    + rewrite Hkey. apply validatePrivateKey_prefixed; assumption.
  - repeat split. right. right. reflexivity.
Qed.

(** X16: the "0x" prefix of a private key is optional: 64 hexadecimal digits
    are accepted with and without it, and both spellings give the same
    normalised key, the one with the prefix. *)
Theorem validatePrivateKey_prefix_optional (h : string) :
  Str.allHex h = true -> String.length h = 64%nat ->
  validatePrivateKey (Js.VStr h) = Ok ("0x" ++ h)%string /\
  validatePrivateKey (Js.VStr ("0x" ++ h)) = Ok ("0x" ++ h)%string.
Proof.
  intros Hh Hl. split; [|apply validatePrivateKey_prefixed; assumption].
  unfold validatePrivateKey.
  rewrite (allHex_nonempty h Hl), (allHex_trim h Hh).
  replace (PRIVATE_KEY_PATTERN_test h) with true.
  2:{ symmetry. apply PRIVATE_KEY_PATTERN_test_spec.
      exists h. split; [left; reflexivity|]. split; assumption. }
  cbn [negb]. rewrite (allHex_not_prefixed h Hh). reflexivity.
Qed.

Lemma validatePrivateKey_prefix_optional_witness :
  validatePrivateKey
    (Js.VStr "00000000000000000000000000000000000000000000000000000000000000A1")
  = Ok "0x00000000000000000000000000000000000000000000000000000000000000A1" /\
  validatePrivateKey
    (Js.VStr "0x00000000000000000000000000000000000000000000000000000000000000A1")
  = Ok "0x00000000000000000000000000000000000000000000000000000000000000A1".
Proof.
  exact (validatePrivateKey_prefix_optional
           "00000000000000000000000000000000000000000000000000000000000000A1"
           eq_refl eq_refl).
Defined.

(* ================================================================== *)
(** * Environment variables *)
(* ================================================================== *)

Lemma getProperty_setProperty_same key value obj :
  getProperty key (setProperty key value obj) = Some value.
Proof.
  induction obj as [|[k v] rest IH]; cbn [setProperty getProperty].
  - rewrite String.eqb_refl. reflexivity.
  - destruct (String.eqb k key) eqn:E; cbn [getProperty]; rewrite E;
      [reflexivity | exact IH].
Qed.

Lemma getProperty_setProperty_other key key' value obj :
  key' <> key ->
  getProperty key' (setProperty key value obj) = getProperty key' obj.
Proof.
  intros Hne. induction obj as [|[k v] rest IH]; cbn [setProperty getProperty].
  - destruct (String.eqb_spec key key') as [E|E]; [congruence | reflexivity].
  - destruct (String.eqb_spec k key) as [E|E]; cbn [getProperty].
    + subst k. destruct (String.eqb_spec key key'); [congruence | reflexivity].
    + destruct (String.eqb k key'); [reflexivity | exact IH].
Qed.

Lemma collectEnvironment_missing env requiredVars : forall missing values,
  fst (collectEnvironment env requiredVars missing values)
  = missing ++ filter (unset env) requiredVars.
Proof.
  induction requiredVars as [|varName rest IH]; intros missing values;
    cbn [collectEnvironment filter].
  - rewrite app_nil_r. reflexivity.
  - pose proof (eq_refl (unset env varName)) as Hu. unfold unset at 2 in Hu.
    rewrite Hu. clear Hu. destruct (env varName) as [value|].
    + destruct (String.eqb value "" || String.eqb (Str.trim value) "")%bool.
      * rewrite IH, <- app_assoc. reflexivity.
      * apply IH.
    + rewrite IH, <- app_assoc. reflexivity.
Qed.

Lemma collectEnvironment_values env requiredVars :
  forall missing values varName raw,
  env varName = Some raw -> unset env varName = false ->
  In varName requiredVars \/ getProperty varName values = Some (Str.trim raw) ->
  getProperty varName (snd (collectEnvironment env requiredVars missing values))
  = Some (Str.trim raw).
Proof.
  induction requiredVars as [|v rest IH]; intros missing values varName raw He Hu Hin;
    cbn [collectEnvironment].
  - destruct Hin as [[]|Hin]. exact Hin.
  - destruct (String.eqb_spec v varName) as [E|E].
    + subst v. pose proof Hu as Hu'. unfold unset in Hu'. rewrite He in Hu'.
      rewrite He, Hu'. apply (IH _ _ _ _ He Hu). right.
      apply getProperty_setProperty_same.
    + assert (Hin' : forall values',
                getProperty varName values' = getProperty varName values ->
                In varName rest \/ getProperty varName values' = Some (Str.trim raw)).
      { intros values' Hv. destruct Hin as [[Hin|Hin]|Hin];
          [contradiction | left; exact Hin | right; rewrite Hv; exact Hin]. }
      destruct (env v) as [value|].
      * destruct (String.eqb value "" || String.eqb (Str.trim value) "")%bool.
        -- apply (IH _ _ _ _ He Hu). apply Hin'. reflexivity.
        -- apply (IH _ _ _ _ He Hu). apply Hin'.
           apply getProperty_setProperty_other. congruence.
      * apply (IH _ _ _ _ He Hu). apply Hin'. reflexivity.
Qed.

Lemma collectEnvironment_keys env requiredVars :
  forall missing values varName,
  getProperty varName (snd (collectEnvironment env requiredVars missing values))
    <> None ->
  In varName requiredVars \/ getProperty varName values <> None.
Proof.
  induction requiredVars as [|v rest IH]; intros missing values varName;
    cbn [collectEnvironment].
  - intros Hg. right. exact Hg.
  - destruct (env v) as [value|].
    + destruct (String.eqb value "" || String.eqb (Str.trim value) "")%bool.
      * intros Hg. destruct (IH _ _ _ Hg) as [Hin|Hin];
          [left; right; exact Hin | right; exact Hin].
      * intros Hg. destruct (IH _ _ _ Hg) as [Hin|Hin];
          [left; right; exact Hin|].
        destruct (String.eqb_spec v varName) as [E|E]; [left; left; exact E|].
        right. rewrite getProperty_setProperty_other in Hin by congruence.
        exact Hin.
    + intros Hg. destruct (IH _ _ _ Hg) as [Hin|Hin];
        [left; right; exact Hin | right; exact Hin].
Qed.

Lemma unset_false env varName :
  unset env varName = false ->
  exists raw, env varName = Some raw /\ Str.trim raw <> "".
Proof.
  unfold unset. destruct (env varName) as [raw|]; [|discriminate].
  intros Hu. apply orb_false_elim in Hu. destruct Hu as [_ Hu].
  exists raw. split; [reflexivity|].
  intros E. rewrite E in Hu. discriminate Hu.
Qed.

Lemma validateEnvironment_values (env : string -> option string)
  (requiredVars : list string) (values : list (string * string)) :
  validateEnvironment env requiredVars = EnvValues values ->
  filter (unset env) requiredVars = [] /\
  forall varName, In varName requiredVars ->
    exists raw, env varName = Some raw /\ Str.trim raw <> "" /\
                getProperty varName values = Some (Str.trim raw).
Proof.
  unfold validateEnvironment.
  pose proof (collectEnvironment_missing env requiredVars [] []) as Hm.
  pose proof (collectEnvironment_values env requiredVars [] []) as Hv.
  destruct (collectEnvironment env requiredVars [] []) as [missing values'].
  cbn [fst snd app] in Hm, Hv.
  destruct missing as [|m missing]; cbn [List.length Nat.ltb Nat.leb];
    [|discriminate].
  intros [= <-]. split; [symmetry; exact Hm|].
  intros varName Hin.
  assert (Hu : unset env varName = false).
  { destruct (unset env varName) eqn:Hu; [|reflexivity].
    assert (Hf : In varName (filter (unset env) requiredVars))
      by (apply filter_In; split; assumption).
    rewrite <- Hm in Hf. destruct Hf. }
  destruct (unset_false env varName Hu) as (raw & He & Ht).
  exists raw. split; [exact He|]. split; [exact Ht|].
  apply (Hv varName raw He Hu). left. exact Hin.
Qed.

(** X17: [validateEnvironment] fails exactly when some required variable is
    not set or blank, and then reports all of them, in the order asked for,
    in the [missing] array and, joined by commas, in the message: it does
    not stop at the first.  When it succeeds, the object it returns holds,
    for every required variable, its value trimmed, which is not empty, and
    it holds no other key. *)
Theorem validateEnvironment_outcome (env : string -> option string)
  (requiredVars : list string) :
  match validateEnvironment env requiredVars with
  | EnvMissing message missing =>
      missing <> [] /\
      missing = filter (unset env) requiredVars /\
      message = ("Missing required environment variables: "
                 ++ Str.join ", " missing)%string
  | EnvValues values =>
      filter (unset env) requiredVars = [] /\
      (forall varName, In varName requiredVars ->
         exists raw, env varName = Some raw /\ Str.trim raw <> "" /\
                     getProperty varName values = Some (Str.trim raw)) /\
      (forall varName value,
         getProperty varName values = Some value -> In varName requiredVars)
  end.
Proof.
  pose proof (validateEnvironment_values env requiredVars) as Hvalues.
  unfold validateEnvironment in *.
  pose proof (collectEnvironment_missing env requiredVars [] []) as Hm.
  pose proof (collectEnvironment_keys env requiredVars [] []) as Hk.
  destruct (collectEnvironment env requiredVars [] []) as [missing values].
  cbn [fst snd app] in Hm, Hk.
  destruct missing as [|m missing]; cbn [List.length Nat.ltb Nat.leb] in *.
  - destruct (Hvalues values eq_refl) as [Hnone Hall].
    split; [exact Hnone|]. split; [exact Hall|].
    intros varName value Hg.
    destruct (Hk varName) as [Hin|Hin]; [congruence | exact Hin|].
    contradiction Hin. reflexivity.
  - split; [discriminate|]. split; [exact Hm | reflexivity].
Qed.

Example validateEnvironment_run :
  validateEnvironment
    (fun varName =>
       if String.eqb varName "PRIVATE_KEY" then Some " key "
       else if String.eqb varName "RPC_URL" then Some "   " else None)
    ["PRIVATE_KEY"; "TOKEN_ADDRESS"; "RPC_URL"]
  = EnvMissing
      "Missing required environment variables: TOKEN_ADDRESS, RPC_URL"
      ["TOKEN_ADDRESS"; "RPC_URL"].
Proof. reflexivity. Qed.

(* ================================================================== *)
(** * Sanitizing for the log *)
(* ================================================================== *)

Lemma removeControl_length (s : string) :
  (String.length (Str.removeControl s) <= String.length s)%nat.
Proof.
  induction s as [|c s IH]; cbn [Str.removeControl String.length]; [lia|].
  destruct (Str.isControl c); cbn [String.length]; lia.
Qed.

Lemma removeControl_fixed_inv (c : ascii) (s : string) :
  Str.removeControl (String c s) = String c s ->
  Str.isControl c = false /\ Str.removeControl s = s.
Proof.
  cbn [Str.removeControl]. destruct (Str.isControl c).
  - intros E. pose proof (removeControl_length s) as Hl.
    rewrite E in Hl. cbn [String.length] in Hl. lia.
  - intros [= E]. split; [reflexivity | exact E].
Qed.

Lemma removeControl_idem (s : string) :
  Str.removeControl (Str.removeControl s) = Str.removeControl s.
Proof.
  induction s as [|c s IH]; [reflexivity|].
  cbn [Str.removeControl]. destruct (Str.isControl c) eqn:Hc; [exact IH|].
  cbn [Str.removeControl]. rewrite Hc, IH. reflexivity.
Qed.

Lemma removeControl_substring (n : nat) : forall s,
  Str.removeControl s = s ->
  Str.removeControl (String.substring 0 n s) = String.substring 0 n s.
Proof.
  induction n as [|n IH]; intros [|c s] Hs; try reflexivity.
  destruct (removeControl_fixed_inv c s Hs) as [Hc Hs'].
  cbn [String.substring Str.removeControl]. rewrite Hc, (IH s Hs'). reflexivity.
Qed.

Lemma substring_substring (n : nat) : forall s,
  String.substring 0 n (String.substring 0 n s) = String.substring 0 n s.
Proof.
  induction n as [|n IH]; intros [|c s]; try reflexivity.
  cbn [String.substring]. rewrite IH. reflexivity.
Qed.

Lemma removeControl_occurs (c : ascii) (s : string) :
  Str.removeControl s = s -> Str.isControl c = true -> Str.occurs c s = false.
Proof.
  intros Hs Hc. induction s as [|d s IH]; [reflexivity|].
  destruct (removeControl_fixed_inv d s Hs) as [Hd Hs'].
  cbn [Str.occurs]. rewrite (IH Hs'), orb_false_r.
  destruct (Ascii.eqb_spec c d) as [E|E]; [congruence | reflexivity].
Qed.

(** X18: what [sanitizeForLogging] returns is never longer than the maximal
    length (100 when none is given, none at all when it is negative).  For a
    string input the result holds no control character, and sanitizing it
    again with the same maximal length changes nothing. *)
Theorem sanitizeForLogging_clean (input : Js.value) (s : string)
  (maxLength : option Z) :
  let limit := match maxLength with Some n => n | None => 100 end in
  (String.length (sanitizeForLogging input maxLength) <= Z.to_nat limit)%nat /\
  (forall c, Str.isControl c = true ->
             Str.occurs c (sanitizeForLogging (Js.VStr s) maxLength) = false) /\
  sanitizeForLogging (Js.VStr (sanitizeForLogging (Js.VStr s) maxLength)) maxLength
  = sanitizeForLogging (Js.VStr s) maxLength.
Proof.
  intros limit.
  assert (Hfix : Str.removeControl (sanitizeForLogging (Js.VStr s) maxLength)
                 = sanitizeForLogging (Js.VStr s) maxLength).
  { unfold sanitizeForLogging, Str.substring0.
    apply removeControl_substring, removeControl_idem. }
  split; [|split].
  - unfold sanitizeForLogging, Str.substring0. fold limit.
    destruct input; apply substring0_length.
  - intros c Hc. apply removeControl_occurs; assumption.
  - unfold sanitizeForLogging at 1. rewrite Hfix.
    unfold sanitizeForLogging, Str.substring0. apply substring_substring.
Qed.

(* ================================================================== *)
(** * The trade configuration *)
(* ================================================================== *)

(** X19: [validateTradeConfig] checks the private key first, then the token
    address, then the RPC URL, and throws the error of the first check that
    fails.  A configuration it returns holds the normalised key (66
    characters), the trimmed address (42 characters), the trimmed URL, and
    the slippage tolerance and maximal gas price exactly as given, whatever
    number they are, or 5 and 50 when they are absent. *)
Theorem validateTradeConfig_outcome (config : TradeConfigInput) :
  match validateTradeConfig config with
  | Ok validated =>
      validatePrivateKey (in_privateKey config) = Ok (privateKey validated) /\
      validateAddress (in_tokenAddress config) (Some "TOKEN_ADDRESS")
        = Ok (tokenAddress validated) /\
      String.length (privateKey validated) = 66%nat /\
      String.length (tokenAddress validated) = 42%nat /\
      (exists url, in_rpcUrl config = Js.VStr url /\ url <> "" /\
                   rpcUrl validated = Str.trim url) /\
      slippageTolerance validated
        = match in_slippageTolerance config with
          | Some s => s
          | None => Js.of_int 5
          end /\
      maxGasPrice validated
        = match in_maxGasPrice config with
          | Some g => g
          | None => Js.of_int 50
          end
  | Raise e =>
      validatePrivateKey (in_privateKey config) = Raise e \/
      (exists key, validatePrivateKey (in_privateKey config) = Ok key /\
         (validateAddress (in_tokenAddress config) (Some "TOKEN_ADDRESS") = Raise e \/
          (exists a, validateAddress (in_tokenAddress config) (Some "TOKEN_ADDRESS")
                     = Ok a /\
                     Js.code e = Some ERROR_CODES.INVALID_CONFIG /\
                     Js.message e = Some "RPC URL is required" /\
                     (in_rpcUrl config = Js.VStr "" \/
                      forall url, in_rpcUrl config <> Js.VStr url))))
  end.
Proof.
  unfold validateTradeConfig.
  destruct (validatePrivateKey (in_privateKey config)) as [key|e] eqn:Hk;
    [|left; reflexivity].
  apply validatePrivateKey_length in Hk.
  destruct (validateAddress (in_tokenAddress config) (Some "TOKEN_ADDRESS"))
    as [a|e] eqn:Ha;
    [|right; exists key; split; [reflexivity | left; reflexivity]].
  apply validateAddress_length in Ha.
  destruct (in_rpcUrl config) as [url|z|].
  2,3: right; exists key; split; [reflexivity|]; right; exists a;
       repeat split; right; intros url; discriminate.
  cbn [falsy]. destruct (String.eqb_spec url "") as [E|E].
  - right. exists key. split; [reflexivity|]. right. exists a.
    repeat split. left. rewrite E. reflexivity.
  - cbn [privateKey tokenAddress rpcUrl slippageTolerance maxGasPrice].
    repeat split; try assumption.
    exists url. repeat split. exact E.
Qed.

(** X20: the RPC URL check of [validateTradeConfig] accepts a URL of white
    space only, and the validated configuration then holds the empty URL. *)
Theorem validateTradeConfig_blank_rpcUrl (config : TradeConfigInput)
  (key a url : string) :
  validatePrivateKey (in_privateKey config) = Ok key ->
  validateAddress (in_tokenAddress config) (Some "TOKEN_ADDRESS") = Ok a ->
  in_rpcUrl config = Js.VStr url -> url <> "" -> Str.trim url = "" ->
  exists validated,
    validateTradeConfig config = Ok validated /\ rpcUrl validated = "".
Proof.
  intros Hk Ha Hu Hne Ht. unfold validateTradeConfig.
  rewrite Hk, Ha, Hu. cbn [falsy].
  destruct (String.eqb_spec url "") as [E|_]; [contradiction|].
  eexists. split; [reflexivity|]. exact Ht.
Qed.

Lemma validateTradeConfig_blank_rpcUrl_witness :
  exists validated,
    validateTradeConfig
      (mkTradeConfigInput
         (Js.VStr "00000000000000000000000000000000000000000000000000000000000000A1")
         (Js.VStr "0x4200000000000000000000000000000000000006")
         (Js.VStr "  ") None None)
    = Ok validated /\ rpcUrl validated = "".
Proof.
  apply (validateTradeConfig_blank_rpcUrl
           (mkTradeConfigInput
              (Js.VStr "00000000000000000000000000000000000000000000000000000000000000A1")
              (Js.VStr "0x4200000000000000000000000000000000000006")
              (Js.VStr "  ") None None)
           "0x00000000000000000000000000000000000000000000000000000000000000A1"
           "0x4200000000000000000000000000000000000006" "  ");
    solve [reflexivity | discriminate].
Defined.

(** X21: in the entry points the configuration is built from the object that
    [validateEnvironment] returned for PRIVATE_KEY, TOKEN_ADDRESS and
    RPC_URL.  Then the RPC URL check cannot fail: [validateTradeConfig]
    throws only for the key or the address, and a configuration it returns
    holds the value of RPC_URL trimmed, which is not empty, and the slippage
    tolerance handed over. *)
Theorem validateTradeConfig_after_validateEnvironment
  (env : string -> option string) (values : list (string * string))
  (slippage maxGas : Js.number) :
  validateEnvironment env ["PRIVATE_KEY"; "TOKEN_ADDRESS"; "RPC_URL"]
    = EnvValues values ->
  match validateTradeConfig (tradeConfigOf values slippage maxGas) with
  | Ok validated =>
      (exists raw, env "RPC_URL" = Some raw /\ rpcUrl validated = Str.trim raw) /\
      rpcUrl validated <> "" /\
      slippageTolerance validated = slippage
  | Raise e =>
      Js.code e = Some ERROR_CODES.INVALID_PRIVATE_KEY \/
      Js.code e = Some ERROR_CODES.INVALID_ADDRESS
  end.
Proof.
  intros Henv.
  destruct (validateEnvironment_values _ _ _ Henv) as [_ Hv].
  destruct (Hv "RPC_URL") as (raw & He & Hne & Hg); [cbn; auto|].
  unfold validateTradeConfig, tradeConfigOf.
  cbn [in_privateKey in_tokenAddress in_rpcUrl in_slippageTolerance
       in_maxGasPrice].
  destruct (validatePrivateKey (property "PRIVATE_KEY" values)) as [key|e] eqn:Hk;
    [|left; exact (validatePrivateKey_code _ _ Hk)].
  destruct (validateAddress (property "TOKEN_ADDRESS" values)
              (Some "TOKEN_ADDRESS")) as [a|e] eqn:Ha;
    [|right; exact (validateAddress_code _ _ _ Ha)].
  unfold property. rewrite Hg. cbn [falsy].
  destruct (String.eqb_spec (Str.trim raw) "") as [E|_]; [contradiction|].
  cbn [rpcUrl slippageTolerance]. rewrite trim_idem.
  split; [exists raw; split; [exact He | reflexivity]|].
  split; [exact Hne | reflexivity].
Qed.

Lemma validateTradeConfig_after_validateEnvironment_witness :
  exists validated,
    validateTradeConfig
      (tradeConfigOf
         [("PRIVATE_KEY",
           "00000000000000000000000000000000000000000000000000000000000000A1");
          ("TOKEN_ADDRESS", "0x4200000000000000000000000000000000000006");
          ("RPC_URL", "https://mainnet.base.org")]
         (Js.of_int 5) (Js.of_int 50))
    = Ok validated /\
    rpcUrl validated = "https://mainnet.base.org" /\
    slippageTolerance validated = Js.of_int 5.
Proof.
  pose proof (validateTradeConfig_after_validateEnvironment
                (fun varName =>
                   if String.eqb varName "PRIVATE_KEY"
                   then Some " 00000000000000000000000000000000000000000000000000000000000000A1"
                   else if String.eqb varName "TOKEN_ADDRESS"
                   then Some "0x4200000000000000000000000000000000000006 "
                   else if String.eqb varName "RPC_URL"
                   then Some " https://mainnet.base.org"
                   else None)
                [("PRIVATE_KEY",
                  "00000000000000000000000000000000000000000000000000000000000000A1");
                 ("TOKEN_ADDRESS", "0x4200000000000000000000000000000000000006");
                 ("RPC_URL", "https://mainnet.base.org")]
                (Js.of_int 5) (Js.of_int 50) eq_refl) as Hw.
  destruct (validateTradeConfig _) as [validated|e] eqn:Hrun;
    [|discriminate Hrun].
  destruct Hw as ((raw & Hraw & Hurl) & _ & Hs).
  exists validated. split; [reflexivity|].
  split; [|exact Hs]. injection Hraw as <-. exact Hurl.
Defined.

(* ================================================================== *)
(** * Connecting to an endpoint *)
(* ================================================================== *)

Section ProviderFacts.
Context {W : Type} `{Network W}.

Lemma validateChainId_accepts (chainId : Z) :
  validateChainId chainId
  = if chainId =? BASE_CHAIN_ID then Ok tt
    else Raise (ValidationError
                  ("Invalid network. Expected Base (" ++ Js.show BASE_CHAIN_ID
                   ++ "), got " ++ Js.show chainId)
                  ERROR_CODES.NETWORK_MISMATCH
                  [("expected", Js.VNum BASE_CHAIN_ID);
                   ("received", Js.VNum chainId)]).
Proof. unfold validateChainId. destruct (chainId =? BASE_CHAIN_ID); reflexivity. Qed.

Lemma connect_spec (rpcUrl : string) (st : State W) :
  settle (connect rpcUrl) st
  = (Returned (if accepted (fst (provider_getNetwork rpcUrl (world st)))
               then Ok rpcUrl
               else Raise (refusal (fst (provider_getNetwork rpcUrl (world st))))),
     mkState (snd (provider_getNetwork rpcUrl (world st))) (journal st)).
Proof.
  unfold settle, connect, bind, getNetwork_race, lift, ret, accepted, refusal.
  destruct (provider_getNetwork rpcUrl (world st)) as [[elapsedMs [chainId|e]|] w];
    cbn [fst snd]; try reflexivity.
  - destruct (elapsedMs <? 10000); [|reflexivity].
    rewrite validateChainId_accepts.
    destruct (chainId =? BASE_CHAIN_ID); reflexivity.
  - destruct (elapsedMs <? 10000); reflexivity.
Qed.

Lemma connectFirst_spec (attemptedUrls : Z) (rpcUrls : list string) :
  forall (lastError : option Js.Error) (st : State W),
  fst (connectFirst attemptedUrls rpcUrls lastError st)
  = match find (fun p => accepted (snd p)) (endpointAnswers rpcUrls (world st)) with
    | Some (rpcUrl, _) => Returned rpcUrl
    | None =>
        Thrown (noEndpoint attemptedUrls
                  (match rev (endpointAnswers rpcUrls (world st)) with
                   | (_, t) :: _ => Some (refusal t)
                   | [] => lastError
                   end))
    end /\
  journal (snd (connectFirst attemptedUrls rpcUrls lastError st)) = journal st.
Proof.
  induction rpcUrls as [|rpcUrl rest IH]; intros lastError st.
  - split; reflexivity.
  - assert (E : connectFirst attemptedUrls (rpcUrl :: rest) lastError st
                = let (t, w) := provider_getNetwork rpcUrl (world st) in
                  if accepted t then (Returned rpcUrl, mkState w (journal st))
                  else connectFirst attemptedUrls rest (Some (refusal t))
                         (mkState w (journal st))).
    { cbn [connectFirst]. unfold bind at 1. rewrite connect_spec.
      destruct (provider_getNetwork rpcUrl (world st)) as [t w].
      cbn [fst snd]. destruct (accepted t); reflexivity. }
    rewrite E. clear E. cbn [endpointAnswers].
    destruct (provider_getNetwork rpcUrl (world st)) as [t w] eqn:Hn.
    cbn [fst snd find]. destruct (accepted t) eqn:Ha.
    + split; reflexivity.
    + specialize (IH (Some (refusal t)) (mkState w (journal st))).
      cbn [world journal] in IH. destruct IH as [IH1 IH2].
      split; [|exact IH2]. rewrite IH1.
      destruct (find (fun p => accepted (snd p)) (endpointAnswers rest w))
        as [[u tu]|]; [reflexivity|].
      cbn [rev].
      destruct (rev (endpointAnswers rest w)) as [|[u tu] l]; reflexivity.
Qed.

(** X22: [createProvider] asks the primary endpoint and then the four
    fallbacks, in this order, and returns the first whose answer comes
    within 10 seconds and names chain 8453; endpoints after it are not
    asked, and an endpoint that answers for another chain is passed over
    like one that fails.  When no answer is accepted it throws the
    RPC_CONNECTION_FAILED error, which counts 5 attempted URLs and carries
    the message of the error of the last endpoint.  It never stays pending
    and writes nothing to the journal. *)
Theorem createProvider_first_accepted (primaryRpcUrl : string) (st : State W) :
  let answers := endpointAnswers (primaryRpcUrl :: BASE_RPC_URLS) (world st) in
  fst (createProvider primaryRpcUrl st)
  = match find (fun p => accepted (snd p)) answers with
    | Some (rpcUrl, _) => Returned rpcUrl
    | None =>
        Thrown (BlockchainError "Failed to connect to any RPC endpoint"
                  ERROR_CODES.RPC_CONNECTION_FAILED
                  [("attemptedUrls", Js.VNum 5);
                   ("lastError",
                    Js.opt_str
                      (Js.message (refusal (snd (last answers ("", Hangs))))))])
    end /\
  journal (snd (createProvider primaryRpcUrl st)) = journal st.
Proof.
  intros answers. unfold createProvider.
  destruct (connectFirst_spec
              (Z.of_nat (List.length (primaryRpcUrl :: BASE_RPC_URLS)))
              (primaryRpcUrl :: BASE_RPC_URLS) None st) as [H1 H2].
  split; [|exact H2]. rewrite H1. fold answers.
  destruct (find (fun p => accepted (snd p)) answers) as [[u tu]|];
    [reflexivity|].
  assert (Hlast : match rev answers with
                  | (_, t) :: _ => Some (refusal t)
                  | [] => None
                  end = Some (refusal (snd (last answers ("", Hangs))))).
  { subst answers. unfold BASE_RPC_URLS. cbn [endpointAnswers].
    repeat match goal with
           | |- context [provider_getNetwork ?u ?w] =>
               destruct (provider_getNetwork u w) as [? ?]
           end.
    reflexivity. }
  rewrite Hlast. reflexivity.
Qed.

End ProviderFacts.

(** On the scripted endpoints: the primary hangs and the first fallback is
    on another chain, so the second fallback is the provider; when nothing
    answers for Base, the error carries the last endpoint's message. *)
Example createProvider_flaky :
  createProvider "https://rpc.example" (mkState DemoNet.flaky [])
  = (Returned "https://base.llamarpc.com", mkState DemoNet.flaky []).
Proof. reflexivity. Qed.

Example createProvider_down :
  createProvider "https://rpc.example" (mkState DemoNet.down [])
  = (Thrown (BlockchainError "Failed to connect to any RPC endpoint"
               ERROR_CODES.RPC_CONNECTION_FAILED
               [("attemptedUrls", Js.VNum 5);
                ("lastError", Js.VStr "ECONNREFUSED")]),
     mkState DemoNet.down []).
Proof. reflexivity. Qed.

(* ================================================================== *)
(** * A price of zero *)
(* ================================================================== *)

Lemma div_by_zero_unparsable (x : Js.number) (s : bool) :
  Js.toFixed18_parseEther (Js.div x (S754_zero s)) = Raise Js.parseEther_error.
Proof. destruct x as [sx|sx| |sx mx ex]; reflexivity. Qed.

Section ZeroPrice.
Context {W : Type} `{Ethers W}.

(** X23: [executeBuy] does not guard against a price of zero.  When the
    price feed answers 0, the amount to spend is not a finite number, its
    conversion to wei throws, and [executeBuy] throws that error right after
    the price was read: no balance is read, nothing is quoted and nothing is
    submitted, whatever the USD amount. *)
Theorem executeBuy_zero_price (tokenAddress : Address)
  (amountUsd slippageTolerance : Js.number)
  (st st1 st2 : State W) (walletAddress : Address)
  (tokenInfo : TokenInfo) (w3 : W) :
  call wallet_getAddress st = (Returned walletAddress, st1) ->
  getTokenInfo tokenAddress st1 = (Returned tokenInfo, st2) ->
  priceFeed_latestRoundData (world st2) = (Ok 0, w3) ->
  executeBuy tokenAddress amountUsd slippageTolerance st
  = (Thrown Js.parseEther_error, mkState w3 (journal st)).
Proof.
  intros H1 H2 Hfeed.
  assert (H3 : getEthPriceUsd st2
               = (Returned (Js.div (Js.of_int 0) (Js.of_int 100000000)),
                  mkState w3 (journal st2))).
  { unfold getEthPriceUsd, try_catch, bind, call. rewrite Hfeed. reflexivity. }
  assert (J2 : journal st2 = journal st).
  { rewrite (quiet_journal _ _ _ _ (emits_getTokenInfo _ _) H2).
    exact (quiet_journal _ _ _ _ (emits_call _ _) H1). }
  unfold executeBuy.
  rewrite (bind_returned _ _ _ _ _ H1).
  rewrite (bind_returned _ _ _ _ _ H2).
  rewrite (bind_returned _ _ _ _ _ H3).
  unfold wethAmountWei, wethAmount.
  change (Js.div (Js.of_int 0) (Js.of_int 100000000)) with (S754_zero false).
  rewrite div_by_zero_unparsable. rewrite J2. reflexivity.
Qed.

End ZeroPrice.

Lemma executeBuy_zero_price_witness :
  executeBuy (H := DemoFunds.ethers (10 ^ 18) (Ok 0))
    "0xToken" (Js.of_int 5) (Js.of_int 5)
    (mkState (Demo.wallet Demo.tiedQuotes (10 ^ 16) Demo.mined) [])
  = (Thrown Js.parseEther_error,
     mkState (Demo.wallet Demo.tiedQuotes (10 ^ 16) Demo.mined) []).
Proof.
  exact (executeBuy_zero_price (H := DemoFunds.ethers (10 ^ 18) (Ok 0))
           "0xToken" (Js.of_int 5) (Js.of_int 5)
           (mkState (Demo.wallet Demo.tiedQuotes (10 ^ 16) Demo.mined) [])
           (mkState (Demo.wallet Demo.tiedQuotes (10 ^ 16) Demo.mined) [])
           (mkState (Demo.wallet Demo.tiedQuotes (10 ^ 16) Demo.mined) [])
           "0xWallet" (mkTokenInfo "Demo Token" "DEMO" 18 "0xToken")
           (Demo.wallet Demo.tiedQuotes (10 ^ 16) Demo.mined)
           eq_refl eq_refl eq_refl).
Defined.

(* ================================================================== *)
(** * The random buy amount *)
(* ================================================================== *)

Lemma fexp_eq (x : Z) : fexp Js.prec Js.emax x = Z.max (x - 53) (-1074).
Proof. reflexivity. Qed.

Lemma pow2_pos (x : Z) : 0 <= x -> 0 < 2 ^ x.
Proof. intros Hx. apply Z.pow_pos_nonneg; lia. Qed.

Lemma pow2_split (x y : Z) : 0 <= x -> 0 <= y -> 2 ^ (x + y) = 2 ^ x * 2 ^ y.
Proof. intros Hx Hy. apply Z.pow_add_r; assumption. Qed.

Lemma pow2_shift (x y : Z) : 0 <= x -> x <= y -> 2 ^ y = 2 ^ (y - x) * 2 ^ x.
Proof.
  intros Hx Hy. rewrite <- pow2_split by lia. f_equal. lia.
Qed.

Lemma pow2_le (x y : Z) : 0 <= x -> x <= y -> 2 ^ x <= 2 ^ y.
Proof. intros Hx Hy. apply Z.pow_le_mono_r; lia. Qed.

Lemma pow2_lt_inv (x y : Z) : 0 <= y -> 2 ^ x < 2 ^ y -> x < y.
Proof. intros Hy H. apply (Z.pow_lt_mono_r_iff 2); [lia | exact Hy | exact H]. Qed.

(** The number of digits of a positive mantissa under a bound on the value
    it stands for (values are scaled by [2 ^ 1200] to stay integers). *)
Lemma digits_bound (M e k : Z) :
  0 < M -> -1200 <= e -> -1200 <= k ->
  M * 2 ^ (e + 1200) < 2 ^ (k + 1200) ->
  Zdigits2 M + e <= k.
Proof.
  intros HM He Hk Hv. destruct M as [|p|p]; try lia. cbn [Zdigits2].
  pose proof (digits2_lower p) as Hd.
  set (d := Zpos (digits2_pos p)) in *.
  assert (Hd0 : 0 <= d) by (subst d; lia).
  assert (P : 0 < 2 ^ (e + 1200)) by (apply pow2_pos; lia).
  assert (H1 : 2 ^ (d + (e + 1200)) < 2 ^ (k + 1 + 1200)).
  { rewrite pow2_split by lia.
    replace (k + 1 + 1200) with (1 + (k + 1200)) by lia.
    rewrite (pow2_split 1) by lia. change (2 ^ 1) with 2.
    pose proof (Z.mul_le_mono_nonneg_r _ _ (2 ^ (e + 1200)) ltac:(lia) Hd).
    lia. }
  apply pow2_lt_inv in H1; lia.
Qed.

(** Rounding a positive value below [2 ^ k] to binary64: the result is
    within [2 ^ (k - 51)] below and [2 ^ (k - 53)] above the exact value. *)
Lemma round_near (M : positive) (e k : Z) :
  -1200 <= e -> e <= k - 53 -> -1021 <= k <= 1000 ->
  Zpos M * 2 ^ (e + 1200) < 2 ^ (k + 1200) ->
  exists m2 e2,
    binary_round_aux Js.prec Js.emax false (Zpos M) e loc_Exact
      = round_result m2 e2 /\
    0 <= m2 /\ e <= e2 <= k - 52 /\
    Zpos M * 2 ^ (e + 1200) - 2 ^ (k - 51 + 1200) <= m2 * 2 ^ (e2 + 1200) /\
    m2 * 2 ^ (e2 + 1200) <= Zpos M * 2 ^ (e + 1200) + 2 ^ (k - 53 + 1200).
Proof.
  intros He Hek Hk Hv.
  destruct (binary_round_aux_pos M e) as (m1 & e1 & e2 & He1 & Hm1 & He2 & Hres).
  rewrite fexp_eq in He1, He2.
  pose proof (digits_bound (Zpos M) e k ltac:(lia) He ltac:(lia) Hv) as Hd.
  cbn [Zdigits2] in Hd.
  assert (He1b : e <= e1 <= k - 53) by lia.
  set (a := e1 - e) in *.
  assert (Pa : 0 < 2 ^ a) by (apply pow2_pos; lia).
  assert (Pe : 0 < 2 ^ (e + 1200)) by (apply pow2_pos; lia).
  assert (Ee1 : 2 ^ (e1 + 1200) = 2 ^ a * 2 ^ (e + 1200)).
  { rewrite <- pow2_split by lia. f_equal. lia. }
  assert (Hq : 0 <= Zpos M / 2 ^ a) by (apply Z.div_pos; lia).
  assert (Hq1 : Zpos M / 2 ^ a * 2 ^ a <= Zpos M).
  { rewrite Z.mul_comm. apply Z.mul_div_le. lia. }
  assert (Hq2 : Zpos M < Zpos M / 2 ^ a * 2 ^ a + 2 ^ a).
  { pose proof (Z.mod_pos_bound (Zpos M) (2 ^ a) Pa) as Hmod.
    pose proof (Z.div_mod (Zpos M) (2 ^ a) ltac:(lia)) as Hdm. lia. }
  assert (Hm1a : m1 * 2 ^ a <= Zpos M + 2 ^ a).
  { apply Z.le_trans with ((Zpos M / 2 ^ a + 1) * 2 ^ a);
      [apply Z.mul_le_mono_nonneg_r; lia | lia]. }
  assert (Hm1b : Zpos M - 2 ^ a <= m1 * 2 ^ a).
  { apply Z.le_trans with (Zpos M / 2 ^ a * 2 ^ a);
      [lia | apply Z.mul_le_mono_nonneg_r; lia]. }
  assert (Hm1v : m1 * 2 ^ (e1 + 1200)
                 <= Zpos M * 2 ^ (e + 1200) + 2 ^ (e1 + 1200)).
  { rewrite Ee1.
    pose proof (Z.mul_le_mono_nonneg_r _ _ (2 ^ (e + 1200)) ltac:(lia) Hm1a).
    lia. }
  assert (Hm1l : Zpos M * 2 ^ (e + 1200) - 2 ^ (e1 + 1200)
                 <= m1 * 2 ^ (e1 + 1200)).
  { rewrite Ee1.
    pose proof (Z.mul_le_mono_nonneg_r _ _ (2 ^ (e + 1200)) ltac:(lia) Hm1b).
    lia. }
  assert (Pk53 : 2 ^ (e1 + 1200) <= 2 ^ (k - 53 + 1200)) by (apply pow2_le; lia).
  assert (Pk : 2 ^ (k - 53 + 1200) < 2 ^ (k + 1200)).
  { apply Z.pow_lt_mono_r; lia. }
  assert (Hd1 : Zdigits2 m1 + e1 <= k + 1).
  { destruct (Z.eq_dec m1 0) as [E|E]; [rewrite E; cbn [Zdigits2]; lia|].
    apply digits_bound; try lia.
    replace (k + 1 + 1200) with (1 + (k + 1200)) by lia.
    rewrite (pow2_split 1) by lia. change (2 ^ 1) with 2. lia. }
  assert (He2b : e1 <= e2 <= k - 52) by lia.
  set (c := e2 - e1) in *.
  assert (Pc : 0 < 2 ^ c) by (apply pow2_pos; lia).
  assert (Ee2 : 2 ^ (e2 + 1200) = 2 ^ c * 2 ^ (e1 + 1200)).
  { rewrite <- pow2_split by lia. f_equal. lia. }
  assert (Pe1 : 0 < 2 ^ (e1 + 1200)) by (apply pow2_pos; lia).
  assert (Hm2 : 0 <= m1 / 2 ^ c) by (apply Z.div_pos; lia).
  assert (Hm2u : m1 / 2 ^ c * 2 ^ c <= m1).
  { rewrite Z.mul_comm. apply Z.mul_div_le. lia. }
  assert (Hm2l : m1 < m1 / 2 ^ c * 2 ^ c + 2 ^ c).
  { pose proof (Z.mod_pos_bound m1 (2 ^ c) Pc) as Hmod.
    pose proof (Z.div_mod m1 (2 ^ c) ltac:(lia)) as Hdm. lia. }
  assert (Pk52 : 2 ^ (e2 + 1200) <= 2 ^ (k - 52 + 1200)) by (apply pow2_le; lia).
  assert (Esum : 2 ^ (k - 51 + 1200) = 2 * 2 ^ (k - 52 + 1200)).
  { replace (k - 51 + 1200) with (1 + (k - 52 + 1200)) by lia.
    rewrite (pow2_split 1) by lia. reflexivity. }
  assert (E5253 : 2 ^ (k - 52 + 1200) = 2 * 2 ^ (k - 53 + 1200)).
  { replace (k - 52 + 1200) with (1 + (k - 53 + 1200)) by lia.
    rewrite (pow2_split 1) by lia. reflexivity. }
  exists (m1 / 2 ^ c), e2. split; [exact Hres|]. split; [exact Hm2|].
  split; [lia|]. split.
  - assert (m1 * 2 ^ (e1 + 1200) - 2 ^ (e2 + 1200)
            <= m1 / 2 ^ c * 2 ^ (e2 + 1200)).
    { rewrite Ee2.
      assert (Hc : m1 - 2 ^ c <= m1 / 2 ^ c * 2 ^ c) by lia.
      pose proof (Z.mul_le_mono_nonneg_r _ _ (2 ^ (e1 + 1200)) ltac:(lia) Hc).
      lia. }
    lia.
  - assert (m1 / 2 ^ c * 2 ^ (e2 + 1200) <= m1 * 2 ^ (e1 + 1200)).
    { rewrite Ee2.
      pose proof (Z.mul_le_mono_nonneg_r _ _ (2 ^ (e1 + 1200)) ltac:(lia) Hm2u).
      lia. }
    lia.
Qed.

Lemma unit_value (m : positive) (e : Z) :
  bounded Js.prec Js.emax m e = true ->
  SFltb (S754_finite false m e) (Js.of_int 1) = true ->
  -1074 <= e <= -52 /\ Zpos m * 2 ^ (e + 1200) < 2 ^ 1200.
Proof.
  intros Hb Hlt. destruct (bounded_inv _ _ Hb) as [Hm He].
  change (Js.of_int 1) with (S754_finite false 4503599627370496 (-52)) in Hlt.
  unfold SFltb, SFcompare in Hlt.
  assert (P : 0 < 2 ^ (e + 1200)) by (apply pow2_pos; lia).
  destruct (Z.compare_spec e (-52)) as [E|E|E]; [| |discriminate].
  - split; [lia|]. subst e.
    destruct (Pos.compare_cont Eq m 4503599627370496) eqn:C; try discriminate.
    apply Pos.compare_lt_iff in C. apply Pos2Z.pos_lt_pos in C.
    rewrite (pow2_shift (-52 + 1200) 1200) by lia.
    replace (1200 - (-52 + 1200)) with 52 by lia.
    change (2 ^ 52) with 4503599627370496.
    apply Z.mul_lt_mono_pos_r; assumption.
  - split; [lia|].
    rewrite (pow2_shift (e + 1200) 1200) by lia.
    assert (2 ^ 53 <= 2 ^ (1200 - (e + 1200))) by (apply pow2_le; lia).
    apply Z.mul_lt_mono_pos_r; [exact P | lia].
Qed.

(** [random01 * range]: at most 9, up to the rounding. *)
Lemma mul_nine_value (m : positive) (e : Z) :
  -1074 <= e <= -52 -> Zpos m * 2 ^ (e + 1200) < 2 ^ 1200 ->
  exists m2 e2,
    Js.mul (S754_finite false m e) (Js.of_int 9) = round_result m2 e2 /\
    0 <= m2 /\ -1123 <= e2 <= -48 /\
    m2 * 2 ^ (e2 + 1200) <= 9 * 2 ^ 1200 + 2 ^ (-49 + 1200).
Proof.
  intros He Hv.
  change (Js.of_int 9) with (S754_finite false 5066549580791808 (-49)).
  unfold Js.mul. cbn [SFmul xorb].
  set (M := (m * 5066549580791808)%positive).
  assert (EM : Zpos M = Zpos m * (9 * 2 ^ 49)) by reflexivity.
  assert (P : 0 < 2 ^ (e + -49 + 1200)) by (apply pow2_pos; lia).
  assert (E : 2 ^ (e + 1200) = 2 ^ 49 * 2 ^ (e + -49 + 1200)).
  { rewrite <- pow2_split by lia. f_equal. lia. }
  assert (EV : Zpos M * 2 ^ (e + -49 + 1200) = 9 * (Zpos m * 2 ^ (e + 1200))).
  { rewrite EM, E. ring. }
  assert (E4 : 2 ^ (4 + 1200) = 16 * 2 ^ 1200).
  { rewrite pow2_split by lia. reflexivity. }
  assert (P0 : 0 < 2 ^ 1200) by (apply pow2_pos; lia).
  assert (Hlt : Zpos M * 2 ^ (e + -49 + 1200) < 2 ^ (4 + 1200)).
  { rewrite EV, E4. lia. }
  destruct (round_near M (e + -49) 4 ltac:(lia) ltac:(lia) ltac:(lia) Hlt)
    as (m2 & e2 & Hres & Hm2 & He2 & _ & Hu).
  exists m2, e2. split; [exact Hres|]. split; [exact Hm2|]. split; [lia|].
  replace (4 - 53 + 1200) with (-49 + 1200) in Hu by lia.
  rewrite EV in Hu. lia.
Qed.

Lemma shl_align_spec (mx : positive) (ex ez : Z) :
  snd (shl_align mx ex ez) = Z.min ex ez /\
  Zpos (fst (shl_align mx ex ez)) = Zpos mx * 2 ^ (ex - Z.min ex ez).
Proof.
  unfold shl_align. destruct (ez - ex) as [|d|d] eqn:E; cbn [fst snd].
  - replace (Z.min ex ez) with ex by lia. rewrite Z.sub_diag. split; lia.
  - replace (Z.min ex ez) with ex by lia. rewrite Z.sub_diag. split; lia.
  - replace (Z.min ex ez) with ez by lia. split; [reflexivity|].
    change (PosDef.Pos.iter xO mx d) with (shift_pos d mx).
    rewrite shift_pos_correct. replace (ex - ez) with (Zpos d) by lia.
    change (2 ^ Zpos d) with (Z.pow_pos 2 d). ring.
Qed.

(** The value of a sum of two positive numbers before it is rounded. *)
Lemma add_exact (mx my : positive) (ex ey : Z) :
  -1123 <= ex -> -1123 <= ey ->
  exists mz ez,
    SFadd Js.prec Js.emax (S754_finite false mx ex) (S754_finite false my ey)
      = binary_round_aux Js.prec Js.emax false (Zpos mz) ez loc_Exact /\
    -1123 <= ez <= Z.min ex ey /\
    Zpos mz * 2 ^ (ez + 1200)
      = Zpos mx * 2 ^ (ex + 1200) + Zpos my * 2 ^ (ey + 1200).
Proof.
  intros Hex Hey. cbn [SFadd cond_Zopp].
  change IntDef.Z.min with Z.min.
  destruct (shl_align_spec mx ex (Z.min ex ey)) as [_ Hx].
  destruct (shl_align_spec my ey (Z.min ex ey)) as [_ Hy].
  replace (Z.min ex (Z.min ex ey)) with (Z.min ex ey) in Hx by lia.
  replace (Z.min ey (Z.min ex ey)) with (Z.min ex ey) in Hy by lia.
  set (ez := Z.min ex ey) in *.
  set (ax := fst (shl_align mx ex ez)) in *.
  set (ay := fst (shl_align my ey ez)) in *.
  change (Zpos ax + Zpos ay) with (Zpos (ax + ay)).
  cbn [binary_normalize]. unfold binary_round.
  destruct (shl_align_spec (ax + ay) ez
              (fexp Js.prec Js.emax (Zpos (digits2_pos (ax + ay)) + ez)))
    as [Hs Hf].
  destruct (shl_align (ax + ay) ez
              (fexp Js.prec Js.emax (Zpos (digits2_pos (ax + ay)) + ez)))
    as [mz ez'] eqn:Ealign.
  cbn [fst snd] in Hs, Hf.
  exists mz, ez'. split; [reflexivity|].
  rewrite <- Hs in Hf. rewrite fexp_eq in Hs.
  assert (Hez' : -1123 <= ez' <= ez) by lia.
  split; [lia|].
  assert (Px : 2 ^ (ex + 1200) = 2 ^ (ex - ez) * 2 ^ (ez + 1200)).
  { rewrite <- pow2_split by lia. f_equal. lia. }
  assert (Py : 2 ^ (ey + 1200) = 2 ^ (ey - ez) * 2 ^ (ez + 1200)).
  { rewrite <- pow2_split by lia. f_equal. lia. }
  assert (Pz : 2 ^ (ez + 1200) = 2 ^ (ez - ez') * 2 ^ (ez' + 1200)).
  { rewrite <- pow2_split by lia. f_equal. lia. }
  rewrite Hf, Pos2Z.inj_add, Hx, Hy, Px, Py, Pz. ring.
Qed.

(** [... + MIN_BUY_AMOUNT_USD]: between 1 and 10, up to the roundings. *)
Lemma add_one_value (m2 e2 : Z) :
  0 <= m2 -> -1123 <= e2 <= -48 ->
  m2 * 2 ^ (e2 + 1200) <= 9 * 2 ^ 1200 + 2 ^ (-49 + 1200) ->
  exists mq eq,
    number_add (round_result m2 e2) (Js.of_int 1) = S754_finite false mq eq /\
    -1123 <= eq <= -48 /\
    2 ^ 1200 - 2 ^ (-47 + 1200) <= Zpos mq * 2 ^ (eq + 1200) /\
    Zpos mq * 2 ^ (eq + 1200) <= 10 * 2 ^ 1200 + 2 ^ (-48 + 1200).
Proof.
  intros Hm2 He2 Hv.
  change (Js.of_int 1) with (S754_finite false 4503599627370496 (-52)).
  unfold number_add.
  assert (E1200 : 2 ^ 1200 = 2 ^ 49 * 2 ^ (-49 + 1200)) by reflexivity.
  assert (E47 : 2 ^ (-47 + 1200) = 4 * 2 ^ (-49 + 1200)) by reflexivity.
  assert (E48 : 2 ^ (-48 + 1200) = 2 * 2 ^ (-49 + 1200)) by reflexivity.
  assert (E52 : 2 ^ 1200 = 4503599627370496 * 2 ^ (-52 + 1200)) by reflexivity.
  assert (E4 : 2 ^ (4 + 1200) = 16 * 2 ^ 1200) by reflexivity.
  assert (Pu : 0 < 2 ^ (-49 + 1200)) by (apply pow2_pos; lia).
  change (2 ^ 49) with 562949953421312 in E1200.
  set (u := 2 ^ (-49 + 1200)) in *.
  set (U := 2 ^ 1200) in *.
  destruct m2 as [|mp|mp]; [| |lia].
  - cbn [round_result SFadd].
    exists 4503599627370496%positive, (-52). split; [reflexivity|].
    split; [lia|]. rewrite <- E52. lia.
  - unfold round_result.
    destruct (Z.leb_spec e2 (Js.emax - Js.prec)) as [_|L];
      [|unfold Js.emax, Js.prec in L; lia].
    destruct (add_exact mp 4503599627370496 e2 (-52) ltac:(lia) ltac:(lia))
      as (mz & ez & Hadd & Hez & Hval).
    rewrite Hadd. rewrite <- E52 in Hval.
    assert (Hlt : Zpos mz * 2 ^ (ez + 1200) < 2 ^ (4 + 1200)).
    { rewrite Hval, E4. lia. }
    destruct (round_near mz ez 4 ltac:(lia) ltac:(lia) ltac:(lia) Hlt)
      as (m2q & e2q & Hres & Hm2q & He2q & Hlo & Hhi).
    rewrite Hres.
    replace (4 - 51 + 1200) with (-47 + 1200) in Hlo by lia.
    replace (4 - 53 + 1200) with (-49 + 1200) in Hhi by lia.
    fold u in Hhi. rewrite E47 in Hlo. rewrite Hval in Hlo, Hhi.
    assert (Pq : 0 < 2 ^ (e2q + 1200)) by (apply pow2_pos; lia).
    destruct m2q as [|mq|mq]; [lia | | lia].
    unfold round_result.
    destruct (Z.leb_spec e2q (Js.emax - Js.prec)) as [_|L];
      [|unfold Js.emax, Js.prec in L; lia].
    exists mq, e2q. split; [reflexivity|]. split; [lia|]. split; lia.
Qed.

(** [random * 100]: between 99.5 and 1000.5. *)
Lemma mul_hundred_value (mq : positive) (eq : Z) :
  -1123 <= eq <= -48 ->
  2 ^ 1200 - 2 ^ (-47 + 1200) <= Zpos mq * 2 ^ (eq + 1200) ->
  Zpos mq * 2 ^ (eq + 1200) <= 10 * 2 ^ 1200 + 2 ^ (-48 + 1200) ->
  exists mt et,
    Js.mul (S754_finite false mq eq) (Js.of_int 100) = S754_finite false mt et /\
    -1169 <= et <= -42 /\
    199 * 2 ^ 1200 <= 2 * (Zpos mt * 2 ^ (et + 1200)) /\
    2 * (Zpos mt * 2 ^ (et + 1200)) < 2001 * 2 ^ 1200.
Proof.
  intros He Hlo Hhi.
  change (Js.of_int 100) with (S754_finite false 7036874417766400 (-46)).
  unfold Js.mul. cbn [SFmul xorb].
  set (M := (mq * 7036874417766400)%positive).
  assert (EM : Zpos M = Zpos mq * (100 * 2 ^ 46)) by reflexivity.
  assert (P : 0 < 2 ^ (eq + -46 + 1200)) by (apply pow2_pos; lia).
  assert (E : 2 ^ (eq + 1200) = 2 ^ 46 * 2 ^ (eq + -46 + 1200)).
  { rewrite <- pow2_split by lia. f_equal. lia. }
  assert (EV : Zpos M * 2 ^ (eq + -46 + 1200)
               = 100 * (Zpos mq * 2 ^ (eq + 1200))).
  { rewrite EM, E. ring. }
  assert (E1200 : 2 ^ 1200 = 2 ^ 49 * 2 ^ (-49 + 1200)) by reflexivity.
  assert (E47 : 2 ^ (-47 + 1200) = 4 * 2 ^ (-49 + 1200)) by reflexivity.
  assert (E48 : 2 ^ (-48 + 1200) = 2 * 2 ^ (-49 + 1200)) by reflexivity.
  assert (E41 : 2 ^ (-41 + 1200) = 256 * 2 ^ (-49 + 1200)) by reflexivity.
  assert (E43 : 2 ^ (-43 + 1200) = 64 * 2 ^ (-49 + 1200)) by reflexivity.
  assert (E10 : 2 ^ (10 + 1200) = 1024 * 2 ^ 1200) by reflexivity.
  assert (Pu : 0 < 2 ^ (-49 + 1200)) by (apply pow2_pos; lia).
  change (2 ^ 49) with 562949953421312 in E1200.
  set (u := 2 ^ (-49 + 1200)) in *.
  set (U := 2 ^ 1200) in *.
  assert (Hlt : Zpos M * 2 ^ (eq + -46 + 1200) < 2 ^ (10 + 1200)).
  { rewrite EV, E10. lia. }
  destruct (round_near M (eq + -46) 10 ltac:(lia) ltac:(lia) ltac:(lia) Hlt)
    as (m2 & e2 & Hres & Hm2 & He2 & Hl & Hu).
  rewrite Hres.
  replace (10 - 51 + 1200) with (-41 + 1200) in Hl by lia.
  replace (10 - 53 + 1200) with (-43 + 1200) in Hu by lia.
  rewrite E41 in Hl. rewrite E43 in Hu. rewrite EV in Hl, Hu.
  assert (Pt : 0 < 2 ^ (e2 + 1200)) by (apply pow2_pos; lia).
  destruct m2 as [|mt|mt]; [lia | | lia].
  unfold round_result.
  destruct (Z.leb_spec e2 (Js.emax - Js.prec)) as [_|L];
    [|unfold Js.emax, Js.prec in L; lia].
  exists mt, e2. split; [reflexivity|]. split; [lia|]. split; lia.
Qed.

(** [Math.round] of a number between 99.5 and 1000.5. *)
Lemma Math_round_value (mt : positive) (et : Z) :
  -1200 <= et < 0 ->
  199 * 2 ^ 1200 <= 2 * (Zpos mt * 2 ^ (et + 1200)) ->
  2 * (Zpos mt * 2 ^ (et + 1200)) < 2001 * 2 ^ 1200 ->
  exists n, 100 <= n <= 1000 /\
            Math_round (S754_finite false mt et) = Js.of_int n.
Proof.
  intros He Hlo Hhi. unfold Math_round.
  destruct (Z.leb_spec 0 et) as [L|_]; [lia|].
  assert (PU : 0 < 2 ^ (- et)) by (apply pow2_pos; lia).
  assert (PW : 0 < 2 ^ (et + 1200)) by (apply pow2_pos; lia).
  assert (E : 2 ^ 1200 = 2 ^ (- et) * 2 ^ (et + 1200)).
  { rewrite <- pow2_split by lia. f_equal. lia. }
  rewrite E in Hlo, Hhi.
  set (U := 2 ^ (- et)) in *. set (W := 2 ^ (et + 1200)) in *.
  assert (H1 : 199 * U <= 2 * Zpos mt).
  { apply (Z.mul_le_mono_pos_r _ _ W PW). lia. }
  assert (H2 : 2 * Zpos mt < 2001 * U).
  { apply (Z.mul_lt_mono_pos_r W _ _ PW). lia. }
  set (n := (2 * Zpos mt + U) / (2 * U)).
  assert (Hn1 : 100 <= n).
  { apply Z.div_le_lower_bound; lia. }
  assert (Hn2 : n < 1001).
  { apply Z.div_lt_upper_bound; lia. }
  exists n. split; [lia|].
  destruct (Z.eqb_spec n 0) as [E0|_]; [lia | reflexivity].
Qed.

Lemma decimal_in_bounds (n : Z) :
  100 <= n <= 1000 ->
  Js.leb MIN_BUY_AMOUNT_USD (Js.decimal n 2) = true /\
  Js.leb (Js.decimal n 2) MAX_BUY_AMOUNT_USD = true.
Proof.
  intros Hn.
  assert (Hall : forallb
                   (fun i => Js.leb MIN_BUY_AMOUNT_USD (Js.decimal (Z.of_nat i) 2)
                             && Js.leb (Js.decimal (Z.of_nat i) 2)
                                  MAX_BUY_AMOUNT_USD)
                   (seq 100 901) = true) by (vm_compute; reflexivity).
  rewrite forallb_forall in Hall.
  specialize (Hall (Z.to_nat n)).
  rewrite Z2Nat.id in Hall by lia.
  apply andb_prop. apply Hall. apply in_seq. lia.
Qed.

Lemma generateRandomBuyAmount_cents (random01 : Js.number) :
  unitInterval random01 = true ->
  exists cents,
    100 <= cents <= 1000 /\
    generateRandomBuyAmount random01 = Js.decimal cents 2.
Proof.
  intros Hr. unfold unitInterval in Hr.
  apply andb_prop in Hr. destruct Hr as [Hr Hlt].
  apply andb_prop in Hr. destruct Hr as [Hvalid Hpos].
  destruct random01 as [s|s| |s m e]; try discriminate.
  - exists 100. split; [lia|]. destruct s; vm_compute; reflexivity.
  - destruct s; discriminate.
  - destruct s; [discriminate|].
    destruct (unit_value m e Hvalid Hlt) as [He Hv].
    unfold generateRandomBuyAmount.
    change (number_sub MAX_BUY_AMOUNT_USD MIN_BUY_AMOUNT_USD)
      with (Js.of_int 9).
    change MIN_BUY_AMOUNT_USD with (Js.of_int 1).
    cbv zeta.
    destruct (mul_nine_value m e He Hv) as (m2 & e2 & Hp & Hm2 & He2 & Hpv).
    rewrite Hp.
    destruct (add_one_value m2 e2 Hm2 He2 Hpv)
      as (mq & eq & Hq & Heq & Hql & Hqh).
    rewrite Hq.
    destruct (mul_hundred_value mq eq Heq Hql Hqh)
      as (mt & et & Ht & Het & Htl & Hth).
    rewrite Ht.
    destruct (Math_round_value mt et ltac:(lia) Htl Hth) as (n & Hn & Hround).
    rewrite Hround. exists n. split; [exact Hn | reflexivity].
Qed.

(** X24: for every number that [Math.random()] can return, a binary64 value
    from 0 up to but excluding 1, [generateRandomBuyAmount] returns a whole
    number of cents between 100 and 1000 divided by 100: one of the 901
    amounts 1.00, 1.01, ..., 10.00, and so never less than
    MIN_BUY_AMOUNT_USD nor more than MAX_BUY_AMOUNT_USD, whatever the
    roundings of the three floating-point operations before [Math.round]. *)
Theorem generateRandomBuyAmount_in_range (random01 : Js.number) :
  unitInterval random01 = true ->
  exists cents,
    100 <= cents <= 1000 /\
    generateRandomBuyAmount random01 = Js.decimal cents 2 /\
    Js.leb MIN_BUY_AMOUNT_USD (generateRandomBuyAmount random01) = true /\
    Js.leb (generateRandomBuyAmount random01) MAX_BUY_AMOUNT_USD = true.
Proof.
  intros Hr.
  destruct (generateRandomBuyAmount_cents random01 Hr) as (cents & Hc & Heq).
  exists cents. split; [exact Hc|]. split; [exact Heq|].
  rewrite Heq. apply decimal_in_bounds. exact Hc.
Qed.

Lemma generateRandomBuyAmount_in_range_witness :
  exists cents,
    100 <= cents <= 1000 /\
    generateRandomBuyAmount (Js.decimal 5 1) = Js.decimal cents 2 /\
    Js.leb MIN_BUY_AMOUNT_USD (generateRandomBuyAmount (Js.decimal 5 1)) = true /\
    Js.leb (generateRandomBuyAmount (Js.decimal 5 1)) MAX_BUY_AMOUNT_USD = true.
Proof.
  exact (generateRandomBuyAmount_in_range (Js.decimal 5 1) eq_refl).
Defined.

(** The two ends and the middle of the interval: 0 gives $1, the largest
    number below 1 gives $10, and 0.5 gives $5.50. *)
Example generateRandomBuyAmount_ends :
  generateRandomBuyAmount (Js.of_int 0) = Js.decimal 100 2 /\
  generateRandomBuyAmount (S754_finite false 9007199254740991 (-53))
    = Js.decimal 1000 2 /\
  generateRandomBuyAmount (Js.decimal 5 1) = Js.decimal 550 2.
Proof. repeat split; vm_compute; reflexivity. Qed.


(* ================================================================== *)
(** * The gas limit of a swap *)
(* ================================================================== *)

Section GasFacts.
Context {W : Type} `{Ethers W}.

(** X25: the callback that submits a swap first asks for a gas estimate.
    When the estimate fails, its error is thrown and nothing is submitted.
    Otherwise exactly one swap is submitted, with the gas limit
    [estimate * 130 / 100]: [Math.floor(GAS_LIMIT_MULTIPLIER * 100)] is
    exactly 130 in binary64, so the buffer is the same 30% that
    [approveToken] spells as [130n]; for an estimate that is not negative
    the limit is at least the estimate and at most 1.3 times it. *)
Theorem submitSwap_gas_buffer (swapParams : SwapParams.t) (st : State W) :
  match router_exactInputSingle_estimateGas swapParams (world st) with
  | (Ok gasEstimate, w1) =>
      let gasLimit := Z.quot (gasEstimate * 130) 100 in
      let sent := router_exactInputSingle swapParams gasLimit w1 in
      submitSwap swapParams st
      = (match fst sent with Ok tx => Returned tx | Raise e => Thrown e end,
         mkState (snd sent)
           (journal st ++ [SwapSubmitted swapParams gasLimit])) /\
      (0 <= gasEstimate ->
       gasEstimate <= gasLimit /\ 10 * gasLimit <= 13 * gasEstimate)
  | (Raise e, w1) =>
      submitSwap swapParams st = (Thrown e, mkState w1 (journal st))
  end.
Proof.
  unfold submitSwap, bind, call, lift, emit, ret, throw.
  destruct (router_exactInputSingle_estimateGas swapParams (world st))
    as [[gasEstimate|e] w1]; [|reflexivity].
  change (gasLimitFor gasEstimate) with (@Ok Z (Z.quot (gasEstimate * 130) 100)).
  cbn [world journal fst snd].
  destruct (router_exactInputSingle swapParams
              (Z.quot (gasEstimate * 130) 100) w1) as [[tx|e] w2];
    cbn [fst snd]; (split; [reflexivity|]);
    intros Hg; rewrite Z.quot_div_nonneg by lia;
    (split; [apply Z.div_le_lower_bound; lia
            | pose proof (Z.mul_div_le (gasEstimate * 130) 100 ltac:(lia)); lia]).
Qed.

End GasFacts.

(* ================================================================== *)
(** * Failures after the swap was submitted *)
(* ================================================================== *)

Section AfterSubmission.
Context {W : Type} `{Ethers W}.

(** X26: a purchase can fail after its swap was submitted.  When the swap
    went out and the wait for its confirmation throws (the transaction
    reverted, or the 120 s timer won), [executeBuy] throws that same error,
    and the journal of the state it leaves holds the submission: the error
    does not mean that nothing was traded. *)
Theorem executeBuy_fails_after_submission (tokenAddress : Address)
  (amountUsd slippageTolerance ethPriceUsd : Js.number)
  (st st1 st2 st3 st4 st5 st6 st7 st8 st9 : State W) (walletAddress : Address)
  (tokenInfo : TokenInfo) (wei wethBalance ethBalance : Z)
  (quote : Quote.t) (minAmountOut : Z) (approval : option Receipt) (tx : Tx)
  (e : Js.Error) :
  call wallet_getAddress st = (Returned walletAddress, st1) ->
  getTokenInfo tokenAddress st1 = (Returned tokenInfo, st2) ->
  getEthPriceUsd st2 = (Returned ethPriceUsd, st3) ->
  wethAmountWei amountUsd ethPriceUsd = Ok wei ->
  getTokenBalance WETH_ADDRESS walletAddress st3 = (Returned wethBalance, st4) ->
  getEthBalance walletAddress st4 = (Returned ethBalance, st5) ->
  10 ^ 15 <= ethBalance ->
  wei <= wethBalance ->
  findBestPoolFee WETH_ADDRESS tokenAddress wei st5 = (Returned quote, st6) ->
  calculateMinOutput (Quote.amountOut quote) slippageTolerance = Ok minAmountOut ->
  approveToken WETH_ADDRESS UNISWAP_V3_ROUTER wei st6 = (Returned approval, st7) ->
  executeWithRetry
    (submitSwap (SwapParams.mk WETH_ADDRESS tokenAddress (Quote.fee quote)
                   walletAddress wei minAmountOut 0))
    "Buy swap" st7 = (Returned tx, st8) ->
  waitForTransaction tx None st8 = (Thrown e, st9) ->
  executeBuy tokenAddress amountUsd slippageTolerance st = (Thrown e, st9) /\
  exists gasLimit,
    In (SwapSubmitted
          (SwapParams.mk WETH_ADDRESS tokenAddress (Quote.fee quote)
             walletAddress wei minAmountOut 0) gasLimit)
       (journal st9).
Proof.
  intros H1 H2 H3 Hwei H4 H5 Hgas Hweth Hq Hmin Happ Hswap Hwait.
  split.
  - unfold executeBuy.
    rewrite (bind_returned _ _ _ _ _ H1).
    rewrite (bind_returned _ _ _ _ _ H2).
    rewrite (bind_returned _ _ _ _ _ H3).
    rewrite Hwei.
    rewrite (bind_returned (lift (Ok wei)) _ st3 st3 wei eq_refl).
    rewrite (bind_returned _ _ _ _ _ H4).
    rewrite (bind_returned _ _ _ _ _ H5).
    cbv beta zeta.
    unfold validateSufficientBalance at 1.
    destruct (Z.ltb_spec ethBalance (10 ^ 15)); [lia|].
    rewrite (bind_returned (lift (Ok tt)) _ st5 st5 tt eq_refl).
    unfold validateSufficientBalance at 1.
    destruct (Z.ltb_spec wethBalance wei); [lia|].
    rewrite (bind_returned (lift (Ok tt)) _ st5 st5 tt eq_refl).
    rewrite (bind_returned _ _ _ _ _ Hq).
    cbv beta zeta. rewrite Hmin.
    rewrite (bind_returned (lift (Ok minAmountOut)) _ st6 st6 minAmountOut eq_refl).
    rewrite (bind_returned _ _ _ _ _ Happ).
    rewrite (bind_returned _ _ _ _ _ Hswap).
    unfold bind at 1. rewrite Hwait. reflexivity.
  - destruct (retried_swap_in_journal _ _ _ _ _ Hswap) as [gasLimit Hin].
    exists gasLimit.
    destruct (emits_waitForTransaction (fun _ => True) tx None _ _ _ Hwait)
      as (evs & J & _).
    rewrite J. apply in_or_app. left. exact Hin.
Qed.

(** X27: the same for a sale: when the swap went out and the wait for its
    confirmation throws, [executeSell] throws that error and the journal
    holds the submission of the whole balance. *)
Theorem executeSell_fails_after_submission (tokenAddress : Address)
  (slippageTolerance : Js.number)
  (st st1 st2 st3 st4 st5 st6 st7 : State W)
  (walletAddress : Address) (tokenInfo : TokenInfo) (B : Z)
  (quote : Quote.t) (minAmountOut : Z) (approval : option Receipt) (tx : Tx)
  (e : Js.Error) :
  call wallet_getAddress st = (Returned walletAddress, st1) ->
  getTokenInfo tokenAddress st1 = (Returned tokenInfo, st2) ->
  getTokenBalance tokenAddress walletAddress st2 = (Returned B, st3) ->
  B <> 0 ->
  findBestPoolFee tokenAddress WETH_ADDRESS B st3 = (Returned quote, st4) ->
  calculateMinOutput (Quote.amountOut quote) slippageTolerance = Ok minAmountOut ->
  approveToken tokenAddress UNISWAP_V3_ROUTER B st4 = (Returned approval, st5) ->
  executeWithRetry
    (submitSwap (SwapParams.mk tokenAddress WETH_ADDRESS (Quote.fee quote)
                   walletAddress B minAmountOut 0))
    "Sell swap" st5 = (Returned tx, st6) ->
  waitForTransaction tx None st6 = (Thrown e, st7) ->
  executeSell tokenAddress slippageTolerance st = (Thrown e, st7) /\
  exists gasLimit,
    In (SwapSubmitted
          (SwapParams.mk tokenAddress WETH_ADDRESS (Quote.fee quote)
             walletAddress B minAmountOut 0) gasLimit)
       (journal st7).
Proof.
  intros H1 H2 H3 HB Hq Hmin Happ Hswap Hwait.
  split.
  - unfold executeSell.
    rewrite (bind_returned _ _ _ _ _ H1).
    rewrite (bind_returned _ _ _ _ _ H2).
    rewrite (bind_returned _ _ _ _ _ H3).
    destruct (Z.eqb_spec B 0) as [E|_]; [contradiction|].
    rewrite (bind_returned _ _ _ _ _ Hq).
    cbv beta zeta. rewrite Hmin.
    rewrite (bind_returned (lift (Ok minAmountOut)) _ st4 st4 minAmountOut eq_refl).
    rewrite (bind_returned _ _ _ _ _ Happ).
    rewrite (bind_returned _ _ _ _ _ Hswap).
    unfold bind at 1. rewrite Hwait. reflexivity.
  - destruct (retried_swap_in_journal _ _ _ _ _ Hswap) as [gasLimit Hin].
    exists gasLimit.
    destruct (emits_waitForTransaction (fun _ => True) tx None _ _ _ Hwait)
      as (evs & J & _).
    rewrite J. apply in_or_app. left. exact Hin.
Qed.

End AfterSubmission.

Lemma executeBuy_fails_after_submission_witness :
  executeBuy "0xToken" (Js.of_int 5) (Js.of_int 5)
    (mkState (Demo.mk Demo.tiedQuotes (10 ^ 16) (10 ^ 16) [] NeverSettles) [])
  = (Thrown timeoutError,
     mkState (Demo.mk Demo.tiedQuotes (10 ^ 16) (10 ^ 16) [] NeverSettles)
       [Attempt "Buy swap" 1;
        SwapSubmitted
          (SwapParams.mk WETH_ADDRESS "0xToken" 10000 "0xWallet"
             (2 * 10 ^ 15) 67 0)
          130000]).
Proof.
  refine (proj1
    (executeBuy_fails_after_submission (H := Demo.ethers)
       "0xToken" (Js.of_int 5) (Js.of_int 5) (Js.of_int 2500)
       (mkState (Demo.mk Demo.tiedQuotes (10 ^ 16) (10 ^ 16) [] NeverSettles) [])
       (mkState (Demo.mk Demo.tiedQuotes (10 ^ 16) (10 ^ 16) [] NeverSettles) [])
       (mkState (Demo.mk Demo.tiedQuotes (10 ^ 16) (10 ^ 16) [] NeverSettles) [])
       (mkState (Demo.mk Demo.tiedQuotes (10 ^ 16) (10 ^ 16) [] NeverSettles) [])
       (mkState (Demo.mk Demo.tiedQuotes (10 ^ 16) (10 ^ 16) [] NeverSettles) [])
       (mkState (Demo.mk Demo.tiedQuotes (10 ^ 16) (10 ^ 16) [] NeverSettles) [])
       (mkState (Demo.mk Demo.tiedQuotes (10 ^ 16) (10 ^ 16) [] NeverSettles) [])
       (mkState (Demo.mk Demo.tiedQuotes (10 ^ 16) (10 ^ 16) [] NeverSettles) [])
       (mkState (Demo.mk Demo.tiedQuotes (10 ^ 16) (10 ^ 16) [] NeverSettles)
          [Attempt "Buy swap" 1;
           SwapSubmitted
             (SwapParams.mk WETH_ADDRESS "0xToken" 10000 "0xWallet"
                (2 * 10 ^ 15) 67 0)
             130000])
       (mkState (Demo.mk Demo.tiedQuotes (10 ^ 16) (10 ^ 16) [] NeverSettles)
          [Attempt "Buy swap" 1;
           SwapSubmitted
             (SwapParams.mk WETH_ADDRESS "0xToken" 10000 "0xWallet"
                (2 * 10 ^ 15) 67 0)
             130000])
       "0xWallet" (mkTokenInfo "Demo Token" "DEMO" 18 "0xToken")
       (2 * 10 ^ 15) (10 ^ 16) (10 ^ 18) (Quote.mk 10000 70) 67 None
       (mkTx "0xswap") timeoutError
       _ _ _ _ _ _ _ _ _ _ _ _ _)).
  all: first [ vm_compute; reflexivity | vm_compute; discriminate ].
Defined.

Lemma executeSell_fails_after_submission_witness :
  executeSell "0xToken" (Js.of_int 5)
    (mkState (Demo.mk Demo.tiedQuotes 500 500 [] NeverSettles) [])
  = (Thrown timeoutError,
     mkState (Demo.mk Demo.tiedQuotes 500 500 [] NeverSettles)
       [Attempt "Sell swap" 1;
        SwapSubmitted
          (SwapParams.mk "0xToken" WETH_ADDRESS 10000 "0xWallet" 500 67 0)
          130000]).
Proof.
  refine (proj1
    (executeSell_fails_after_submission (H := Demo.ethers)
       "0xToken" (Js.of_int 5)
       (mkState (Demo.mk Demo.tiedQuotes 500 500 [] NeverSettles) [])
       (mkState (Demo.mk Demo.tiedQuotes 500 500 [] NeverSettles) [])
       (mkState (Demo.mk Demo.tiedQuotes 500 500 [] NeverSettles) [])
       (mkState (Demo.mk Demo.tiedQuotes 500 500 [] NeverSettles) [])
       (mkState (Demo.mk Demo.tiedQuotes 500 500 [] NeverSettles) [])
       (mkState (Demo.mk Demo.tiedQuotes 500 500 [] NeverSettles) [])
       (mkState (Demo.mk Demo.tiedQuotes 500 500 [] NeverSettles)
          [Attempt "Sell swap" 1;
           SwapSubmitted
             (SwapParams.mk "0xToken" WETH_ADDRESS 10000 "0xWallet" 500 67 0)
             130000])
       (mkState (Demo.mk Demo.tiedQuotes 500 500 [] NeverSettles)
          [Attempt "Sell swap" 1;
           SwapSubmitted
             (SwapParams.mk "0xToken" WETH_ADDRESS 10000 "0xWallet" 500 67 0)
             130000])
       "0xWallet" (mkTokenInfo "Demo Token" "DEMO" 18 "0xToken")
       500 (Quote.mk 10000 70) 67 None (mkTx "0xswap") timeoutError
       _ _ _ _ _ _ _ _ _)).
  all: first [ vm_compute; reflexivity | vm_compute; discriminate ].
Defined.


(* ================================================================== *)
(** * The amount spent at the fallback price *)
(* ================================================================== *)

(** X28: when the price feed fails, a buy of the random amount is converted
    at $3000 per ETH; whatever [Math.random()] returned, the conversion
    succeeds and the amount to spend lies between 333333333333333 wei (for
    $1.00) and 3333333333333334 wei (for $10.00), that is, at most
    0.003333333333333334 WETH. *)
Theorem fallback_spend_in_range (random01 : Js.number) :
  unitInterval random01 = true ->
  exists wei,
    wethAmountWei (generateRandomBuyAmount random01) (Js.of_int 3000) = Ok wei /\
    333333333333333 <= wei <= 3333333333333334.
Proof.
  intros Hr.
  destruct (generateRandomBuyAmount_cents random01 Hr) as (cents & Hc & ->).
  assert (Hall : forallb
                   (fun i =>
                      match wethAmountWei (Js.decimal (Z.of_nat i) 2)
                              (Js.of_int 3000) with
                      | Ok wei => (333333333333333 <=? wei)
                                  && (wei <=? 3333333333333334)
                      | Raise _ => false
                      end)
                   (seq 100 901) = true) by (vm_compute; reflexivity).
  rewrite forallb_forall in Hall.
  specialize (Hall (Z.to_nat cents)).
  rewrite Z2Nat.id in Hall by lia.
  destruct (wethAmountWei (Js.decimal cents 2) (Js.of_int 3000)) as [wei|e].
  - exists wei. split; [reflexivity|].
    assert (Hin : In (Z.to_nat cents) (seq 100 901)) by (apply in_seq; lia).
    apply Hall in Hin. apply andb_prop in Hin. destruct Hin as [H1 H2].
    apply Z.leb_le in H1, H2. lia.
  - assert (Hin : In (Z.to_nat cents) (seq 100 901)) by (apply in_seq; lia).
    apply Hall in Hin. discriminate Hin.
Qed.

Lemma fallback_spend_in_range_witness :
  exists wei,
    wethAmountWei (generateRandomBuyAmount (Js.decimal 5 1)) (Js.of_int 3000)
    = Ok wei /\
    333333333333333 <= wei <= 3333333333333334.
Proof.
  exact (fallback_spend_in_range (Js.decimal 5 1) eq_refl).
Defined.
